(** * react-datepicker: the [useDatepicker] hook and its month window

    A shallow embedding of the date-range selection logic of the
    datepicker hook ([useDatepicker], [useDatepicker.utils]) together with
    the few date-fns helpers and ECMAScript [Date] primitives it is built
    on.

    Conventions of the embedding.
    - A JavaScript [Date] is its time value, an integer number of
      milliseconds since the epoch ([Z]).  Only valid dates are modelled
      (no [NaN] time value) and the local time zone is taken to be UTC,
      so that local and universal time coincide and there is no daylight
      saving shift.  Where a property depends on that, the function is
      also given with the time zone as an argument and an Invalid Date
      as a possible result ([addDaysIn]), and the property states what
      it needs of the zone.
    - A JavaScript exception ([RangeError], [TypeError]) is an explicit
      [Throw] result.
    - The calls a handler makes to React state setters and to the
      caller's [onDatesChange] are collected, in order, in a list of
      effects. *)

From Stdlib Require Import ZArith List Bool Lia.
Import ListNotations.

Local Open Scope Z_scope.

(** ** Results of computations that may throw *)

Inductive JsError : Type :=
| RangeError
| TypeError.

Inductive res (A : Type) : Type :=
| Ok (a : A)
| Throw (e : JsError).

Arguments Ok {A} a.
Arguments Throw {A} e.

Definition bind {A B : Type} (m : res A) (k : A -> res B) : res B :=
  match m with
  | Ok a => k a
  | Throw e => Throw e
  end.

Notation "x <- m ;; k" := (bind m (fun x => k))
  (at level 61, m at next level, right associativity).

(** JavaScript's short-circuit [a || b] and [a && b] when the right
    operand may throw. *)
Definition orR (a : bool) (b : res bool) : res bool :=
  if a then Ok true else b.

Definition andR (a : bool) (b : res bool) : res bool :=
  if a then b else Ok false.

(** ** ECMAScript time values (ECMA-262, "Time Values and Time Range") *)

Module JSDate.

(** A [Date] object, as its time value. *)
Abbreviation Date := Z (only parsing).

Definition msPerDay : Z := 86400000.

Definition Day (t : Z) : Z := t / msPerDay.

Definition TimeWithinDay (t : Z) : Z := t mod msPerDay.

Definition DaysInYear (y : Z) : Z :=
  if negb (y mod 4 =? 0) then 365
  else if negb (y mod 100 =? 0) then 366
  else if negb (y mod 400 =? 0) then 365
  else 366.

Definition DayFromYear (y : Z) : Z :=
  365 * (y - 1970) + (y - 1969) / 4 - (y - 1901) / 100 + (y - 1601) / 400.

(** The largest [y] with [DayFromYear y <= d]: a first estimate from the
    mean length of a year, corrected by at most one. *)
Definition YearFromDay (d : Z) : Z :=
  let g := 1970 + (400 * d) / 146097 in
  if DayFromYear (g + 1) <=? d then g + 1
  else if DayFromYear g <=? d then g
  else g - 1.

Definition YearFromTime (t : Z) : Z := YearFromDay (Day t).

Definition InLeapYear (t : Z) : Z :=
  if DaysInYear (YearFromTime t) =? 366 then 1 else 0.

Definition DayWithinYear (t : Z) : Z := Day t - DayFromYear (YearFromTime t).

Definition MonthFromTime (t : Z) : Z :=
  let d := DayWithinYear t in
  let l := InLeapYear t in
  if d <? 31 then 0
  else if d <? 59 + l then 1
  else if d <? 90 + l then 2
  else if d <? 120 + l then 3
  else if d <? 151 + l then 4
  else if d <? 181 + l then 5
  else if d <? 212 + l then 6
  else if d <? 243 + l then 7
  else if d <? 273 + l then 8
  else if d <? 304 + l then 9
  else if d <? 334 + l then 10
  else 11.

(** Number of days of the year that precede month [m] (0-based). *)
Definition DaysBeforeMonth (l m : Z) : Z :=
  match m with
  | 0 => 0
  | 1 => 31
  | 2 => 59 + l
  | 3 => 90 + l
  | 4 => 120 + l
  | 5 => 151 + l
  | 6 => 181 + l
  | 7 => 212 + l
  | 8 => 243 + l
  | 9 => 273 + l
  | 10 => 304 + l
  | _ => 334 + l
  end.

Definition DateFromTime (t : Z) : Z :=
  DayWithinYear t - DaysBeforeMonth (InLeapYear t) (MonthFromTime t) + 1.

(** [MakeDay]: the day number of the given year, month and day of month;
    a month outside 0..11 carries into the year, a day of month outside
    the month carries into the neighbouring months. *)
Definition MakeDay (year month date : Z) : Z :=
  let ym := year + month / 12 in
  let mn := month mod 12 in
  let l := if DaysInYear ym =? 366 then 1 else 0 in
  DayFromYear ym + DaysBeforeMonth l mn + date - 1.

Definition MakeDate (day time : Z) : Z := day * msPerDay + time.

(** *** The methods of [Date] the library uses *)

Definition getTime (t : Date) : Z := t.
Definition getFullYear (t : Date) : Z := YearFromTime t.
Definition getMonth (t : Date) : Z := MonthFromTime t.
Definition getDate (t : Date) : Z := DateFromTime t.

Definition setDate (t : Date) (dt : Z) : Date :=
  MakeDate (MakeDay (YearFromTime t) (MonthFromTime t) dt) (TimeWithinDay t).

Definition setMonth (t : Date) (m dt : Z) : Date :=
  MakeDate (MakeDay (YearFromTime t) m dt) (TimeWithinDay t).

Definition setFullYear (t : Date) (y m dt : Z) : Date :=
  MakeDate (MakeDay y m dt) (TimeWithinDay t).

(** [setHours(0, 0, 0, 0)] *)
Definition setHours0 (t : Date) : Date := MakeDate (Day t) 0.

(** [setHours(23, 59, 59, 999)] *)
Definition setHoursEnd (t : Date) : Date := MakeDate (Day t) (msPerDay - 1).

(** [new Date(y, m, d, 0, 0, 0)]: a year in 0..99 means 1900 + year. *)
Definition newDateYMD (y m d : Z) : Date :=
  let yr := if (0 <=? y) && (y <=? 99) then 1900 + y else y in
  MakeDate (MakeDay yr m d) 0.

(** [WeekDay]: 0 is Sunday; the epoch was a Thursday. *)
Definition WeekDay (t : Z) : Z := (Day t + 4) mod 7.

Definition getDay (t : Date) : Z := WeekDay t.

(** [new Date(y, m)]: the first of the month, at midnight. *)
Definition newDateYM (y m : Z) : Date := newDateYMD y m 1.

(** *** Local time (ECMA-262, "LocalTime", "UTC" and "TimeClip")

    A time zone is its offset from UTC in milliseconds: [tz t true] at
    the UTC time value [t], [tz t false] at the local time value [t].
    The methods above are the ones below in the zone [utcZone], for a
    result in the range of valid dates. *)
Definition TimeZone : Type := Z -> bool -> Z.

Definition utcZone : TimeZone := fun _ _ => 0.

Definition LocalTime (tz : TimeZone) (t : Z) : Z := t + tz t true.

Definition UTC (tz : TimeZone) (t : Z) : Z := t - tz t false.

(** The largest time value of a valid date: 100,000,000 days. *)
Definition maxTime : Z := 8640000000000000.

(** [None] is the time value [NaN] of an Invalid Date. *)
Definition TimeClip (t : Z) : option Z :=
  if Z.abs t >? maxTime then None else Some t.

Definition getDateIn (tz : TimeZone) (t : Date) : Z := DateFromTime (LocalTime tz t).

Definition setDateIn (tz : TimeZone) (t : Date) (dt : Z) : option Date :=
  let lt := LocalTime tz t in
  TimeClip
    (UTC tz (MakeDate (MakeDay (YearFromTime lt) (MonthFromTime lt) dt)
               (TimeWithinDay lt))).

End JSDate.

(** ** The date-fns helpers of the bundle *)

Module DateFns.
Import JSDate.

(** [toDate] clones a [Date]; [toInteger] is the identity on integers. *)
Definition toDate (e : Date) : Date := e.

Definition addDays (e : Date) (n : Z) : Date :=
  let r := toDate e in
  setDate r (getDate r + n).

Definition isBefore (e t : Date) : bool := getTime (toDate e) <? getTime (toDate t).

Definition isAfter (e t : Date) : bool := getTime (toDate e) >? getTime (toDate t).

Definition isWithinInterval (e start end_ : Date) : res bool :=
  let n := getTime (toDate e) in
  let a := getTime (toDate start) in
  let o := getTime (toDate end_) in
  if negb (a <=? o) then Throw RangeError
  else Ok ((n >=? a) && (n <=? o)).

Definition startOfDay (e : Date) : Date := setHours0 (toDate e).

Definition isSameDay (e t : Date) : bool :=
  getTime (startOfDay e) =? getTime (startOfDay t).

Definition startOfMonth (e : Date) : Date :=
  setHours0 (setDate (toDate e) 1).

Definition endOfMonth (e : Date) : Date :=
  let t := toDate e in
  setHoursEnd (setFullYear t (getFullYear t) (getMonth t + 1) 0).

Definition getDaysInMonth (e : Date) : Z :=
  let t := toDate e in
  let r := getFullYear t in
  let n := getMonth t in
  let a := setHours0 (setFullYear 0 r (n + 1) 0) in
  getDate a.

Definition addMonths (e : Date) (n : Z) : Date :=
  let r := toDate e in
  let a := getMonth r + n in
  let o := setHours0 (setFullYear 0 (getFullYear r) a 1) in
  let i := getDaysInMonth o in
  setMonth r a (Z.min i (getDate r)).

(** The loop of [eachDayOfInterval]: push the current day while it is not
    after the end, then step to the next midnight.  [fuel] bounds the
    number of iterations. *)
Fixpoint eachDay_loop (fuel : nat) (d : Date) (o : Z) : list Date :=
  match fuel with
  | O => []
  | S fuel' =>
      if getTime d <=? o
      then toDate d :: eachDay_loop fuel' (setHours0 (setDate d (getDate d + 1))) o
      else []
  end.

(** The loop runs once per calendar day from the start's day to the end's
    day, which is the fuel given here (see [eachDay_loop_fuel]). *)
Definition eachDayOfInterval (start end_ : Date) : res (list Date) :=
  let n := toDate start in
  let o := getTime (toDate end_) in
  if negb (getTime n <=? o) then Throw RangeError
  else Ok (eachDay_loop (Z.to_nat (Day o - Day n + 1)) (setHours0 n) o).

(** [startOfWeek(date, {weekStartsOn})]; without options the week starts
    on Sunday, [weekStartsOn = 0]. *)
Definition startOfWeek (e : Date) (weekStartsOn : Z) : res Date :=
  let i := weekStartsOn in
  if negb ((i >=? 0) && (i <=? 6)) then Throw RangeError
  else
    let d := toDate e in
    let s := getDay d in
    let c := (if s <? i then 7 else 0) + s - i in
    Ok (setHours0 (setDate d (getDate d - c))).

Definition endOfWeek (e : Date) (weekStartsOn : Z) : res Date :=
  let i := weekStartsOn in
  if negb ((i >=? 0) && (i <=? 6)) then Throw RangeError
  else
    let d := toDate e in
    let s := getDay d in
    let c := 6 + (if s <? i then -7 else 0) - (s - i) in
    Ok (setHoursEnd (setDate d (getDate d + c))).

(** [addDays] in a time zone: [getDate] and [setDate] work on local
    time, and the result is an Invalid Date ([None]) out of range. *)
Definition addDaysIn (tz : TimeZone) (e : Date) (n : Z) : option Date :=
  let r := toDate e in
  setDateIn tz r (getDateIn tz r + n).

End DateFns.

(** ** [useDatepicker.utils] *)

Module Utils.
Import JSDate DateFns.

Record MonthType : Type := mkMonth {
  year : Z;
  month : Z;
  date : Date
}.

Definition isInUnavailableDates (e : list Date) (t : Date) : bool :=
  existsb (fun e => isSameDay t e) e.

Definition getDateMonthAndYear (e : Date) : MonthType :=
  let t := startOfMonth e in
  {| year := getFullYear t; month := getMonth t; date := t |}.

(** [getInitialMonths(numberOfMonths, startDate)]; [now] stands for
    [Date.now()], read when no date is given. *)
Definition getInitialMonths (now : Date) (e : Z) (t : option Date) : list MonthType :=
  let r := getDateMonthAndYear
             (match t with Some t => t | None => startOfDay now end) in
  let a := [r] in
  if e >? 1 then
    fold_left
      (fun (acc : list MonthType) (_ : nat) =>
         let n := addMonths (date (last acc r)) 1 in
         acc ++ [getDateMonthAndYear n])
      (seq 0 (Z.to_nat (e - 1))) a
  else a.

(** One step of the reduction of [getNextActiveMonth]: the anchor [n] is
    a variable of the enclosing function that the callback reassigns. *)
Definition nextActiveMonth_step (r : Z) (st : Date * list MonthType) (_ : nat)
  : Date * list MonthType :=
  let '(n, acc) := st in
  let n' := match acc with
            | [] => addMonths n r
            | _ => addMonths n (if r >=? 0 then 1 else -1)
            end in
  (n', if r >? 0 then acc ++ [getDateMonthAndYear n']
       else [getDateMonthAndYear n'] ++ acc).

(** [getNextActiveMonth(activeMonth, numberOfMonths, counter)].  Reading
    [.date] of a missing entry is a [TypeError]; [Array(t)] with a
    negative length is a [RangeError]. *)
Definition getNextActiveMonth (e : list MonthType) (t r : Z) : res (list MonthType) :=
  match nth_error e (if r >? 0 then length e - 1 else 0)%nat with
  | None => Throw TypeError
  | Some m =>
      let n := date m in
      if t <? 0 then Throw RangeError
      else Ok (snd (fold_left (nextActiveMonth_step r) (seq 0 (Z.to_nat t)) (n, [])))
  end.

Record CanSelectRangeProps : Type := mkCanSelectRange {
  csr_startDate : Date;
  csr_endDate : option Date;
  csr_isDateBlocked : Date -> bool;
  csr_minBookingDays : Z;
  (** left out by a caller: [undefined], which tests as [false] *)
  csr_exactMinBookingDays : bool;
  csr_minBookingDate : option Date;
  csr_maxBookingDate : option Date
}.

Definition isSome {A : Type} (o : option A) : bool :=
  match o with Some _ => true | None => false end.

Definition isNone {A : Type} (o : option A) : bool := negb (isSome o).

(** [Array.prototype.some] over the days of an interval. *)
Definition someDayOf (start end_ : Date) (n : Date -> bool) : res bool :=
  ds <- eachDayOfInterval start end_ ;; Ok (existsb n ds).

(** [canSelectRange].  The start date is always a [Date] here, so the
    tests [!t] and [t && ...] of the bundle are decided. *)
Definition canSelectRange (e : CanSelectRangeProps) : res bool :=
  let t := csr_startDate e in
  let r := csr_endDate e in
  let n := csr_isDateBlocked e in
  let a := csr_minBookingDays e in
  let o := csr_exactMinBookingDays e in
  let i := csr_minBookingDate e in
  let d := csr_maxBookingDate e in
  let s := match i with
           | None => true
           | Some i => negb (isBefore t (addDays i (-1)))
           end in
  let c := match d with
           | None => true
           | Some d => negb (isAfter (addDays t (a - 1)) d)
           end in
  b <- andR (negb (a =? 1) || isSome r || n t)
         (if ((a >? 1) && isNone r && negb o)
             || ((a >? 0) && o && s && c)
             || ((a >? 0) && o && isNone i && isNone d)
          then someDayOf t (addDays t (a - 1)) n
          else
            match r with
            | None => Ok true
            | Some r =>
                orR (o || isBefore r (addDays t (a - 1))) (someDayOf t r n)
            end) ;;
  Ok (negb b).

Record IsDateBlockedProps : Type := mkIsDateBlocked {
  idb_date : Date;
  idb_minBookingDate : option Date;
  idb_maxBookingDate : option Date;
  idb_isDateBlockedFn : option (Date -> bool);
  idb_startDate : option Date;
  idb_endDate : option Date;
  (** [None] is [undefined]: the default 1 applies *)
  idb_minBookingDays : option Z;
  (** [None] is [undefined]: the default [[]] applies *)
  idb_unavailableDates : option (list Date)
}.

Definition midnightOf (r : Date) : Date :=
  newDateYMD (getFullYear r) (getMonth r) (getDate r).

(** The hook imports these predicates under the names
    [isDateBlockedFn], [isDateSelectedFn], ... and exports closures of
    them under their plain names. *)
Definition isDateBlockedFn (e : IsDateBlockedProps) : res bool :=
  let t := idb_date e in
  let a := idb_isDateBlockedFn e in
  let o := idb_startDate e in
  let i := idb_endDate e in
  let s := match idb_minBookingDays e with Some d => d | None => 1 end in
  let u := match idb_unavailableDates e with Some c => c | None => [] end in
  let l := option_map midnightOf (idb_minBookingDate e) in
  let p := option_map midnightOf (idb_maxBookingDate e) in
  orR (isInUnavailableDates u t)
    (orR (match l with Some l => isBefore t l | None => false end)
       (orR (match p with Some p => isAfter t p | None => false end)
          (w <- match o with
                | Some o =>
                    andR (isNone i && (s >? 1))
                      (isWithinInterval t o (addDays o (s - 2)))
                | None => Ok false
                end ;;
           orR w (Ok (match a with Some a => a t | None => false end))))).

Definition isDateSelectedFn (e : Date) (t r : option Date) : res bool :=
  match t, r with
  | Some t, Some r => isWithinInterval e t r
  | _, _ => Ok false
  end.

Definition isFirstOrLastSelectedDateFn (e : Date) (t r : option Date) : bool :=
  match t with Some t => isSameDay e t | None => false end
  || match r with Some r => isSameDay e r | None => false end.

Record IsDateHoveredProps : Type := mkIsDateHovered {
  idh_date : Date;
  idh_startDate : option Date;
  idh_endDate : option Date;
  idh_isDateBlocked : Date -> bool;
  idh_hoveredDate : option Date;
  idh_minBookingDays : Z;
  idh_exactMinBookingDays : bool
}.

(** The last alternative of [isDateHovered]: the preview from the start
    date to the hovered date [o]. *)
Definition hoveredInOpenRange (t : Date) (r n : option Date) (a : Date -> bool)
    (o : Date) : res bool :=
  match r, n with
  | Some r, None =>
      x <- orR (isBefore o r)
             (w <- isWithinInterval t r o ;; orR (negb w) (someDayOf r o a)) ;;
      Ok (negb x)
  | _, _ => Ok false
  end.

Definition isDateHoveredFn (e : IsDateHoveredProps) : res bool :=
  let t := idh_date e in
  let r := idh_startDate e in
  let n := idh_endDate e in
  let a := idh_isDateBlocked e in
  let i := idh_minBookingDays e in
  match idh_hoveredDate e with
  | None => Ok false
  | Some o =>
      c1 <- andR ((i >? 1) && idh_exactMinBookingDays e)
              (isWithinInterval t o (addDays o (i - 1))) ;;
      if c1 then b <- someDayOf o (addDays o (i - 1)) a ;; Ok (negb b)
      else
        match r, n with
        | Some r', None =>
            c2 <- (w <- isWithinInterval t r' (addDays r' (i - 1)) ;;
                   Ok (w && isSameDay r' o && (i >? 1))) ;;
            if c2 then b <- someDayOf r' (addDays r' (i - 1)) a ;; Ok (negb b)
            else hoveredInOpenRange t r n a o
        | _, _ => hoveredInOpenRange t r n a o
        end
  end.

End Utils.

(** ** The hook [useDatepicker] *)

Module Hook.
Import JSDate DateFns Utils.

Inductive FocusedInputName : Type :=
| START_DATE
| END_DATE.

(** [FocusedInput = 'startDate' | 'endDate' | null] *)
Definition FocusedInput : Type := option FocusedInputName.

Definition focus_eqb (a : FocusedInput) (b : FocusedInputName) : bool :=
  match a, b with
  | Some START_DATE, START_DATE => true
  | Some END_DATE, END_DATE => true
  | _, _ => false
  end.

(** The argument of [onDatesChange]. *)
Record OnDatesChangeProps : Type := mkData {
  data_focusedInput : FocusedInput;
  data_startDate : option Date;
  data_endDate : option Date
}.

(** The props of the hook, defaults applied ([defaultProps]). *)
Record UseDatepickerProps : Type := mkProps {
  startDate : option Date;
  endDate : option Date;
  focusedInput : FocusedInput;
  minBookingDate : option Date;
  maxBookingDate : option Date;
  initialVisibleMonth : option Date;
  exactMinBookingDays : bool;
  minBookingDays : Z;
  numberOfMonths : Z;
  isDateBlockedProps : Date -> bool;
  unavailableDates : list Date
}.

Definition defaultProps : UseDatepickerProps :=
  {| startDate := None;
     endDate := None;
     focusedInput := Some START_DATE;
     minBookingDate := None;
     maxBookingDate := None;
     initialVisibleMonth := None;
     exactMinBookingDays := false;
     minBookingDays := 1;
     numberOfMonths := 2;
     isDateBlockedProps := fun _ => false;
     unavailableDates := [] |}.

(** The three [useState] cells of the hook. *)
Record HookState : Type := mkState {
  activeMonths : list MonthType;
  hoveredDate : option Date;
  focusedDate : option Date
}.

(** What a handler does to the outside: calls of the caller's
    [onDatesChange] and of the state setters. *)
Inductive Effect : Type :=
| OnDatesChange (data : OnDatesChangeProps)
| SetActiveMonths (w : list MonthType)
| SetHoveredDate (d : option Date)
| SetFocusedDate (d : option Date).

Inductive Key : Type :=
| ArrowRight
| ArrowLeft
| ArrowDown
| ArrowUp
| OtherKey.

Definition isArrow (k : Key) : bool :=
  match k with OtherKey => false | _ => true end.

(** [import isSameMonth from 'date-fns/isSameDay'] *)
Definition isSameMonth : Date -> Date -> bool := isSameDay.

Section useDatepicker.

Variable now : Date.
Variable props : UseDatepickerProps.
Variable state : HookState.

Definition initialState : HookState :=
  {| activeMonths :=
       match startDate props with
       | Some d => getInitialMonths now (numberOfMonths props) (Some d)
       | None => getInitialMonths now (numberOfMonths props) (initialVisibleMonth props)
       end;
     hoveredDate := None;
     focusedDate := startDate props |}.

Definition disabledDatesByUser (date : Date) : bool :=
  isInUnavailableDates (unavailableDates props) date || isDateBlockedProps props date.

(** The test [!focusedDate || (focusedDate && !isSameMonth(date,
    focusedDate))] that guards every re-seeding of the window. *)
Definition dateLeavesFocus (date : Date) : bool :=
  match focusedDate state with
  | None => true
  | Some f => negb (isSameMonth date f)
  end.

Definition onDateFocus (date : Date) : list Effect :=
  SetFocusedDate (Some date)
  :: (if dateLeavesFocus date
      then [SetActiveMonths (getInitialMonths now (numberOfMonths props) (Some date))]
      else []).

Definition isDateSelected (date : Date) : res bool :=
  isDateSelectedFn date (startDate props) (endDate props).

Definition isFirstOrLastSelectedDate (date : Date) : bool :=
  isFirstOrLastSelectedDateFn date (startDate props) (endDate props).

Definition isDateBlocked (date : Date) : res bool :=
  isDateBlockedFn
    {| idb_date := date;
       idb_minBookingDate := minBookingDate props;
       idb_maxBookingDate := maxBookingDate props;
       idb_startDate := startDate props;
       idb_endDate := endDate props;
       idb_minBookingDays := Some (minBookingDays props);
       idb_isDateBlockedFn := Some disabledDatesByUser;
       idb_unavailableDates := None |}.

Definition isDateHovered (date : Date) : res bool :=
  isDateHoveredFn
    {| idh_date := date;
       idh_hoveredDate := hoveredDate state;
       idh_startDate := startDate props;
       idh_endDate := endDate props;
       idh_minBookingDays := minBookingDays props;
       idh_exactMinBookingDays := exactMinBookingDays props;
       idh_isDateBlocked := disabledDatesByUser |}.

Definition isDateFocused (date : Date) : bool :=
  match focusedDate state with
  | Some f => isSameDay date f
  | None => false
  end.

Definition handleKeyDown (e : Key) : res (list Effect) :=
  if isArrow e && isNone (focusedDate state) then
    match nth_error (activeMonths state) 0 with
    | None => Throw TypeError
    | Some activeMonth =>
        Ok (onDateFocus (date activeMonth)
            ++ [SetActiveMonths
                  (getInitialMonths now (numberOfMonths props) (Some (date activeMonth)))])
    end
  else Ok [].

Definition onResetDates : list Effect :=
  [OnDatesChange {| data_startDate := None;
                    data_endDate := None;
                    data_focusedInput := Some START_DATE |}].

(** The call [canSelectRange({minBookingDays, isDateBlocked, startDate,
    endDate})] of the branches that leave the other fields out. *)
Definition canSelectPlain (s : Date) (e : option Date) : res bool :=
  canSelectRange
    {| csr_minBookingDays := minBookingDays props;
       csr_isDateBlocked := disabledDatesByUser;
       csr_startDate := s;
       csr_endDate := e;
       csr_exactMinBookingDays := false;
       csr_minBookingDate := None;
       csr_maxBookingDate := None |}.

(** The [if ... else if ...] chain of [onDateSelect]: the call of
    [onDatesChange] it makes, if any. *)
Definition onDateSelect_change (date : Date) : res (list Effect) :=
  let fi := focusedInput props in
  let exact := exactMinBookingDays props in
  c1 <- andR ((focus_eqb fi END_DATE || focus_eqb fi START_DATE)
              && (minBookingDays props >? 0) && exact)
          (canSelectRange
             {| csr_minBookingDays := minBookingDays props;
                csr_exactMinBookingDays := exact;
                csr_minBookingDate := minBookingDate props;
                csr_maxBookingDate := maxBookingDate props;
                csr_isDateBlocked := disabledDatesByUser;
                csr_startDate := date;
                csr_endDate := None |}) ;;
  if c1 then
    Ok [OnDatesChange {| data_startDate := Some date;
                         data_endDate := Some (addDays date (minBookingDays props - 1));
                         data_focusedInput := None |}]
  else
  c2 <- andR (((focus_eqb fi END_DATE
                && match startDate props with
                   | Some s => isBefore date s
                   | None => false
                   end)
               || (focus_eqb fi START_DATE
                   && match endDate props with
                      | Some e => isAfter date e
                      | None => false
                      end))
              && negb exact)
          (canSelectPlain date None) ;;
  if c2 then
    Ok [OnDatesChange {| data_endDate := None;
                         data_startDate := Some date;
                         data_focusedInput := Some END_DATE |}]
  else
  c3 <- andR (focus_eqb fi START_DATE && negb exact)
          (canSelectPlain date (endDate props)) ;;
  if c3 then
    Ok [OnDatesChange {| data_endDate := endDate props;
                         data_startDate := Some date;
                         data_focusedInput := Some END_DATE |}]
  else
  c4 <- andR (focus_eqb fi START_DATE && negb exact)
          (canSelectPlain date None) ;;
  if c4 then
    Ok [OnDatesChange {| data_endDate := None;
                         data_startDate := Some date;
                         data_focusedInput := Some END_DATE |}]
  else
  match startDate props with
  | Some s =>
      c5 <- andR (focus_eqb fi END_DATE && negb (isBefore date s) && negb exact)
              (canSelectPlain s (Some date)) ;;
      if c5 then
        Ok [OnDatesChange {| data_startDate := Some s;
                             data_endDate := Some date;
                             data_focusedInput := None |}]
      else Ok []
  | None => Ok []
  end.

Definition onDateSelect (date : Date) : res (list Effect) :=
  ch <- onDateSelect_change date ;;
  Ok (ch ++
      (if negb (focus_eqb (focusedInput props) END_DATE) && dateLeavesFocus date
       then [SetActiveMonths (getInitialMonths now (numberOfMonths props) (Some date))]
       else [])).

Definition onDateHover (date : option Date) : res (list Effect) :=
  match date with
  | None => Ok [SetHoveredDate None]
  | Some date =>
      blocked <- isDateBlocked date ;;
      let isNotBlocked :=
        negb blocked
        || match startDate props with
           | Some s => isSameDay date s
           | None => false
           end in
      let isHoveredDateAfterOrEqualMinDate :=
        match minBookingDate props with
        | Some m => negb (isBefore date (addDays m (-1)))
        | None => true
        end in
      let isHoveredDateBeforeOrEqualMaxDate :=
        match maxBookingDate props with
        | Some m => negb (isAfter date m)
        | None => true
        end in
      let potentialEndDate := addDays date (minBookingDays props - 1) in
      let isPotentialEndDateAfterOrEqualMinDate :=
        match minBookingDate props with
        | Some m => negb (isBefore potentialEndDate m)
        | None => true
        end in
      let isPotentialEndDateBeforeOrEqualMaxDate :=
        match maxBookingDate props with
        | Some m => negb (isAfter potentialEndDate m)
        | None => true
        end in
      let isExactAndInRange :=
        exactMinBookingDays props
        && (minBookingDays props >? 1)
        && isHoveredDateAfterOrEqualMinDate
        && isHoveredDateBeforeOrEqualMaxDate
        && isPotentialEndDateAfterOrEqualMinDate
        && isPotentialEndDateBeforeOrEqualMaxDate in
      let isInRange :=
        isSome (startDate props)
        && isNone (endDate props)
        && negb (exactMinBookingDays props)
        && isHoveredDateAfterOrEqualMinDate
        && isHoveredDateBeforeOrEqualMaxDate in
      isMinBookingDaysInRange <-
        match startDate props with
        | Some s =>
            if minBookingDays props >? 1
            then isWithinInterval date s (addDays s (minBookingDays props - 2))
            else Ok true
        | None => Ok true
        end ;;
      let isStartDateHoveredAndInRange :=
        match startDate props with
        | Some s => isSameDay date s && isMinBookingDaysInRange
        | None => false
        end in
      if isNotBlocked && (isExactAndInRange || isInRange || isStartDateHoveredAndInRange)
      then Ok [SetHoveredDate (Some date)]
      else if isSome (hoveredDate state) then Ok [SetHoveredDate None]
      else Ok []
  end.

Definition goToPreviousMonths : res (list Effect) :=
  w <- getNextActiveMonth (activeMonths state) (numberOfMonths props) (-1) ;;
  Ok [SetActiveMonths w; SetFocusedDate None].

Definition goToNextMonths : res (list Effect) :=
  w <- getNextActiveMonth (activeMonths state) (numberOfMonths props) 1 ;;
  Ok [SetActiveMonths w; SetFocusedDate None].

Definition goToPreviousYear (numYears : Z) : res (list Effect) :=
  w <- getNextActiveMonth (activeMonths state) (numberOfMonths props)
         (- (numYears * 12 - numberOfMonths props + 1)) ;;
  Ok [SetActiveMonths w; SetFocusedDate None].

Definition goToNextYear (numYears : Z) : res (list Effect) :=
  w <- getNextActiveMonth (activeMonths state) (numberOfMonths props)
         (numYears * 12 - numberOfMonths props + 1) ;;
  Ok [SetActiveMonths w; SetFocusedDate None].

(** The key handler of a day cell ([useDay]) showing [date]. *)
Definition dayOnKeyDown (date : Date) (e : Key) : list Effect :=
  match e with
  | ArrowRight => onDateFocus (addDays date 1)
  | ArrowLeft => onDateFocus (addDays date (-1))
  | ArrowUp => onDateFocus (addDays date (-7))
  | ArrowDown => onDateFocus (addDays date 7)
  | OtherKey => []
  end.

(** [useDay]: a blocked day that is not part of the hover preview is
    disabled, and a disabled day's click handler does nothing. *)
Definition dayDisabled (date : Date) : res bool :=
  blocked <- isDateBlocked date ;;
  andR blocked (hovered <- isDateHovered date ;; Ok (negb hovered)).

Definition dayOnClick (date : Date) : res (list Effect) :=
  disabledDate <- dayDisabled date ;;
  if disabledDate then Ok [] else onDateSelect date.

Definition dayOnMouseEnter (date : Date) : res (list Effect) :=
  onDateHover (Some date).

End useDatepicker.

(** *** How effects reach the state and the caller *)

Definition runEffect (s : HookState) (e : Effect) : HookState :=
  match e with
  | OnDatesChange _ => s
  | SetActiveMonths w =>
      {| activeMonths := w; hoveredDate := hoveredDate s; focusedDate := focusedDate s |}
  | SetHoveredDate d =>
      {| activeMonths := activeMonths s; hoveredDate := d; focusedDate := focusedDate s |}
  | SetFocusedDate d =>
      {| activeMonths := activeMonths s; hoveredDate := hoveredDate s; focusedDate := d |}
  end.

Definition runEffects (s : HookState) (es : list Effect) : HookState :=
  fold_left runEffect es s.

(** The [onDatesChange] calls among the effects, in order. *)
Fixpoint emitted (es : list Effect) : list OnDatesChangeProps :=
  match es with
  | [] => []
  | OnDatesChange d :: es => d :: emitted es
  | _ :: es => emitted es
  end.

(** A controlled component: the caller stores what [onDatesChange] gave
    it and passes it back as props. *)
Definition feed (p : UseDatepickerProps) (d : OnDatesChangeProps) : UseDatepickerProps :=
  {| startDate := data_startDate d;
     endDate := data_endDate d;
     focusedInput := data_focusedInput d;
     minBookingDate := minBookingDate p;
     maxBookingDate := maxBookingDate p;
     initialVisibleMonth := initialVisibleMonth p;
     exactMinBookingDays := exactMinBookingDays p;
     minBookingDays := minBookingDays p;
     numberOfMonths := numberOfMonths p;
     isDateBlockedProps := isDateBlockedProps p;
     unavailableDates := unavailableDates p |}.

Definition feedAll (p : UseDatepickerProps) (ds : list OnDatesChangeProps)
  : UseDatepickerProps :=
  fold_left feed ds p.

End Hook.

(** ** The hook [useMonth] *)

Module UseMonth.
Import JSDate DateFns.

Section useMonth.

(** The type of labels, and the label formats the caller passes in. *)
Variable Label : Type.

(** An entry of [days]: the number [0] for a leading blank cell, or a day
    with its label. *)
Inductive CalendarDay : Type :=
| Blank
| DayCell (date : Date) (dayLabel : Label).

(** [Array(n)]: a [RangeError] for a negative length. *)
Definition blanks (n : Z) : res (list CalendarDay) :=
  if n <? 0 then Throw RangeError else Ok (repeat Blank (Z.to_nat n)).

(** [getDays({year, month, firstDayOfWeek, dayLabelFormat})] *)
Definition getDays (t r a : Z) (i : Date -> Label) : res (list CalendarDay) :=
  let d := newDateYM t r in
  let s := startOfMonth d in
  let c := getDay s in
  let u := endOfMonth d in
  b <- blanks (if c >=? a then c - a else 6 - a + c + 1) ;;
  ds <- eachDayOfInterval s u ;;
  Ok (b ++ map (fun e => DayCell e (i e)) ds).

(** [getWeekdayLabels({firstDayOfWeek, weekdayLabelFormat})]; [now] is
    [new Date()]. *)
Definition getWeekdayLabels (now : Date) (n : Z) (o : Date -> Label) : res (list Label) :=
  ws <- startOfWeek now 0 ;;
  we <- endOfWeek now 0 ;;
  ds <- eachDayOfInterval (addDays ws n) (addDays we n) ;;
  Ok (map o ds).

Record UseMonthResult : Type := mkUseMonth {
  days : list CalendarDay;
  weekdayLabels : list Label;
  monthLabel : Label
}.

(** [useMonth({year, month, firstDayOfWeek, dayLabelFormat,
    weekdayLabelFormat, monthLabelFormat})] *)
Definition useMonth (now : Date) (t r o : Z) (d c l : Date -> Label)
  : res UseMonthResult :=
  ds <- getDays t r o d ;;
  ws <- getWeekdayLabels now o c ;;
  Ok {| days := ds; weekdayLabels := ws; monthLabel := l (newDateYM t r) |}.

End useMonth.

Arguments Blank {Label}.
Arguments DayCell {Label} date dayLabel.
Arguments days {Label} u.
Arguments weekdayLabels {Label} u.
Arguments monthLabel {Label} u.

End UseMonth.

(** ** The component [DateSingleInput] *)

Module SingleInput.
Import JSDate DateFns Utils Hook.

(** The argument of [onDateChange]. *)
Record OnDateChangeProps : Type := mkDateChange {
  showDatepicker : bool;
  single_date : option Date
}.

Record DateSingleInputProps : Type := mkSingleProps {
  sp_date : option Date;
  sp_showDatepicker : bool;
  sp_minBookingDate : option Date;
  sp_maxBookingDate : option Date;
  sp_initialVisibleMonth : option Date;
  (** default 1 *)
  sp_numberOfMonths : Z;
  sp_isDateBlocked : Date -> bool;
  sp_unavailableDates : list Date
}.

(** The props the component hands to the datepicker, and so to the
    hook: an exact booking of one day, start and end both the date. *)
Definition hookProps (t : DateSingleInputProps) : UseDatepickerProps :=
  {| exactMinBookingDays := true;
     minBookingDays := 1;
     startDate := sp_date t;
     endDate := sp_date t;
     minBookingDate := sp_minBookingDate t;
     maxBookingDate := sp_maxBookingDate t;
     numberOfMonths := sp_numberOfMonths t;
     focusedInput := if sp_showDatepicker t then Some START_DATE else None;
     isDateBlockedProps := sp_isDateBlocked t;
     unavailableDates := sp_unavailableDates t;
     initialVisibleMonth := sp_initialVisibleMonth t |}.

(** The [onDatesChange] the component passes down. *)
Definition onDatesChange (e : OnDatesChangeProps) : OnDateChangeProps :=
  {| showDatepicker := isSome (data_focusedInput e);
     single_date := data_startDate e |}.

(** What the caller's [onDateChange] receives when a handler of the hook
    has run. *)
Definition reported (es : list Effect) : list OnDateChangeProps :=
  map onDatesChange (emitted es).

(** A click on the day cell of [date]; the datepicker, and with it every
    cell, is mounted only while [showDatepicker] holds. *)
Definition clickDay (now : Date) (t : DateSingleInputProps) (s : HookState)
    (date : Date) : res (list OnDateChangeProps) :=
  if sp_showDatepicker t then
    es <- dayOnClick now (hookProps t) s date ;; Ok (reported es)
  else Ok [].

(** The text input's [onChange]: it reaches [onDateSelect] through the
    datepicker's ref, which is empty while the datepicker is closed. *)
Definition inputOnChange (now : Date) (t : DateSingleInputProps) (s : HookState)
    (date : Date) : res (list OnDateChangeProps) :=
  if sp_showDatepicker t then
    es <- onDateSelect now (hookProps t) s date ;; Ok (reported es)
  else Ok [].

End SingleInput.

(** ** The component [DateRangeInput] *)

Module RangeInput.
Import JSDate DateFns Utils Hook.

(** The [onChange] of the two text inputs.  The input parses what was
    typed and hands every valid date to this handler, which passes it to
    [onDateSelect] through the datepicker's ref; the datepicker is
    mounted, and the ref set, while [focusedInput] is not [null].  The
    component gives its props to the hook as they are. *)
Definition onChange (now : Date) (p : UseDatepickerProps) (s : HookState)
    (date : Date) : res (list Effect) :=
  if isSome (focusedInput p) then onDateSelect now p s date else Ok [].

End RangeInput.

(** ** Vocabulary for the month window

    Calendar months are numbered consecutively: month [i] is month
    [i mod 12] of year [i / 12]. *)

Module MonthWindow.
Import JSDate DateFns Utils.

(** The number of the calendar month a date falls in. *)
Definition monthIndex (t : Date) : Z := 12 * getFullYear t + getMonth t.

(** Midnight of the first day of month number [i]. *)
Definition firstOfMonth (i : Z) : Date := MakeDate (MakeDay 0 i 1) 0.

(** The [ActiveMonth] entry of month number [i]. *)
Definition monthAt (i : Z) : MonthType :=
  {| year := i / 12; month := i mod 12; date := firstOfMonth i |}.

(** [n] consecutive months from month number [i] on. *)
Definition window (i : Z) (n : nat) : list MonthType :=
  map (fun k => monthAt (i + Z.of_nat k)) (seq 0 n).

(** The entry [k] months after (before, for a negative [k]) entry [m]. *)
Definition shiftMonth (k : Z) (m : MonthType) : MonthType :=
  getDateMonthAndYear (addMonths (date m) k).

Definition month_eqb (a b : MonthType) : bool :=
  (year a =? year b) && (month a =? month b) && (date a =? date b).

(** An entry as [getDateMonthAndYear] builds it: anchored at the first of
    its month, at midnight, with the year and month of that day. *)
Definition isActiveMonth (m : MonthType) : bool :=
  month_eqb m (getDateMonthAndYear (date m)).

Fixpoint consecutiveFrom (m : MonthType) (w : list MonthType) : bool :=
  match w with
  | [] => true
  | m' :: w' => month_eqb m' (shiftMonth 1 m) && consecutiveFrom m' w'
  end.

(** A month window of [n] entries: consecutive calendar months, in
    chronological order, without gaps. *)
Definition isMonthWindow (n : Z) (w : list MonthType) : bool :=
  (Z.of_nat (length w) =? n)
  && match w with
     | [] => true
     | m :: w' => isActiveMonth m && consecutiveFrom m w'
     end.

(** What [getNextActiveMonth] returns on the window of [n] months from
    month [i] on, for [t] months and a step of [r]. *)
Definition shiftedWindow (i : Z) (n : nat) (t r : Z) : list MonthType :=
  if r >? 0 then window (i + Z.of_nat n - 1 + r) (Z.to_nat t)
  else if r <? 0 then window (i + r - (t - 1)) (Z.to_nat t)
  else rev (window i (Z.to_nat t)).

End MonthWindow.

(** ** Vocabulary for the selection *)

Module Selection.
Import JSDate DateFns Utils Hook.

(** The two operations that can reach [onDatesChange]. *)
Inductive Call : Type :=
| Select (date : Date)
| Reset.

Definition perform (now : Date) (p : UseDatepickerProps) (s : HookState) (c : Call)
  : res (list Effect) :=
  match c with
  | Select date => onDateSelect now p s date
  | Reset => Ok (onResetDates)
  end.

(** The ordering invariant of a selection: a start and an end that are
    both set are in order, as days and as instants. *)
Definition ordered (start end_ : option Date) : bool :=
  match start, end_ with
  | Some a, Some b => (Day a <=? Day b) && (a <=? b)
  | _, _ => true
  end.

(** One round of a controlled component: select a date, store what
    [onDatesChange] reported as the next props, apply the state setters. *)
Definition selectAndFeed (now : Date) (ps : UseDatepickerProps * HookState)
    (date : Date) : res (UseDatepickerProps * HookState) :=
  es <- onDateSelect now (fst ps) (snd ps) date ;;
  Ok (feedAll (fst ps) (emitted es), runEffects (snd ps) es).

(** The caller changes one prop. *)
Definition withFocusedInput (p : UseDatepickerProps) (f : FocusedInput)
  : UseDatepickerProps :=
  feed p {| data_focusedInput := f;
            data_startDate := startDate p;
            data_endDate := endDate p |}.

Definition withMinBookingDate (p : UseDatepickerProps) (m : option Date)
  : UseDatepickerProps :=
  {| startDate := startDate p;
     endDate := endDate p;
     focusedInput := focusedInput p;
     minBookingDate := m;
     maxBookingDate := maxBookingDate p;
     initialVisibleMonth := initialVisibleMonth p;
     exactMinBookingDays := exactMinBookingDays p;
     minBookingDays := minBookingDays p;
     numberOfMonths := numberOfMonths p;
     isDateBlockedProps := isDateBlockedProps p;
     unavailableDates := unavailableDates p |}.

Definition withExactMinBookingDays (p : UseDatepickerProps) (n : Z)
  : UseDatepickerProps :=
  {| startDate := startDate p;
     endDate := endDate p;
     focusedInput := focusedInput p;
     minBookingDate := minBookingDate p;
     maxBookingDate := maxBookingDate p;
     initialVisibleMonth := initialVisibleMonth p;
     exactMinBookingDays := true;
     minBookingDays := n;
     numberOfMonths := numberOfMonths p;
     isDateBlockedProps := isDateBlockedProps p;
     unavailableDates := unavailableDates p |}.

(** The three ways [isDateBlocked] blocks a date besides the caller's
    own blocking. *)
Definition beforeMinBookingDate (p : UseDatepickerProps) (date : Date) : bool :=
  match minBookingDate p with
  | Some m => isBefore date (midnightOf m)
  | None => false
  end.

Definition afterMaxBookingDate (p : UseDatepickerProps) (date : Date) : bool :=
  match maxBookingDate p with
  | Some m => isAfter date (midnightOf m)
  | None => false
  end.

Definition inMinStayWindow (p : UseDatepickerProps) (date : Date) : bool :=
  match startDate p, endDate p with
  | Some s, None =>
      (minBookingDays p >? 1) && (date >=? s)
      && (date <=? addDays s (minBookingDays p - 2))
  | _, _ => false
  end.

End Selection.

(** ** Vocabulary for the calendar *)

Module Calendar.
Import JSDate DateFns MonthWindow.

(** The number of days of month [m] (0-based) in a year with leap flag
    [l]. *)
Definition monthLength (l m : Z) : Z :=
  match m with
  | 1 => 28 + l
  | 3 | 5 | 8 | 10 => 30
  | _ => 31
  end.

Definition leapFlag (y : Z) : Z := if DaysInYear y =? 366 then 1 else 0.

(** The number of days of month number [i]. *)
Definition daysOfMonth (i : Z) : Z := monthLength (leapFlag (i / 12)) (i mod 12).

(** A time value given by its month number, day of month and time
    within the day. *)
Definition dateAt (i dd tm : Z) : Date := MakeDate (MakeDay 0 i dd) tm.

(** The midnights of the days from the day of [s] to the day of [e], in
    order. *)
Definition midnights (s e : Date) : list Date :=
  map (fun k => addDays (startOfDay s) (Z.of_nat k))
    (seq 0 (Z.to_nat (Day e - Day s + 1))).

(** A time zone whose offset changes once, from [before] to [after], at
    the UTC time value [change] (a daylight saving switch). *)
Definition switchingZone (change before after : Z) : TimeZone :=
  fun t isUTC =>
    if isUTC then (if t <? change then before else after)
    else (if t <? change + before then before else after).

End Calendar.

(** * Properties *)

(** ** The calendar of time values *)

Module JSDateFacts.
Import JSDate.

Lemma DaysInYear_range y : DaysInYear y = 365 \/ DaysInYear y = 366.
Proof.
  unfold DaysInYear.
  destruct (y mod 4 =? 0), (y mod 100 =? 0), (y mod 400 =? 0); simpl; auto.
Qed.

Lemma div_step (k c y : Z) : 0 < k -> c mod k = 1 ->
  (y + 1 - c) / k = (y - c) / k + (if y mod k =? 0 then 1 else 0).
Proof.
  intros Hk Hc.
  destruct (Z.eqb_spec (y mod k) 0) as [H0|H0].
  - pose proof (Z.div_mod y k ltac:(lia)) as Hy. rewrite H0 in Hy.
    pose proof (Z.div_mod c k ltac:(lia)) as Hcc. rewrite Hc in Hcc.
    replace (y + 1 - c) with (0 + (y / k - c / k) * k) by lia.
    replace (y - c) with ((k - 1) + (y / k - c / k - 1) * k) by lia.
    rewrite !Z.div_add by lia.
    rewrite (Z.div_small 0 k), (Z.div_small (k - 1) k) by lia. lia.
  - pose proof (Z.div_mod y k ltac:(lia)) as Hy.
    pose proof (Z.mod_pos_bound y k Hk) as Hb.
    pose proof (Z.div_mod c k ltac:(lia)) as Hcc. rewrite Hc in Hcc.
    replace (y + 1 - c) with (y mod k + (y / k - c / k) * k) by lia.
    replace (y - c) with ((y mod k - 1) + (y / k - c / k) * k) by lia.
    rewrite !Z.div_add by lia.
    rewrite (Z.div_small (y mod k) k), (Z.div_small (y mod k - 1) k) by lia. lia.
Qed.

Lemma mod_mod_divides (a b y : Z) : 0 < a -> 0 < b -> y mod (a * b) = 0 -> y mod a = 0.
Proof.
  intros Ha Hb H.
  pose proof (Z.div_mod y (a * b) ltac:(lia)) as E. rewrite H in E.
  rewrite E. replace (a * b * (y / (a * b)) + 0) with ((b * (y / (a * b))) * a) by lia.
  apply Z.mod_mul. lia.
Qed.

(** A year later is [DaysInYear] days later. *)
Lemma DayFromYear_succ y : DayFromYear (y + 1) = DayFromYear y + DaysInYear y.
Proof.
  unfold DayFromYear, DaysInYear.
  rewrite (div_step 4 1969), (div_step 100 1901), (div_step 400 1601)
    by (try reflexivity; lia).
  destruct (Z.eqb_spec (y mod 4) 0), (Z.eqb_spec (y mod 100) 0),
    (Z.eqb_spec (y mod 400) 0); cbv [negb]; try lia.
  all: exfalso.
  all: try (pose proof (mod_mod_divides 4 25 y); simpl in *; lia).
  all: try (pose proof (mod_mod_divides 100 4 y); simpl in *; lia).
  all: try (pose proof (mod_mod_divides 4 100 y); simpl in *; lia).
Qed.

(** The day a year starts on, against the mean length of a year. *)
Lemma DayFromYear_approx y :
  146097 * (y - 1970) - 506 <= 400 * DayFromYear y <= 146097 * (y - 1970) + 589.
Proof.
  unfold DayFromYear. Z.div_mod_to_equations. lia.
Qed.

(** [YearFromDay] is what ECMA-262 asks for: the year that starts on or
    before the day and whose successor starts after it ... *)
Lemma YearFromDay_spec d :
  DayFromYear (YearFromDay d) <= d < DayFromYear (YearFromDay d + 1).
Proof.
  unfold YearFromDay.
  set (g := 1970 + 400 * d / 146097).
  assert (Hg : 146097 * (g - 1970) <= 400 * d < 146097 * (g - 1970) + 146097).
  { subst g. Z.div_mod_to_equations. lia. }
  clearbody g.
  pose proof (DayFromYear_approx (g - 1)).
  pose proof (DayFromYear_approx (g + 1 + 1)).
  destruct (Z.leb_spec (DayFromYear (g + 1)) d).
  - lia.
  - destruct (Z.leb_spec (DayFromYear g) d).
    + lia.
    + replace (g - 1 + 1) with g by lia. lia.
Qed.

Lemma DayFromYear_mono y1 y2 : y1 <= y2 -> DayFromYear y1 <= DayFromYear y2.
Proof.
  intros H. unfold DayFromYear. Z.div_mod_to_equations. lia.
Qed.

(** ... and there is one such year only. *)
Lemma YearFromDay_unique d y :
  DayFromYear y <= d < DayFromYear (y + 1) -> YearFromDay d = y.
Proof.
  intros H. pose proof (YearFromDay_spec d) as S.
  destruct (Z.lt_trichotomy (YearFromDay d) y) as [L|[E|G]]; [|assumption|].
  - pose proof (DayFromYear_mono (YearFromDay d + 1) y ltac:(lia)). lia.
  - pose proof (DayFromYear_mono (y + 1) (YearFromDay d) ltac:(lia)). lia.
Qed.

Lemma Day_MakeDate day time : 0 <= time < msPerDay -> Day (MakeDate day time) = day.
Proof.
  intros H. unfold Day, MakeDate.
  rewrite Z.add_comm, Z.div_add by (unfold msPerDay; lia).
  rewrite Z.div_small by assumption. reflexivity.
Qed.

Lemma TimeWithinDay_MakeDate day time :
  0 <= time < msPerDay -> TimeWithinDay (MakeDate day time) = time.
Proof.
  intros H. unfold TimeWithinDay, MakeDate.
  rewrite Z.add_comm, Z.mod_add by (unfold msPerDay; lia).
  apply Z.mod_small. assumption.
Qed.

Lemma TimeWithinDay_range t : 0 <= TimeWithinDay t < msPerDay.
Proof. apply Z.mod_pos_bound. reflexivity. Qed.

Lemma Day_TimeWithinDay t : t = MakeDate (Day t) (TimeWithinDay t).
Proof.
  unfold MakeDate, Day, TimeWithinDay.
  pose proof (Z.div_mod t msPerDay ltac:(unfold msPerDay; lia)). lia.
Qed.

Lemma DayWithinYear_range t : 0 <= DayWithinYear t < DaysInYear (YearFromTime t).
Proof.
  unfold DayWithinYear, YearFromTime.
  pose proof (YearFromDay_spec (Day t)) as S.
  rewrite DayFromYear_succ in S. lia.
Qed.

Lemma InLeapYear_cases t :
  (InLeapYear t = 0 /\ DaysInYear (YearFromTime t) = 365)
  \/ (InLeapYear t = 1 /\ DaysInYear (YearFromTime t) = 366).
Proof.
  unfold InLeapYear. destruct (DaysInYear_range (YearFromTime t)) as [E|E];
    rewrite E; simpl; auto.
Qed.

Ltac month_cases :=
  repeat match goal with
    | |- context [if ?a <? ?b then _ else _] => destruct (Z.ltb_spec a b)
    end.

Lemma MonthFromTime_range t : 0 <= MonthFromTime t <= 11.
Proof. unfold MonthFromTime. cbv zeta. month_cases; lia. Qed.

Lemma DateFromTime_range t : 1 <= DateFromTime t <= 31.
Proof.
  unfold DateFromTime, MonthFromTime. cbv zeta.
  pose proof (DayWithinYear_range t).
  destruct (InLeapYear_cases t) as [[El Ed]|[El Ed]]; rewrite El, Ed in *;
    month_cases; cbn [DaysBeforeMonth]; lia.
Qed.

(** [MakeDay] on the year and month of a time value counts from the
    first day of its month. *)
Lemma MakeDay_current t dt :
  MakeDay (YearFromTime t) (MonthFromTime t) dt = Day t - DateFromTime t + dt.
Proof.
  pose proof (MonthFromTime_range t) as R.
  unfold MakeDay. cbv zeta.
  rewrite Z.div_small, Z.mod_small, Z.add_0_r by lia.
  unfold DateFromTime, DayWithinYear, InLeapYear. lia.
Qed.

(** [setDate(getDate() + n)] moves a time value by [n] whole days. *)
Lemma setDate_getDate t n : setDate t (getDate t + n) = t + n * msPerDay.
Proof.
  unfold setDate, getDate. rewrite MakeDay_current.
  pose proof (Day_TimeWithinDay t) as E. unfold MakeDate, msPerDay in *. lia.
Qed.


Lemma DaysBeforeMonth_range y m :
  0 <= m <= 11 ->
  0 <= DaysBeforeMonth (if DaysInYear y =? 366 then 1 else 0) m < DaysInYear y.
Proof.
  intros Hm.
  assert (C : m = 0 \/ m = 1 \/ m = 2 \/ m = 3 \/ m = 4 \/ m = 5 \/ m = 6
              \/ m = 7 \/ m = 8 \/ m = 9 \/ m = 10 \/ m = 11) by lia.
  destruct (DaysInYear_range y) as [E|E]; rewrite E;
    repeat (destruct C as [C|C]; [subst m; simpl; lia|]); subst m; simpl; lia.
Qed.

Lemma MakeDay_normal y m dt :
  0 <= m <= 11 ->
  MakeDay y m dt
  = DayFromYear y + DaysBeforeMonth (if DaysInYear y =? 366 then 1 else 0) m + dt - 1.
Proof.
  intros Hm. unfold MakeDay. cbv zeta.
  rewrite Z.div_small, Z.mod_small, Z.add_0_r by lia. reflexivity.
Qed.

Lemma MakeDay_carry y m dt : MakeDay y m dt = MakeDay (y + m / 12) (m mod 12) dt.
Proof.
  pose proof (Z.mod_pos_bound m 12 ltac:(lia)).
  rewrite (MakeDay_normal (y + m / 12)) by lia. reflexivity.
Qed.

Lemma YearFromDay_MakeDay y m k :
  0 <= m <= 11 -> 
  0 <= DaysBeforeMonth (if DaysInYear y =? 366 then 1 else 0) m + k < DaysInYear y ->
  YearFromDay (MakeDay y m (k + 1)) = y.
Proof.
  intros Hm Hk. rewrite MakeDay_normal by assumption.
  apply YearFromDay_unique. rewrite DayFromYear_succ. lia.
Qed.

Section FirstOfMonth.
Variables (y m tm : Z).
Hypothesis Hm : 0 <= m <= 11.
Hypothesis Htm : 0 <= tm < msPerDay.

Let t := MakeDate (MakeDay y m 1) tm.

Lemma YearFromTime_first : YearFromTime t = y.
Proof.
  unfold YearFromTime, t. rewrite Day_MakeDate by assumption.
  pose proof (DaysBeforeMonth_range y m Hm).
  apply (YearFromDay_MakeDay y m 0); lia.
Qed.

Lemma DayWithinYear_first :
  DayWithinYear t = DaysBeforeMonth (if DaysInYear y =? 366 then 1 else 0) m.
Proof.
  unfold DayWithinYear. rewrite YearFromTime_first.
  unfold t. rewrite Day_MakeDate by assumption.
  rewrite MakeDay_normal by assumption. lia.
Qed.

Lemma MonthFromTime_first : MonthFromTime t = m.
Proof.
  unfold MonthFromTime. rewrite DayWithinYear_first.
  unfold InLeapYear. rewrite YearFromTime_first. cbv zeta.
  assert (C : m = 0 \/ m = 1 \/ m = 2 \/ m = 3 \/ m = 4 \/ m = 5 \/ m = 6
              \/ m = 7 \/ m = 8 \/ m = 9 \/ m = 10 \/ m = 11) by lia.
  destruct (DaysInYear_range y) as [E|E]; rewrite E;
    repeat (destruct C as [C|C]; [rewrite C; reflexivity|]); rewrite C; reflexivity.
Qed.

Lemma DateFromTime_first : DateFromTime t = 1.
Proof.
  unfold DateFromTime. rewrite MonthFromTime_first, DayWithinYear_first.
  unfold InLeapYear. rewrite YearFromTime_first. lia.
Qed.

End FirstOfMonth.

(** Some dates checked against the calendar: the epoch, a leap day, the
    last day of a century year that is a leap year, a day before the
    epoch. *)
Example date_epoch : (getFullYear 0, getMonth 0, getDate 0) = (1970, 0, 1).
Proof. reflexivity. Qed.

Example date_leap_day :
  newDateYMD 2024 1 29 = 1709164800000
  /\ (getFullYear 1709164800000, getMonth 1709164800000, getDate 1709164800000)
     = (2024, 1, 29).
Proof. split; vm_compute; reflexivity. Qed.

Example date_end_of_2000 :
  newDateYMD 2000 11 31 = 978220800000
  /\ setDate 978220800000 (getDate 978220800000 + 1) = newDateYMD 2001 0 1.
Proof. split; vm_compute; reflexivity. Qed.

Example date_before_epoch :
  (getFullYear (-1), getMonth (-1), getDate (-1), TimeWithinDay (-1))
  = (1969, 11, 31, msPerDay - 1).
Proof. vm_compute. reflexivity. Qed.

(** Day overflow carries into the next month; 2100 is not a leap year. *)
Example date_overflow : newDateYMD 2100 1 29 = newDateYMD 2100 2 1.
Proof. vm_compute. reflexivity. Qed.

End JSDateFacts.

(** ** Months and month windows *)

Module MonthWindowFacts.
Import JSDate DateFns Utils MonthWindow JSDateFacts.

(** The first of month [i], and what the getters read from it. *)
Lemma firstOfMonth_eq i : firstOfMonth i = MakeDate (MakeDay (i / 12) (i mod 12) 1) 0.
Proof. unfold firstOfMonth. rewrite MakeDay_carry. reflexivity. Qed.

Lemma msPerDay_pos : 0 <= 0 < msPerDay.
Proof. unfold msPerDay. lia. Qed.

Lemma getFullYear_firstOfMonth i : getFullYear (firstOfMonth i) = i / 12.
Proof.
  rewrite firstOfMonth_eq. apply YearFromTime_first.
  - pose proof (Z.mod_pos_bound i 12 ltac:(lia)). lia.
  - apply msPerDay_pos.
Qed.

Lemma getMonth_firstOfMonth i : getMonth (firstOfMonth i) = i mod 12.
Proof.
  rewrite firstOfMonth_eq. apply MonthFromTime_first.
  - pose proof (Z.mod_pos_bound i 12 ltac:(lia)). lia.
  - apply msPerDay_pos.
Qed.

Lemma getDate_firstOfMonth i : getDate (firstOfMonth i) = 1.
Proof.
  rewrite firstOfMonth_eq. apply DateFromTime_first.
  - pose proof (Z.mod_pos_bound i 12 ltac:(lia)). lia.
  - apply msPerDay_pos.
Qed.

Lemma TimeWithinDay_firstOfMonth i : TimeWithinDay (firstOfMonth i) = 0.
Proof. apply TimeWithinDay_MakeDate, msPerDay_pos. Qed.

Lemma monthIndex_firstOfMonth i : monthIndex (firstOfMonth i) = i.
Proof.
  unfold monthIndex. rewrite getFullYear_firstOfMonth, getMonth_firstOfMonth.
  pose proof (Z.div_mod i 12 ltac:(lia)). lia.
Qed.

Lemma MakeDay_monthIndex y m dt : MakeDay y m dt = MakeDay 0 (12 * y + m) dt.
Proof.
  rewrite (MakeDay_carry y), (MakeDay_carry 0).
  replace (12 * y + m) with (m + y * 12) by lia.
  rewrite Z.div_add, Z.mod_add by lia. f_equal. lia.
Qed.

Lemma setMonth_day1 t a tm :
  0 <= tm < msPerDay ->
  MakeDate (Day (MakeDate (MakeDay (getFullYear t) a 1) tm)) 0
  = firstOfMonth (12 * getFullYear t + a).
Proof.
  intros H. rewrite Day_MakeDate by assumption.
  unfold firstOfMonth. rewrite <- MakeDay_monthIndex. reflexivity.
Qed.

Lemma startOfMonth_eq t : startOfMonth t = firstOfMonth (monthIndex t).
Proof.
  unfold startOfMonth, setHours0, toDate, setDate.
  apply setMonth_day1, TimeWithinDay_range.
Qed.

Lemma getDaysInMonth_pos t : 1 <= getDaysInMonth t.
Proof. unfold getDaysInMonth. cbv zeta. apply DateFromTime_range. Qed.

(** On the first of a month, [addMonths] moves to the first of the month
    [n] months away. *)
Lemma addMonths_firstOfMonth i n : addMonths (firstOfMonth i) n = firstOfMonth (i + n).
Proof.
  unfold addMonths, toDate. cbv zeta.
  rewrite getDate_firstOfMonth.
  rewrite Z.min_r by apply getDaysInMonth_pos.
  unfold setMonth. rewrite TimeWithinDay_firstOfMonth.
  rewrite MakeDay_monthIndex.
  replace (12 * YearFromTime (firstOfMonth i) + (getMonth (firstOfMonth i) + n))
    with (monthIndex (firstOfMonth i) + n) by (unfold monthIndex, getFullYear; lia).
  rewrite monthIndex_firstOfMonth. reflexivity.
Qed.

Lemma getDateMonthAndYear_eq t : getDateMonthAndYear t = monthAt (monthIndex t).
Proof.
  unfold getDateMonthAndYear, monthAt. cbv zeta.
  rewrite startOfMonth_eq, getFullYear_firstOfMonth, getMonth_firstOfMonth.
  reflexivity.
Qed.

Lemma getDateMonthAndYear_firstOfMonth i : getDateMonthAndYear (firstOfMonth i) = monthAt i.
Proof. rewrite getDateMonthAndYear_eq, monthIndex_firstOfMonth. reflexivity. Qed.


Lemma month_eqb_eq a b : month_eqb a b = true <-> a = b.
Proof.
  unfold month_eqb. destruct a as [ya ma da], b as [yb mb db]. simpl.
  rewrite !andb_true_iff, !Z.eqb_eq. split.
  - intros [[-> ->] ->]. reflexivity.
  - intros E. injection E as -> -> ->. auto.
Qed.

Lemma shiftMonth_monthAt k i : shiftMonth k (monthAt i) = monthAt (i + k).
Proof.
  unfold shiftMonth. simpl. rewrite addMonths_firstOfMonth.
  apply getDateMonthAndYear_firstOfMonth.
Qed.

Lemma window_S i n : window i (S n) = monthAt i :: window (i + 1) n.
Proof.
  unfold window. simpl. rewrite Z.add_0_r. f_equal.
  rewrite <- seq_shift, map_map. apply map_ext. intros k. f_equal. lia.
Qed.

Lemma window_snoc i n : window i (S n) = window i n ++ [monthAt (i + Z.of_nat n)].
Proof. unfold window. rewrite seq_S, map_app. reflexivity. Qed.

Lemma window_length i n : length (window i n) = n.
Proof. unfold window. rewrite length_map, length_seq. reflexivity. Qed.

Lemma map_shiftMonth_window k i n : map (shiftMonth k) (window i n) = window (i + k) n.
Proof.
  unfold window. rewrite map_map. apply map_ext. intros j.
  rewrite shiftMonth_monthAt. f_equal. lia.
Qed.

Lemma isActiveMonth_monthAt m : isActiveMonth m = true -> m = monthAt (monthIndex (date m)).
Proof.
  unfold isActiveMonth. rewrite month_eqb_eq, getDateMonthAndYear_eq. auto.
Qed.

Lemma consecutiveFrom_window i w :
  consecutiveFrom (monthAt i) w = true -> w = window (i + 1) (length w).
Proof.
  revert i. induction w as [|m w IH]; intros i; simpl.
  - reflexivity.
  - rewrite andb_true_iff, month_eqb_eq, shiftMonth_monthAt. intros [-> H].
    rewrite window_S. f_equal. apply IH. assumption.
Qed.

Lemma window_consecutiveFrom i n : consecutiveFrom (monthAt i) (window (i + 1) n) = true.
Proof.
  revert i. induction n as [|n IH]; intros i.
  - reflexivity.
  - rewrite window_S. simpl. rewrite IH, andb_true_r.
    apply month_eqb_eq. symmetry. apply shiftMonth_monthAt.
Qed.

(** A month window is [window i n] for some first month [i], and
    conversely. *)
Lemma isMonthWindow_window n w :
  isMonthWindow n w = true -> 1 <= n -> exists i, w = window i (Z.to_nat n).
Proof.
  unfold isMonthWindow. rewrite andb_true_iff, Z.eqb_eq. intros [L H] Hn.
  destruct w as [|m w]; [simpl in L; lia|].
  apply andb_true_iff in H. destruct H as [Hm Hc].
  apply isActiveMonth_monthAt in Hm. exists (monthIndex (date m)).
  rewrite <- L, Nat2Z.id. simpl length. rewrite window_S, <- Hm. f_equal.
  apply consecutiveFrom_window. rewrite <- Hm. assumption.
Qed.

Lemma window_isMonthWindow i n : isMonthWindow (Z.of_nat n) (window i n) = true.
Proof.
  unfold isMonthWindow. rewrite window_length, Z.eqb_refl. simpl.
  destruct n as [|n]; [reflexivity|].
  rewrite window_S, window_consecutiveFrom, andb_true_r.
  unfold isActiveMonth. apply month_eqb_eq. simpl.
  symmetry. apply getDateMonthAndYear_firstOfMonth.
Qed.

Lemma fold_left_ignore {A B : Type} (f : A -> B -> A) (b0 : B) (l : list B) (a : A) :
  (forall a x, f a x = f a b0) ->
  fold_left f l a = Nat.iter (length l) (fun a => f a b0) a.
Proof.
  intros Hf. revert a. induction l as [|x l IH]; intros a.
  - reflexivity.
  - cbn [fold_left length]. rewrite IH, Hf. symmetry. apply Nat.iter_succ_r.
Qed.

Lemma last_window i n d : last (window i (S n)) d = monthAt (i + Z.of_nat n).
Proof. rewrite window_snoc. apply last_last. Qed.

(** [getInitialMonths] builds the window that starts at the month of its
    date; it has one entry when [numberOfMonths] is below 1. *)
Lemma getInitialMonths_window now e t :
  getInitialMonths now e t
  = window (monthIndex (match t with Some t => t | None => startOfDay now end))
      (Z.to_nat (Z.max 1 e)).
Proof.
  unfold getInitialMonths. cbv zeta.
  set (d := match t with Some t => t | None => startOfDay now end).
  rewrite getDateMonthAndYear_eq. set (i := monthIndex d).
  destruct (Z.gtb_spec e 1) as [H|H].
  - rewrite (fold_left_ignore _ O) by reflexivity.
    rewrite length_seq.
    replace (Z.to_nat (Z.max 1 e)) with (S (Z.to_nat (e - 1))) by lia.
    induction (Z.to_nat (e - 1)) as [|k IH].
    + simpl. rewrite window_S. reflexivity.
    + rewrite Nat.iter_succ, IH, last_window. cbn [date monthAt].
      rewrite addMonths_firstOfMonth, getDateMonthAndYear_firstOfMonth.
      rewrite (window_snoc i (S k)). do 3 f_equal. lia.
  - replace (Z.to_nat (Z.max 1 e)) with 1%nat by lia.
    rewrite window_S. reflexivity.
Qed.

Lemma nextActiveMonth_step_first r n x :
  nextActiveMonth_step r (n, []) x
  = (addMonths n r, [getDateMonthAndYear (addMonths n r)]).
Proof. unfold nextActiveMonth_step. destruct (r >? 0); reflexivity. Qed.

Lemma nextActiveMonth_step_next r n m acc x :
  nextActiveMonth_step r (n, m :: acc) x
  = let n' := addMonths n (if r >=? 0 then 1 else -1) in
    (n', if r >? 0 then (m :: acc) ++ [getDateMonthAndYear n']
         else getDateMonthAndYear n' :: m :: acc).
Proof. reflexivity. Qed.

(** The state of the reduction of [getNextActiveMonth] after [k + 1] steps. *)
Lemma nextActiveMonth_iter_pos r i k :
  0 < r ->
  Nat.iter (S k) (fun st => nextActiveMonth_step r st O) (firstOfMonth i, [])
  = (firstOfMonth (i + r + Z.of_nat k), window (i + r) (S k)).
Proof.
  intros Hr. induction k as [|k IH].
  - rewrite Nat.iter_succ. cbn [Nat.iter nat_rect]. rewrite nextActiveMonth_step_first.
    rewrite addMonths_firstOfMonth, getDateMonthAndYear_firstOfMonth.
    rewrite window_S. f_equal. f_equal. lia.
  - rewrite Nat.iter_succ, IH, (window_S (i + r) k), nextActiveMonth_step_next.
    cbv zeta. destruct (Z.geb_spec r 0); [|lia]. destruct (Z.gtb_spec r 0); [|lia].
    rewrite addMonths_firstOfMonth, getDateMonthAndYear_firstOfMonth.
    rewrite <- window_S, (window_snoc (i + r) (S k)).
    replace (i + r + Z.of_nat k + 1) with (i + r + Z.of_nat (S k)) by lia.
    reflexivity.
Qed.

Lemma nextActiveMonth_iter_neg r i k :
  r < 0 ->
  Nat.iter (S k) (fun st => nextActiveMonth_step r st O) (firstOfMonth i, [])
  = (firstOfMonth (i + r - Z.of_nat k), window (i + r - Z.of_nat k) (S k)).
Proof.
  intros Hr. induction k as [|k IH].
  - rewrite Nat.iter_succ. cbn [Nat.iter nat_rect]. rewrite nextActiveMonth_step_first.
    rewrite addMonths_firstOfMonth, getDateMonthAndYear_firstOfMonth.
    destruct (Z.gtb_spec r 0); [lia|]. rewrite window_S, Z.sub_0_r. reflexivity.
  - rewrite Nat.iter_succ, IH, (window_S (i + r - Z.of_nat k) k),
      nextActiveMonth_step_next.
    cbv zeta. destruct (Z.geb_spec r 0); [lia|]. destruct (Z.gtb_spec r 0); [lia|].
    rewrite addMonths_firstOfMonth, getDateMonthAndYear_firstOfMonth.
    rewrite <- window_S.
    replace (i + r - Z.of_nat k + -1) with (i + r - Z.of_nat (S k)) by lia.
    rewrite (window_S _ (S k)). do 3 f_equal. lia.
Qed.

Lemma nextActiveMonth_iter_zero i k :
  Nat.iter (S k) (fun st => nextActiveMonth_step 0 st O) (firstOfMonth i, [])
  = (firstOfMonth (i + Z.of_nat k), rev (window i (S k))).
Proof.
  induction k as [|k IH].
  - rewrite Nat.iter_succ. cbn [Nat.iter nat_rect]. rewrite nextActiveMonth_step_first.
    rewrite addMonths_firstOfMonth, getDateMonthAndYear_firstOfMonth.
    rewrite !Z.add_0_r, window_S. reflexivity.
  - rewrite Nat.iter_succ, IH, (window_snoc i k), rev_app_distr. simpl app.
    rewrite nextActiveMonth_step_next. cbv zeta.
    change (0 >=? 0) with true. change (0 >? 0) with false. cbv iota.
    rewrite addMonths_firstOfMonth, getDateMonthAndYear_firstOfMonth.
    replace (i + Z.of_nat k + 1) with (i + Z.of_nat (S k)) by lia.
    f_equal. rewrite (window_snoc i (S k)), rev_app_distr.
    rewrite (window_snoc i k), rev_app_distr. reflexivity.
Qed.

Lemma nth_error_last_window i n :
  nth_error (window i (S n)) (length (window i (S n)) - 1) = Some (monthAt (i + Z.of_nat n)).
Proof.
  rewrite window_length, window_snoc.
  replace (S n - 1)%nat with (length (window i n) + 0)%nat
    by (rewrite window_length; lia).
  rewrite nth_error_app2 by lia.
  replace (length (window i n) + 0 - length (window i n))%nat with O by lia.
  reflexivity.
Qed.


(** [getNextActiveMonth] on a window, for every step. *)
Lemma getNextActiveMonth_window i n t r :
  (1 <= n)%nat -> 0 <= t ->
  getNextActiveMonth (window i n) t r = Ok (shiftedWindow i n t r).
Proof.
  intros Hn Ht. destruct n as [|n]; [lia|].
  unfold getNextActiveMonth, shiftedWindow.
  destruct (Z.gtb_spec r 0) as [Hr|Hr].
  - rewrite nth_error_last_window. cbn [date monthAt].
    destruct (Z.ltb_spec t 0) as [|_]; [lia|]. f_equal.
    rewrite (fold_left_ignore _ O) by reflexivity. rewrite length_seq.
    destruct (Z.to_nat t) as [|k]; [reflexivity|].
    rewrite nextActiveMonth_iter_pos by assumption. cbn [snd].
    f_equal. lia.
  - rewrite window_S. cbn [nth_error date monthAt].
    destruct (Z.ltb_spec t 0) as [|_]; [lia|]. f_equal.
    rewrite (fold_left_ignore _ O) by reflexivity. rewrite length_seq.
    destruct (Z.ltb_spec r 0) as [Hr'|Hr'].
    + destruct (Z.to_nat t) as [|k] eqn:Ek; [reflexivity|].
      rewrite nextActiveMonth_iter_neg by assumption. cbn [snd].
      f_equal. lia.
    + assert (r = 0) by lia. subst r.
      destruct (Z.to_nat t) as [|k]; [reflexivity|].
      rewrite nextActiveMonth_iter_zero. reflexivity.
Qed.

End MonthWindowFacts.

(** ** The date-fns helpers *)

Module DateFnsFacts.
Import JSDate DateFns JSDateFacts.

(** [addDays] and [startOfDay] in terms of the time value. *)
Lemma addDays_eq t n : addDays t n = t + n * msPerDay.
Proof. unfold addDays, toDate. apply setDate_getDate. Qed.

Lemma startOfDay_eq t : startOfDay t = Day t * msPerDay.
Proof. unfold startOfDay, setHours0, toDate, MakeDate. lia. Qed.

Lemma Day_shift t n : Day (t + n * msPerDay) = Day t + n.
Proof. unfold Day. apply Z.div_add. unfold msPerDay. lia. Qed.

Lemma Day_midnight d : Day (d * msPerDay) = d.
Proof. unfold Day. apply Z.div_mul. unfold msPerDay. lia. Qed.

Lemma Day_le a b : a <= b -> Day a <= Day b.
Proof. intros H. unfold Day. apply Z.div_le_mono; [reflexivity | assumption]. Qed.

Lemma midnight_le_iff d o : d * msPerDay <= o <-> d <= Day o.
Proof.
  unfold Day. pose proof (Z.div_mod o msPerDay ltac:(unfold msPerDay; lia)) as E.
  pose proof (Z.mod_pos_bound o msPerDay ltac:(reflexivity)) as B.
  unfold msPerDay in *. split; intros H; nia.
Qed.

Lemma startOfDay_le t : startOfDay t <= t.
Proof. rewrite startOfDay_eq. apply midnight_le_iff. lia. Qed.

Lemma nextMidnight d :
  setHours0 (setDate (d * msPerDay) (getDate (d * msPerDay) + 1)) = (d + 1) * msPerDay.
Proof.
  rewrite setDate_getDate. unfold setHours0, MakeDate.
  rewrite Day_shift, Day_midnight. lia.
Qed.

(** The loop visits the midnights from day [d] to the day of [o], as far
    as the fuel goes. *)
Lemma eachDay_loop_spec fuel d o :
  eachDay_loop fuel (d * msPerDay) o
  = map (fun k => (d + Z.of_nat k) * msPerDay)
      (seq 0 (Nat.min fuel (Z.to_nat (Day o - d + 1)))).
Proof.
  revert d. induction fuel as [|fuel IH]; intros d.
  - reflexivity.
  - cbn [eachDay_loop]. unfold getTime, toDate.
    destruct (Z.leb_spec (d * msPerDay) o) as [H|H].
    + apply midnight_le_iff in H.
      rewrite nextMidnight, IH.
      replace (Z.to_nat (Day o - d + 1)) with (S (Z.to_nat (Day o - (d + 1) + 1))) by lia.
      cbn [Nat.min seq map]. rewrite Z.add_0_r. f_equal.
      rewrite <- seq_shift, map_map. apply map_ext. intros k. f_equal. lia.
    + assert (~ d <= Day o) by (rewrite <- midnight_le_iff; lia).
      replace (Z.to_nat (Day o - d + 1)) with O by lia.
      rewrite Nat.min_0_r. reflexivity.
Qed.

(** More fuel than the number of days of the interval changes nothing:
    the loop has stopped by itself. *)
Lemma eachDay_loop_fuel fuel d o :
  (Z.to_nat (Day o - d + 1) <= fuel)%nat ->
  eachDay_loop fuel (d * msPerDay) o
  = eachDay_loop (Z.to_nat (Day o - d + 1)) (d * msPerDay) o.
Proof.
  intros H. rewrite !eachDay_loop_spec. f_equal. f_equal. lia.
Qed.

(** [eachDayOfInterval] lists the midnights of the days of the interval,
    and throws exactly when the end is before the start. *)
Lemma eachDayOfInterval_ok s e :
  s <= e ->
  eachDayOfInterval s e
  = Ok (map (fun k => addDays (startOfDay s) (Z.of_nat k))
          (seq 0 (Z.to_nat (Day e - Day s + 1)))).
Proof.
  intros H. unfold eachDayOfInterval, getTime, toDate. cbv zeta.
  destruct (Z.leb_spec s e) as [_|]; [|lia]. cbn [negb]. f_equal.
  change (setHours0 s) with (startOfDay s). rewrite startOfDay_eq.
  rewrite eachDay_loop_spec, Nat.min_id. apply map_ext. intros k.
  rewrite addDays_eq. lia.
Qed.

Lemma eachDayOfInterval_throw s e : e < s -> eachDayOfInterval s e = Throw RangeError.
Proof.
  intros H. unfold eachDayOfInterval, getTime, toDate. cbv zeta.
  destruct (Z.leb_spec s e); [lia|reflexivity].
Qed.

Lemma eachDayOfInterval_Ok_le s e l : eachDayOfInterval s e = Ok l -> s <= e.
Proof.
  intros H. destruct (Z.le_gt_cases s e) as [L|L]; [assumption|].
  rewrite eachDayOfInterval_throw in H by assumption. discriminate.
Qed.

End DateFnsFacts.

(** ** [canSelectRange] *)

Module UtilsFacts.
Import JSDate DateFns Utils JSDateFacts DateFnsFacts.

Lemma someDayOf_Ok_le s e n b : someDayOf s e n = Ok b -> s <= e.
Proof.
  unfold someDayOf. destruct (eachDayOfInterval s e) as [l|] eqn:E; [|discriminate].
  intros _. eapply eachDayOfInterval_Ok_le. eassumption.
Qed.

Lemma someDayOf_ok s e n :
  s <= e ->
  someDayOf s e n
  = Ok (existsb n (map (fun k => addDays (startOfDay s) (Z.of_nat k))
                     (seq 0 (Z.to_nat (Day e - Day s + 1))))).
Proof. intros H. unfold someDayOf. rewrite eachDayOfInterval_ok by assumption. reflexivity. Qed.

Lemma someDayOf_false s e n :
  s <= e ->
  (forall k, 0 <= k <= Day e - Day s -> n (addDays (startOfDay s) k) = false) ->
  someDayOf s e n = Ok false.
Proof.
  intros H Hn. rewrite someDayOf_ok by assumption. f_equal.
  apply not_true_is_false. intros E. apply existsb_exists in E.
  destruct E as [x [Hx Hb]]. apply in_map_iff in Hx. destruct Hx as [k [<- Hk]].
  apply in_seq in Hk. rewrite Hn in Hb by lia. discriminate.
Qed.

Lemma someDayOf_false_inv s e n :
  someDayOf s e n = Ok false ->
  s <= e /\ forall k, 0 <= k <= Day e - Day s -> n (addDays (startOfDay s) k) = false.
Proof.
  intros H. pose proof (someDayOf_Ok_le _ _ _ _ H) as L. split; [assumption|].
  rewrite someDayOf_ok in H by assumption. injection H as H.
  intros k Hk. apply not_true_is_false. intros E.
  assert (X : existsb n (map (fun k => addDays (startOfDay s) (Z.of_nat k))
                          (seq 0 (Z.to_nat (Day e - Day s + 1)))) = true).
  { apply existsb_exists. exists (addDays (startOfDay s) k). split; [|assumption].
    apply in_map_iff. exists (Z.to_nat k). split; [f_equal; lia|].
    apply in_seq. lia. }
  rewrite X in H. discriminate.
Qed.

(** A single unblocked day with [minBookingDays = 1] and no end date is
    selectable, whatever the other fields are. *)
Lemma canSelectRange_single e :
  csr_minBookingDays e = 1 -> csr_endDate e = None ->
  csr_isDateBlocked e (csr_startDate e) = false ->
  canSelectRange e = Ok true.
Proof.
  intros Ha Hr Hn. unfold canSelectRange. rewrite Ha, Hr, Hn. reflexivity.
Qed.

Lemma canSelectRange_single_blocked e :
  csr_minBookingDays e = 1 -> csr_endDate e = None ->
  csr_exactMinBookingDays e = false ->
  csr_isDateBlocked e (csr_startDate e) = true ->
  canSelectRange e = Ok false.
Proof.
  intros Ha Hr Ho Hn. unfold canSelectRange. rewrite Ha, Hr, Ho, Hn. reflexivity.
Qed.

(** Outside exact mode a range with an end date is selectable only if the
    end is not before the start. *)
Lemma canSelectRange_end_le e r :
  csr_endDate e = Some r -> csr_exactMinBookingDays e = false ->
  canSelectRange e = Ok true ->
  csr_startDate e <= r.
Proof.
  intros Hr Ho. unfold canSelectRange. rewrite Hr, Ho. cbv zeta.
  rewrite orb_true_r, !andb_false_r. cbn [isSome isNone negb orb andR andb].
  rewrite ?andb_false_r. cbn [orb orR].
  unfold orR. destruct (isBefore r _); [discriminate|].
  destruct (someDayOf _ r _) as [[]|] eqn:E; try discriminate.
  intros _. eapply someDayOf_Ok_le. eassumption.
Qed.

(** Outside exact mode, with an end date: when the range is selectable. *)
Lemma canSelectRange_range e r :
  csr_endDate e = Some r -> csr_exactMinBookingDays e = false ->
  isBefore r (addDays (csr_startDate e) (csr_minBookingDays e - 1)) = false ->
  csr_startDate e <= r ->
  (forall k, 0 <= k <= Day r - Day (csr_startDate e) ->
             csr_isDateBlocked e (addDays (startOfDay (csr_startDate e)) k) = false) ->
  canSelectRange e = Ok true.
Proof.
  intros Hr Ho Hb Hle Hn. unfold canSelectRange. rewrite Hr, Ho, Hb. cbv zeta.
  rewrite orb_true_r, !andb_false_r. cbn [isSome isNone negb orb andR andb].
  rewrite ?andb_false_r. cbn [orb orR].
  rewrite someDayOf_false by assumption. reflexivity.
Qed.

(** Exact mode: the range of [minBookingDays] days from the start is
    selectable when it fits the bounds the code tests and has no blocked
    day. *)
Lemma canSelectRange_exact e :
  csr_exactMinBookingDays e = true -> csr_endDate e = None ->
  1 < csr_minBookingDays e ->
  match csr_minBookingDate e with
  | Some i => isBefore (csr_startDate e) (addDays i (-1)) = false
  | None => True
  end ->
  match csr_maxBookingDate e with
  | Some d => isAfter (addDays (csr_startDate e) (csr_minBookingDays e - 1)) d = false
  | None => True
  end ->
  (forall k, 0 <= k <= csr_minBookingDays e - 1 ->
             csr_isDateBlocked e (addDays (startOfDay (csr_startDate e)) k) = false) ->
  canSelectRange e = Ok true.
Proof.
  intros Ho Hr Ha Hs Hc Hn. unfold canSelectRange. rewrite Ho, Hr. cbv zeta.
  assert (Ea : (csr_minBookingDays e =? 1) = false) by (apply Z.eqb_neq; lia).
  assert (Eg : (csr_minBookingDays e >? 0) = true) by (apply Z.gtb_lt; lia).
  rewrite Ea, Eg. cbn [negb orb andb isNone isSome andR].
  rewrite andb_false_r. cbn [orb].
  assert (Es : match csr_minBookingDate e with
               | Some i => negb (isBefore (csr_startDate e) (addDays i (-1)))
               | None => true
               end = true).
  { destruct (csr_minBookingDate e); [rewrite Hs|]; reflexivity. }
  assert (Ec : match csr_maxBookingDate e with
               | Some d => negb (isAfter (addDays (csr_startDate e)
                                            (csr_minBookingDays e - 1)) d)
               | None => true
               end = true).
  { destruct (csr_maxBookingDate e); [rewrite Hc|]; reflexivity. }
  rewrite Es, Ec. cbn [orb andb].
  rewrite someDayOf_false; [reflexivity | rewrite addDays_eq; unfold msPerDay; lia |].
  intros k Hk. apply Hn. rewrite addDays_eq, Day_shift in Hk. lia.
Qed.

(** With [minBookingDays >= 1] every interval [canSelectRange] walks is
    well formed: it never throws. *)
Lemma canSelectRange_total e :
  1 <= csr_minBookingDays e -> exists b, canSelectRange e = Ok b.
Proof.
  intros Ha. unfold canSelectRange. cbv zeta.
  assert (L : csr_startDate e
              <= addDays (csr_startDate e) (csr_minBookingDays e - 1))
    by (rewrite addDays_eq; unfold msPerDay; lia).
  destruct (negb (csr_minBookingDays e =? 1) || isSome (csr_endDate e)
            || csr_isDateBlocked e (csr_startDate e));
    cbn [andR bind]; [|eexists; reflexivity].
  destruct (_ || _ || _).
  - rewrite someDayOf_ok by assumption. cbn [bind]. eexists. reflexivity.
  - destruct (csr_endDate e) as [r|]; [|eexists; reflexivity].
    unfold orR. destruct (csr_exactMinBookingDays e); cbn [orb bind];
      [eexists; reflexivity|].
    unfold isBefore, getTime, toDate.
    destruct (Z.ltb_spec r (addDays (csr_startDate e) (csr_minBookingDays e - 1)))
      as [H|H]; cbn [bind]; [eexists; reflexivity|].
    rewrite someDayOf_ok by lia. cbn [bind]. eexists. reflexivity.
Qed.

(** With [minBookingDays = 0] it can: the end date may lie before the
    start date when the days in between are walked. *)
Example canSelectRange_throws :
  canSelectRange
    {| csr_startDate := newDateYMD 2024 0 10;
       csr_endDate := Some (newDateYMD 2024 0 10 - 1);
       csr_isDateBlocked := fun _ => false;
       csr_minBookingDays := 0;
       csr_exactMinBookingDays := false;
       csr_minBookingDate := None;
       csr_maxBookingDate := None |}
  = Throw RangeError.
Proof. vm_compute. reflexivity. Qed.

(** *** Bounds as [isDateBlocked] rebuilds them *)

Lemma MakeDay_getters r : MakeDay (getFullYear r) (getMonth r) (getDate r) = Day r.
Proof. unfold getFullYear, getMonth, getDate. rewrite MakeDay_current. lia. Qed.

(** Outside the years 0..99, [new Date(y, m, d, 0, 0, 0)] of a date's own
    year, month and day is the midnight of its day. *)
Lemma midnightOf_startOfDay r :
  getFullYear r < 0 \/ 99 < getFullYear r -> midnightOf r = startOfDay r.
Proof.
  intros H. unfold midnightOf, newDateYMD. cbv zeta.
  destruct (Z.leb_spec 0 (getFullYear r)), (Z.leb_spec (getFullYear r) 99);
    try lia; cbn [andb]; rewrite MakeDay_getters; reflexivity.
Qed.

Lemma DaysBeforeMonth_leap l l' m :
  0 <= l <= 1 -> 0 <= l' <= 1 -> 0 <= m <= 11 ->
  DaysBeforeMonth l m - 1 <= DaysBeforeMonth l' m.
Proof.
  intros Hl Hl' Hm.
  assert (C : m = 0 \/ m = 1 \/ m = 2 \/ m = 3 \/ m = 4 \/ m = 5 \/ m = 6
              \/ m = 7 \/ m = 8 \/ m = 9 \/ m = 10 \/ m = 11) by lia.
  repeat (destruct C as [C|C]; [rewrite C; cbn [DaysBeforeMonth]; lia|]).
  rewrite C; cbn [DaysBeforeMonth]; lia.
Qed.

Lemma leap_flag_range y : 0 <= (if DaysInYear y =? 366 then 1 else 0) <= 1.
Proof. destruct (DaysInYear y =? 366); lia. Qed.

(** In the years 0..99 the constructor lands nineteen centuries later. *)
Lemma startOfDay_le_midnightOf r : startOfDay r <= midnightOf r.
Proof.
  rewrite startOfDay_eq. unfold midnightOf, newDateYMD. cbv zeta.
  destruct ((0 <=? getFullYear r) && (getFullYear r <=? 99)).
  - pose proof (MonthFromTime_range r) as Hm.
    change (MonthFromTime r) with (getMonth r) in Hm.
    pose proof (MakeDay_getters r) as E.
    rewrite MakeDay_normal in E by assumption.
    rewrite MakeDay_normal by assumption.
    pose proof (DaysBeforeMonth_leap _ _ (getMonth r)
                  (leap_flag_range (getFullYear r))
                  (leap_flag_range (1900 + getFullYear r)) Hm).
    pose proof (DayFromYear_approx (getFullYear r)).
    pose proof (DayFromYear_approx (1900 + getFullYear r)).
    unfold MakeDate, msPerDay. lia.
  - rewrite MakeDay_getters. unfold MakeDate. lia.
Qed.

Lemma before_day_before_midnightOf d m : Day d < Day m -> isBefore d (midnightOf m) = true.
Proof.
  intros H. unfold isBefore, getTime, toDate. apply Z.ltb_lt.
  pose proof (startOfDay_le_midnightOf m) as L. rewrite startOfDay_eq in L.
  assert (~ Day m * msPerDay <= d) by (rewrite midnight_le_iff; lia).
  lia.
Qed.

End UtilsFacts.

(** ** The handlers of the hook *)

Module HookFacts.
Import JSDate DateFns Utils Hook Selection JSDateFacts DateFnsFacts UtilsFacts.

Lemma emitted_app es1 es2 : emitted (es1 ++ es2) = emitted es1 ++ emitted es2.
Proof.
  induction es1 as [|[] es1 IH]; simpl; rewrite ?IH; reflexivity.
Qed.

(** One link of the [if ... else if ...] chain: either the guard holds
    and the branch is taken, or the chain goes on. *)
Lemma chain_inv (g : bool) (X : res bool) (E K es : res (list Effect)) :
  (c <- andR g X ;; if c then E else K) = es ->
  (exists e, es = Throw e)
  \/ (g = true /\ X = Ok true /\ E = es)
  \/ ((g = false \/ X = Ok false) /\ K = es).
Proof.
  destruct g; simpl.
  - destruct X as [[]|e]; simpl; intros <-; eauto 6.
  - intros <-. eauto 6.
Qed.

Lemma ordered_le a b : a <= b -> ordered (Some a) (Some b) = true.
Proof.
  intros H. unfold ordered. apply andb_true_iff. split; apply Z.leb_le.
  - apply Day_le. assumption.
  - assumption.
Qed.

Lemma onDateSelect_change_ordered p date es data :
  onDateSelect_change p date = Ok es ->
  In data (emitted es) ->
  ordered (data_startDate data) (data_endDate data) = true.
Proof.
  unfold onDateSelect_change. cbv zeta. intros H.
  apply chain_inv in H. destruct H as [[e H]|[[G [X H]]|[_ H]]]; [discriminate| |].
  { injection H as <-. intros [<-|[]]. cbn [data_startDate data_endDate].
    apply ordered_le. rewrite addDays_eq.
    apply andb_true_iff in G. destruct G as [G _].
    apply andb_true_iff in G. destruct G as [_ G]. apply Z.gtb_lt in G.
    unfold msPerDay. lia. }
  apply chain_inv in H. destruct H as [[e H]|[[G [X H]]|[_ H]]]; [discriminate| |].
  { injection H as <-. intros [<-|[]]. reflexivity. }
  apply chain_inv in H. destruct H as [[e H]|[[G [X H]]|[_ H]]]; [discriminate| |].
  { injection H as <-. intros [<-|[]]. cbn [data_startDate data_endDate].
    destruct (endDate p) as [r|] eqn:Er; [|reflexivity].
    apply ordered_le. apply (canSelectRange_end_le _ r) in X; auto. }
  apply chain_inv in H. destruct H as [[e H]|[[G [X H]]|[_ H]]]; [discriminate| |].
  { injection H as <-. intros [<-|[]]. reflexivity. }
  destruct (startDate p) as [s|]; [|injection H as <-; intros []].
  apply chain_inv in H. destruct H as [[e H]|[[G [X H]]|[_ H]]]; [discriminate| |].
  { injection H as <-. intros [<-|[]]. cbn [data_startDate data_endDate].
    apply ordered_le. apply (canSelectRange_end_le _ date) in X; auto. }
  injection H as <-. intros [].
Qed.

Lemma emitted_onDateSelect now p s date es :
  onDateSelect now p s date = Ok es ->
  exists ch, onDateSelect_change p date = Ok ch /\ emitted es = emitted ch.
Proof.
  unfold onDateSelect. destruct (onDateSelect_change p date) as [ch|]; [|discriminate].
  simpl. intros H. injection H as <-. exists ch. split; [reflexivity|].
  rewrite emitted_app. destruct (_ && _); simpl; apply app_nil_r.
Qed.

Lemma feedAll_ordered p ds :
  ordered (startDate p) (endDate p) = true ->
  (forall d, In d ds -> ordered (data_startDate d) (data_endDate d) = true) ->
  ordered (startDate (feedAll p ds)) (endDate (feedAll p ds)) = true.
Proof.
  unfold feedAll. revert p. induction ds as [|d ds IH]; intros p Hp Hd.
  - exact Hp.
  - cbn [fold_left]. apply IH.
    + cbn [feed startDate endDate]. apply Hd. left. reflexivity.
    + intros d' Hin. apply Hd. right. assumption.
Qed.

Lemma disabledDatesByUser_feed p d x :
  disabledDatesByUser (feed p d) x = disabledDatesByUser p x.
Proof. reflexivity. Qed.

Lemma onDateSelect_emitted now p s date ch :
  onDateSelect_change p date = Ok ch ->
  exists es, onDateSelect now p s date = Ok es /\ emitted es = emitted ch.
Proof.
  intros H. unfold onDateSelect. rewrite H. simpl. eexists. split; [reflexivity|].
  rewrite emitted_app. destruct (_ && _); simpl; apply app_nil_r.
Qed.

(** With no input focused the chain takes no branch. *)
Lemma onDateSelect_change_unfocused p date :
  focusedInput p = None -> onDateSelect_change p date = Ok [].
Proof.
  intros H. unfold onDateSelect_change. rewrite H. cbn.
  destruct (startDate p); reflexivity.
Qed.

Lemma onDateSelect_unfocused now p s date :
  focusedInput p = None ->
  exists es,
    onDateSelect now p s date = Ok es
    /\ emitted es = []
    /\ feedAll p (emitted es) = p
    /\ es = (if dateLeavesFocus s date
             then [SetActiveMonths
                     (getInitialMonths now (numberOfMonths p) (Some date))]
             else []).
Proof.
  intros H. unfold onDateSelect.
  rewrite (onDateSelect_change_unfocused p date H), H.
  cbn [bind app focus_eqb negb andb].
  eexists. split; [reflexivity|].
  destruct (dateLeavesFocus s date); repeat split; reflexivity.
Qed.

(** Start-date pick on an empty selection, [minBookingDays = 1]. *)
Lemma onDateSelect_change_first p date :
  exactMinBookingDays p = false -> minBookingDays p = 1 ->
  focusedInput p = Some START_DATE -> endDate p = None ->
  disabledDatesByUser p date = false ->
  onDateSelect_change p date
  = Ok [OnDatesChange {| data_focusedInput := Some END_DATE;
                         data_startDate := Some date;
                         data_endDate := None |}].
Proof.
  intros He Hm Hf Hn Hb. unfold onDateSelect_change, canSelectPlain.
  rewrite He, Hf, Hn. cbn [focus_eqb orb andb negb].
  rewrite ?andb_false_r. cbn [andR bind].
  rewrite canSelectRange_single; [reflexivity | assumption | reflexivity | assumption].
Qed.

(** End-date pick completing a range, [minBookingDays = 1]. *)
Lemma onDateSelect_change_end p s date :
  exactMinBookingDays p = false -> minBookingDays p = 1 ->
  focusedInput p = Some END_DATE -> startDate p = Some s ->
  s <= date ->
  (forall k, 0 <= k <= Day date - Day s ->
             disabledDatesByUser p (addDays (startOfDay s) k) = false) ->
  onDateSelect_change p date
  = Ok [OnDatesChange {| data_focusedInput := None;
                         data_startDate := Some s;
                         data_endDate := Some date |}].
Proof.
  intros He Hm Hf Hs Hle Hb. unfold onDateSelect_change, canSelectPlain.
  assert (Eb : isBefore date s = false).
  { unfold isBefore, getTime, toDate. apply Z.ltb_ge. assumption. }
  rewrite He, Hf, Hs, Eb. cbn [focus_eqb orb andb negb].
  rewrite ?andb_false_r. cbn [andR bind].
  rewrite canSelectRange_range with (r := date);
    [reflexivity | reflexivity | reflexivity | | assumption | assumption].
  cbn [csr_startDate csr_minBookingDays]. rewrite Hm, addDays_eq.
  unfold isBefore, getTime, toDate. apply Z.ltb_ge. lia.
Qed.

(** Start-date pick after the current end date: the redirect branch. *)
Lemma onDateSelect_change_redirect p e date :
  exactMinBookingDays p = false -> minBookingDays p = 1 ->
  focusedInput p = Some START_DATE -> endDate p = Some e ->
  isAfter date e = true ->
  disabledDatesByUser p date = false ->
  onDateSelect_change p date
  = Ok [OnDatesChange {| data_focusedInput := Some END_DATE;
                         data_startDate := Some date;
                         data_endDate := None |}].
Proof.
  intros He Hm Hf Hn Ha Hb. unfold onDateSelect_change, canSelectPlain.
  rewrite He, Hf, Hn, Ha. cbn [focus_eqb orb andb negb].
  rewrite ?andb_false_r. cbn [andR bind].
  rewrite canSelectRange_single; [reflexivity | assumption | reflexivity | assumption].
Qed.

(** Exact mode: one click commits the whole range. *)
Lemma onDateSelect_change_exact p f date :
  exactMinBookingDays p = true -> 1 < minBookingDays p ->
  focusedInput p = Some f ->
  match minBookingDate p with
  | Some m => Day m <= Day date
  | None => True
  end ->
  match maxBookingDate p with
  | Some m => isAfter (addDays date (minBookingDays p - 1)) m = false
  | None => True
  end ->
  (forall k, 0 <= k <= minBookingDays p - 1 ->
             disabledDatesByUser p (addDays (startOfDay date) k) = false) ->
  onDateSelect_change p date
  = Ok [OnDatesChange {| data_focusedInput := None;
                         data_startDate := Some date;
                         data_endDate := Some (addDays date (minBookingDays p - 1)) |}].
Proof.
  intros He Hm Hf Hmin Hmax Hb. unfold onDateSelect_change.
  rewrite He, Hf. cbv zeta.
  assert (Ef : focus_eqb (Some f) END_DATE || focus_eqb (Some f) START_DATE = true)
    by (destruct f; reflexivity).
  assert (Eg : (minBookingDays p >? 0) = true) by (apply Z.gtb_lt; lia).
  rewrite Ef, Eg. cbn [andb andR].
  rewrite canSelectRange_exact; [reflexivity | reflexivity | reflexivity | assumption | | | ].
  - cbn [csr_minBookingDate csr_startDate]. destruct (minBookingDate p) as [m|]; [|exact I].
    unfold isBefore, getTime, toDate. rewrite addDays_eq. apply Z.ltb_ge.
    pose proof (startOfDay_le date) as L1. rewrite startOfDay_eq in L1.
    pose proof (Day_TimeWithinDay m) as E. pose proof (TimeWithinDay_range m) as R.
    unfold MakeDate, msPerDay in *. lia.
  - exact Hmax.
  - exact Hb.
Qed.

Lemma selectAndFeed_one now p s date d :
  onDateSelect_change p date = Ok [OnDatesChange d] ->
  exists s', selectAndFeed now (p, s) date = Ok (feed p d, s').
Proof.
  intros H. destruct (onDateSelect_emitted now p s date _ H) as [es [H1 H2]].
  unfold selectAndFeed. cbn [fst snd]. rewrite H1. cbn [bind]. rewrite H2.
  eexists. reflexivity.
Qed.

Lemma onDateSelect_change_ignores_minBookingDate p m date :
  exactMinBookingDays p = false ->
  onDateSelect_change (withMinBookingDate p m) date = onDateSelect_change p date.
Proof.
  intros He. unfold onDateSelect_change.
  cbn [withMinBookingDate exactMinBookingDays focusedInput minBookingDays
       startDate endDate].
  rewrite He, !andb_false_r. reflexivity.
Qed.

Lemma isDateBlocked_eq p date :
  isDateBlocked p date
  = Ok (beforeMinBookingDate p date || afterMaxBookingDate p date
        || inMinStayWindow p date || disabledDatesByUser p date).
Proof.
  unfold isDateBlocked, isDateBlockedFn, beforeMinBookingDate,
    afterMaxBookingDate, inMinStayWindow.
  cbn [idb_date idb_minBookingDate idb_maxBookingDate idb_isDateBlockedFn
       idb_startDate idb_endDate idb_minBookingDays idb_unavailableDates
       isInUnavailableDates existsb orR].
  destruct (minBookingDate p) as [mn|]; cbn [option_map].
  1: destruct (isBefore date (midnightOf mn)); [reflexivity|]; cbn [orR orb].
  all: destruct (maxBookingDate p) as [mx|]; cbn [option_map].
  1,3: destruct (isAfter date (midnightOf mx)); [reflexivity|]; cbn [orR orb].
  all: destruct (startDate p) as [s|]; cbn [bind orR orb]; try reflexivity.
  all: destruct (endDate p) as [e|]; cbn [isNone isSome negb andb andR bind orR];
    try reflexivity.
  all: destruct (Z.gtb_spec (minBookingDays p) 1) as [G|G];
    cbn [andR andb bind orR]; try reflexivity.
  all: unfold isWithinInterval, getTime, toDate; rewrite addDays_eq.
  all: destruct (Z.leb_spec s (s + (minBookingDays p - 2) * msPerDay)) as [L|L];
    [|unfold msPerDay in L; lia].
  all: cbn [negb bind]; destruct ((date >=? s) && _); reflexivity.
Qed.

(** With [minBookingDays >= 1] a selection never throws. *)
Lemma onDateSelect_total now p s date :
  1 <= minBookingDays p -> exists es, onDateSelect now p s date = Ok es.
Proof.
  intros Ha.
  assert (T : forall e, csr_minBookingDays e = minBookingDays p ->
                        exists b, canSelectRange e = Ok b).
  { intros e E. apply canSelectRange_total. rewrite E. assumption. }
  assert (A : forall g e, csr_minBookingDays e = minBookingDays p ->
                          exists b, andR g (canSelectRange e) = Ok b).
  { intros g e E. destruct g; [apply T; assumption | eexists; reflexivity]. }
  assert (C : exists ch, onDateSelect_change p date = Ok ch).
  { unfold onDateSelect_change, canSelectPlain. cbv zeta.
    repeat match goal with
      | |- exists ch, (c <- andR ?g (canSelectRange ?e) ;; _) = Ok ch =>
          let b := fresh "b" in
          let E := fresh "E" in
          destruct (A g e eq_refl) as [b E]; rewrite E; cbn [bind];
          destruct b; [eexists; reflexivity|]
      | |- exists ch, match ?x with Some _ => _ | None => _ end = Ok ch =>
          destruct x; [|eexists; reflexivity]
      end.
    eexists. reflexivity. }
  destruct C as [ch E]. unfold onDateSelect. rewrite E. cbn [bind].
  eexists. reflexivity.
Qed.

(** A blocked day outside the hover preview has a click handler that
    does nothing. *)
Lemma dayOnClick_blocked now p s date :
  isDateBlocked p date = Ok true ->
  isDateHovered p s date = Ok false ->
  dayOnClick now p s date = Ok [].
Proof.
  intros Hb Hh. unfold dayOnClick, dayDisabled. rewrite Hb. cbn [bind andR].
  rewrite Hh. reflexivity.
Qed.

Lemma isSameDay_refl t : isSameDay t t = true.
Proof. unfold isSameDay. apply Z.eqb_refl. Qed.

(** Hovering the start date is always accepted, blocked or not: the
    hover handler lets the start date through by name. *)
Lemma onDateHover_startDate p st s :
  startDate p = Some s ->
  onDateHover p st (Some s) = Ok [SetHoveredDate (Some s)].
Proof.
  intros Hs. unfold onDateHover. rewrite isDateBlocked_eq, Hs. cbn [bind].
  rewrite isSameDay_refl, orb_true_r.
  destruct (Z.gtb_spec (minBookingDays p) 1) as [G|G].
  - unfold isWithinInterval, getTime, toDate. rewrite addDays_eq.
    destruct (Z.leb_spec s (s + (minBookingDays p - 2) * msPerDay)) as [L|L];
      [|unfold msPerDay in L; lia].
    cbn [negb bind].
    destruct (Z.geb_spec s s) as [_|]; [|lia].
    destruct (Z.leb_spec s (s + (minBookingDays p - 2) * msPerDay)) as [_|]; [|lia].
    cbn [andb]. rewrite !orb_true_r. reflexivity.
  - cbn [bind andb]. rewrite !orb_true_r. reflexivity.
Qed.


End HookFacts.

(** ** Navigation of the month window *)

Module NavigationFacts.
Import JSDate DateFns Utils Hook MonthWindow Selection.
Import JSDateFacts DateFnsFacts MonthWindowFacts.

(** What [getNextActiveMonth] does to a month window, as a shift of each
    of its entries. *)
Lemma getNextActiveMonth_shift w n delta :
  isMonthWindow n w = true -> 1 <= n -> delta <> 0 ->
  getNextActiveMonth w n delta
  = Ok (map (shiftMonth (if delta >? 0 then delta + (n - 1) else delta - (n - 1))) w).
Proof.
  intros Hw Hn Hd. destruct (isMonthWindow_window n w Hw Hn) as [i ->].
  rewrite getNextActiveMonth_window, map_shiftMonth_window by lia.
  unfold shiftedWindow. f_equal.
  destruct (Z.gtb_spec delta 0) as [G|G].
  - f_equal. lia.
  - destruct (Z.ltb_spec delta 0) as [L|L]; [|lia]. f_equal. lia.
Qed.

(** With a step of 0 the window comes back reversed. *)
Lemma getNextActiveMonth_zero w n :
  isMonthWindow n w = true -> 1 <= n -> getNextActiveMonth w n 0 = Ok (rev w).
Proof.
  intros Hw Hn. destruct (isMonthWindow_window n w Hw Hn) as [i ->].
  rewrite getNextActiveMonth_window by lia. reflexivity.
Qed.

Lemma isMonthWindow_shift k n w :
  isMonthWindow n w = true -> 1 <= n -> isMonthWindow n (map (shiftMonth k) w) = true.
Proof.
  intros Hw Hn. destruct (isMonthWindow_window n w Hw Hn) as [i ->].
  rewrite map_shiftMonth_window.
  replace n with (Z.of_nat (Z.to_nat n)) at 1 by lia.
  apply window_isMonthWindow.
Qed.

Lemma shiftMonth_inverse k w n :
  isMonthWindow n w = true -> 1 <= n ->
  map (shiftMonth (- k)) (map (shiftMonth k) w) = w.
Proof.
  intros Hw Hn. destruct (isMonthWindow_window n w Hw Hn) as [i ->].
  rewrite !map_shiftMonth_window. f_equal. lia.
Qed.

(** Every navigation call with a non-zero step keeps a month window. *)
Lemma getNextActiveMonth_keeps_window w n delta :
  isMonthWindow n w = true -> 1 <= n -> delta <> 0 ->
  exists w', getNextActiveMonth w n delta = Ok w' /\ isMonthWindow n w' = true.
Proof.
  intros Hw Hn Hd. eexists. split.
  - apply getNextActiveMonth_shift; assumption.
  - apply isMonthWindow_shift; assumption.
Qed.

Lemma getInitialMonths_isMonthWindow now n t :
  1 <= n -> isMonthWindow n (getInitialMonths now n t) = true.
Proof.
  intros Hn. rewrite getInitialMonths_window.
  replace n with (Z.of_nat (Z.to_nat (Z.max 1 n))) at 1 by lia.
  apply window_isMonthWindow.
Qed.

(** The buttons of the picker keep the month window: the month buttons
    always, the year buttons as long as their step does not vanish,
    which is the case for up to 12 visible months and a positive number
    of years. *)
Lemma goTo_keeps_window p s delta es :
  isMonthWindow (numberOfMonths p) (activeMonths s) = true ->
  1 <= numberOfMonths p -> delta <> 0 ->
  (w <- getNextActiveMonth (activeMonths s) (numberOfMonths p) delta ;;
   Ok [SetActiveMonths w; SetFocusedDate None]) = Ok es ->
  isMonthWindow (numberOfMonths p) (activeMonths (runEffects s es)) = true.
Proof.
  intros Hw Hn Hd.
  destruct (getNextActiveMonth_keeps_window _ _ delta Hw Hn Hd) as [w' [E W]].
  rewrite E. cbn [bind]. intros H. injection H as <-. exact W.
Qed.

Lemma navigation_keeps_window p s :
  isMonthWindow (numberOfMonths p) (activeMonths s) = true ->
  1 <= numberOfMonths p ->
  (forall es, goToNextMonths p s = Ok es ->
              isMonthWindow (numberOfMonths p) (activeMonths (runEffects s es)) = true)
  /\ (forall es, goToPreviousMonths p s = Ok es ->
                 isMonthWindow (numberOfMonths p) (activeMonths (runEffects s es)) = true)
  /\ (forall n es, numberOfMonths p <= 12 -> 1 <= n -> goToNextYear p s n = Ok es ->
                   isMonthWindow (numberOfMonths p) (activeMonths (runEffects s es)) = true)
  /\ (forall n es, numberOfMonths p <= 12 -> 1 <= n -> goToPreviousYear p s n = Ok es ->
                   isMonthWindow (numberOfMonths p) (activeMonths (runEffects s es)) = true).
Proof.
  intros Hw Hn. repeat split.
  - intros es. apply goTo_keeps_window; (assumption || lia).
  - intros es. apply goTo_keeps_window; (assumption || lia).
  - intros n es H12 H1. apply goTo_keeps_window; (assumption || lia).
  - intros n es H12 H1. apply goTo_keeps_window; (assumption || lia).
Qed.

End NavigationFacts.

(** * The properties of the specification *)

Import JSDate DateFns Utils Hook MonthWindow Selection.
Import JSDateFacts DateFnsFacts UtilsFacts MonthWindowFacts HookFacts NavigationFacts.

(** ** Selection *)

(** C1.  From a state whose start and end date are in order, a call of
    [onDateSelect] or [onResetDates] leads to a state that is in order
    again: whatever the call hands to [onDatesChange] has its start date
    not after its end date when both are set, as calendar days and as
    instants, and so has the state the caller is left with.  (What is
    handed over is in order from any prior state; a call that throws
    hands over nothing, and with [minBookingDays >= 1] no call throws,
    see [onDateSelect_total].) *)
Theorem C1_emitted_selection_is_ordered now p s call es :
  ordered (startDate p) (endDate p) = true ->
  perform now p s call = Ok es ->
  (forall data, In data (emitted es) ->
                ordered (data_startDate data) (data_endDate data) = true)
  /\ ordered (startDate (feedAll p (emitted es))) (endDate (feedAll p (emitted es)))
     = true.
Proof.
  intros Hp H.
  assert (A : forall data, In data (emitted es) ->
                           ordered (data_startDate data) (data_endDate data) = true).
  { destruct call as [date|]; simpl in H.
    - apply emitted_onDateSelect in H. destruct H as [ch [H ->]].
      intros data. eapply onDateSelect_change_ordered. eassumption.
    - injection H as <-. intros data [<-|[]]. reflexivity. }
  split; [exact A|]. apply feedAll_ordered; assumption.
Qed.

Lemma C1_witness :
  let now := newDateYMD 2024 0 1 in
  let p := withFocusedInput
             (feed defaultProps
                {| data_focusedInput := None;
                   data_startDate := Some (newDateYMD 2024 0 10);
                   data_endDate := None |})
             (Some END_DATE) in
  let data := {| data_focusedInput := None;
                 data_startDate := Some (newDateYMD 2024 0 10);
                 data_endDate := Some (newDateYMD 2024 0 12) |} in
  perform now p (initialState now p) (Select (newDateYMD 2024 0 12))
  = Ok [OnDatesChange data]
  /\ ordered (startDate (feed p data)) (endDate (feed p data)) = true.
Proof.
  cbv zeta.
  assert (H : perform (newDateYMD 2024 0 1)
                (withFocusedInput
                   (feed defaultProps
                      {| data_focusedInput := None;
                         data_startDate := Some (newDateYMD 2024 0 10);
                         data_endDate := None |})
                   (Some END_DATE))
                (initialState (newDateYMD 2024 0 1)
                   (withFocusedInput
                      (feed defaultProps
                         {| data_focusedInput := None;
                            data_startDate := Some (newDateYMD 2024 0 10);
                            data_endDate := None |})
                      (Some END_DATE)))
                (Select (newDateYMD 2024 0 12))
              = Ok [OnDatesChange
                      {| data_focusedInput := None;
                         data_startDate := Some (newDateYMD 2024 0 10);
                         data_endDate := Some (newDateYMD 2024 0 12) |}])
    by (vm_compute; reflexivity).
  split; [exact H|].
  refine (proj2 (C1_emitted_selection_is_ordered _ _ _ _ _ _ H)).
  reflexivity.
Defined.

(** C2 (code bug).  With [minBookingDate] = 2024-01-10, an empty
    selection, the start input focused and exact mode off, selecting
    2024-01-05 is not rejected: [onDateSelect] calls [onDatesChange] with
    2024-01-05 as the new start date, and so does the text input of
    [DateRangeInput], which hands the typed date to [onDateSelect] as it
    is.  The code enforces the bound everywhere else: [isDateBlocked]
    blocks the date, the day cell does nothing on a click on it, and in
    exact mode (two days), where [canSelectRange] is given the booking
    dates, the same call reports nothing. *)
Theorem C2_date_before_minBookingDate_is_selected :
  let m := newDateYMD 2024 0 10 in
  let d := newDateYMD 2024 0 5 in
  let now := newDateYMD 2024 0 1 in
  let p := withMinBookingDate defaultProps (Some m) in
  let s := initialState now p in
  let chosen := {| data_focusedInput := Some END_DATE;
                   data_startDate := Some d;
                   data_endDate := None |} in
  Day d < Day m
  /\ (exists es, onDateSelect now p s d = Ok es /\ emitted es = [chosen])
  /\ (exists es, RangeInput.onChange now p s d = Ok es /\ emitted es = [chosen])
  /\ isDateBlocked p d = Ok true
  /\ dayOnClick now p s d = Ok []
  /\ (exists es, onDateSelect now (withExactMinBookingDays p 2) s d = Ok es
                 /\ emitted es = []).
Proof.
  cbv zeta. split; [vm_compute; reflexivity|].
  split; [eexists; split; [vm_compute; reflexivity | reflexivity]|].
  split; [eexists; split; [vm_compute; reflexivity | reflexivity]|].
  split; [vm_compute; reflexivity|].
  split; [vm_compute; reflexivity|].
  eexists; split; [vm_compute; reflexivity | reflexivity].
Qed.

(** C3.  Exact mode with [minBookingDays = 3]: when the days D, D+1 and
    D+2 are unblocked (the code tests a day by its midnight) and the
    range lies within the booking bounds (the day of D is not before the
    day of [minBookingDate], and D+2 is not after [maxBookingDate]), one
    call of [onDateSelect] on D, with either input focused, reports the
    start D, the end D+2 and no focused input. *)
Theorem C3_exact_mode_commits_in_one_call now p s f D :
  exactMinBookingDays p = true ->
  minBookingDays p = 3 ->
  focusedInput p = Some f ->
  (forall k, 0 <= k <= 2 -> disabledDatesByUser p (addDays (startOfDay D) k) = false) ->
  match minBookingDate p with
  | Some m => Day m <= Day D
  | None => True
  end ->
  match maxBookingDate p with
  | Some m => isAfter (addDays D 2) m = false
  | None => True
  end ->
  exists es,
    onDateSelect now p s D = Ok es
    /\ emitted es = [{| data_focusedInput := None;
                        data_startDate := Some D;
                        data_endDate := Some (addDays D 2) |}].
Proof.
  intros He Hm Hf Hb Hmin Hmax.
  destruct (onDateSelect_emitted now p s D
              [OnDatesChange {| data_focusedInput := None;
                                data_startDate := Some D;
                                data_endDate := Some (addDays D 2) |}])
    as [es [H1 H2]].
  - rewrite (onDateSelect_change_exact p f D); rewrite ?Hm; auto; lia.
  - exists es. auto.
Qed.

Lemma C3_witness :
  let now := newDateYMD 2024 0 1 in
  let D := newDateYMD 2024 0 10 in
  let p := {| startDate := None;
              endDate := None;
              focusedInput := Some START_DATE;
              minBookingDate := Some (newDateYMD 2024 0 10 + 9 * 3600000);
              maxBookingDate := Some (newDateYMD 2024 0 12);
              initialVisibleMonth := None;
              exactMinBookingDays := true;
              minBookingDays := 3;
              numberOfMonths := 2;
              isDateBlockedProps := fun _ => false;
              unavailableDates := [newDateYMD 2024 0 13] |} in
  exists es,
    onDateSelect now p (initialState now p) D = Ok es
    /\ emitted es = [{| data_focusedInput := None;
                        data_startDate := Some D;
                        data_endDate := Some (addDays D 2) |}].
Proof.
  cbv zeta.
  apply (C3_exact_mode_commits_in_one_call _ _ _ START_DATE);
    [reflexivity | reflexivity | reflexivity | | vm_compute; discriminate
    | vm_compute; reflexivity].
  intros k Hk.
  assert (C : k = 0 \/ k = 1 \/ k = 2) by lia.
  destruct C as [->|[->| ->]]; vm_compute; reflexivity.
Defined.

(** C4 (as amended).  Outside exact mode, with [minBookingDays = 1], an
    empty selection and the start input focused: selecting D1 and then
    a later D2, each time feeding back what [onDatesChange] received,
    leaves the start D1, the end D2 and no focused input.  In that state
    a further [onDateSelect] D3 reports nothing and the selection stays
    as it is; once the caller has put the focus back on the start input,
    selecting an unblocked D3 after D2 reports the start D3, no end date
    and the end input focused. *)
Theorem C4_select_start_then_end_then_refocus now p s D1 D2 D3 :
  exactMinBookingDays p = false ->
  minBookingDays p = 1 ->
  startDate p = None -> endDate p = None -> focusedInput p = Some START_DATE ->
  disabledDatesByUser p D1 = false ->
  isAfter D2 D1 = true ->
  (forall k, 0 <= k <= Day D2 - Day D1 ->
             disabledDatesByUser p (addDays (startOfDay D1) k) = false) ->
  disabledDatesByUser p D3 = false ->
  exists p1 s1 p2 s2,
    selectAndFeed now (p, s) D1 = Ok (p1, s1)
    /\ selectAndFeed now (p1, s1) D2 = Ok (p2, s2)
    /\ (startDate p2, endDate p2, focusedInput p2) = (Some D1, Some D2, None)
    /\ (exists s3, selectAndFeed now (p2, s2) D3 = Ok (p2, s3))
    /\ (isAfter D3 D2 = true ->
        exists es,
          onDateSelect now (withFocusedInput p2 (Some START_DATE)) s2 D3 = Ok es
          /\ emitted es = [{| data_focusedInput := Some END_DATE;
                              data_startDate := Some D3;
                              data_endDate := None |}]).
Proof.
  intros He Hm Hs0 He0 Hf HD1 H12 Hrange HD3.
  set (d1 := {| data_focusedInput := Some END_DATE;
                data_startDate := Some D1; data_endDate := None |}).
  set (d2 := {| data_focusedInput := None;
                data_startDate := Some D1; data_endDate := Some D2 |}).
  destruct (selectAndFeed_one now p s D1 d1) as [s1 E1].
  { apply onDateSelect_change_first; assumption. }
  destruct (selectAndFeed_one now (feed p d1) s1 D2 d2) as [s2 E2].
  { apply onDateSelect_change_end; auto.
    unfold isAfter, getTime, toDate in H12. apply Z.gtb_lt in H12. lia. }
  exists (feed p d1), s1, (feed (feed p d1) d2), s2.
  split; [exact E1|]. split; [exact E2|]. split; [reflexivity|]. split.
  - destruct (onDateSelect_unfocused now (feed (feed p d1) d2) s2 D3)
      as [es [H1 [H2 _]]]; [reflexivity|].
    unfold selectAndFeed. cbn [fst snd]. rewrite H1. cbn [bind]. rewrite H2.
    eexists. reflexivity.
  - intros H23.
    apply (onDateSelect_emitted now _ s2 D3
             [OnDatesChange {| data_focusedInput := Some END_DATE;
                               data_startDate := Some D3;
                               data_endDate := None |}]).
    apply onDateSelect_change_redirect with (e := D2); auto.
Qed.

Lemma C4_witness :
  let now := newDateYMD 2024 0 1 in
  let D1 := newDateYMD 2024 0 10 in
  let D2 := newDateYMD 2024 0 12 in
  let D3 := newDateYMD 2024 0 20 in
  let p := defaultProps in
  exists p1 s1 p2 s2,
    selectAndFeed now (p, initialState now p) D1 = Ok (p1, s1)
    /\ selectAndFeed now (p1, s1) D2 = Ok (p2, s2)
    /\ (startDate p2, endDate p2, focusedInput p2) = (Some D1, Some D2, None)
    /\ (exists s3, selectAndFeed now (p2, s2) D3 = Ok (p2, s3))
    /\ (isAfter D3 D2 = true ->
        exists es,
          onDateSelect now (withFocusedInput p2 (Some START_DATE)) s2 D3 = Ok es
          /\ emitted es = [{| data_focusedInput := Some END_DATE;
                              data_startDate := Some D3;
                              data_endDate := None |}]).
Proof.
  cbv zeta.
  apply (C4_select_start_then_end_then_refocus
           (newDateYMD 2024 0 1) defaultProps
           (initialState (newDateYMD 2024 0 1) defaultProps)
           (newDateYMD 2024 0 10) (newDateYMD 2024 0 12) (newDateYMD 2024 0 20));
    reflexivity.
Defined.

(** C4 as stated fails at its last step: after D1 = 2024-01-10 and
    D2 = 2024-01-12 the emitted state has no focused input, and in that
    state selecting D3 = 2024-01-20 leaves the selection at D1..D2. *)
Lemma C4_counterexample :
  let D1 := newDateYMD 2024 0 10 in
  let D2 := newDateYMD 2024 0 12 in
  let D3 := newDateYMD 2024 0 20 in
  let now := newDateYMD 2024 0 1 in
  match
    (r1 <- selectAndFeed now (defaultProps, initialState now defaultProps) D1 ;;
     r2 <- selectAndFeed now r1 D2 ;;
     selectAndFeed now r2 D3)
  with
  | Ok (p3, _) =>
      (startDate p3, endDate p3, focusedInput p3) = (Some D1, Some D2, None)
      /\ (startDate p3, endDate p3, focusedInput p3) <> (Some D3, None, Some END_DATE)
  | Throw _ => False
  end.
Proof. vm_compute. split; [reflexivity | discriminate]. Qed.

(** ** Blocked dates *)

(** C5 (as amended).  [isDateBlocked] never throws, and it is [true]
    exactly when the date is before the midnight that opens
    [minBookingDate], or after the midnight that opens [maxBookingDate],
    or inside the minimum-stay window (a start date without end date,
    [minBookingDays > 1], and the date from the start date itself up to
    [minBookingDays - 2] days later, in exact mode or not), or blocked by
    the caller.  In particular the start date of such an open range is
    blocked. *)
Theorem C5_isDateBlocked_characterised p date :
  isDateBlocked p date
  = Ok (beforeMinBookingDate p date || afterMaxBookingDate p date
        || inMinStayWindow p date || disabledDatesByUser p date)
  /\ (forall s, startDate p = Some s -> endDate p = None -> 1 < minBookingDays p ->
                isDateBlocked p s = Ok true).
Proof.
  split; [apply isDateBlocked_eq|].
  intros s Hs He Hm. rewrite isDateBlocked_eq.
  assert (W : inMinStayWindow p s = true).
  { unfold inMinStayWindow. rewrite Hs, He, addDays_eq.
    rewrite !andb_true_iff. repeat split.
    - apply Z.gtb_lt. lia.
    - apply Z.geb_le. lia.
    - apply Z.leb_le. unfold msPerDay. lia. }
  rewrite W, orb_true_r. reflexivity.
Qed.

Lemma C5_witness :
  let s := newDateYMD 2024 0 10 in
  let p := {| startDate := Some s;
              endDate := None;
              focusedInput := Some END_DATE;
              minBookingDate := Some (newDateYMD 2024 0 5);
              maxBookingDate := None;
              initialVisibleMonth := None;
              exactMinBookingDays := true;
              minBookingDays := 2;
              numberOfMonths := 2;
              isDateBlockedProps := fun _ => false;
              unavailableDates := [] |} in
  1 < minBookingDays p /\ isDateBlocked p s = Ok true.
Proof.
  cbv zeta. split; [reflexivity|].
  refine (proj2 (C5_isDateBlocked_characterised _ (newDateYMD 2024 0 10)) _ _ _ _);
    reflexivity.
Defined.

(** C5 as stated fails: with the start date 2024-01-10, no end date,
    [minBookingDays = 3], no bounds and nothing blocked by the caller,
    the start date itself is reported blocked. *)
Lemma C5_counterexample :
  let s := newDateYMD 2024 0 10 in
  let p := {| startDate := Some s;
              endDate := None;
              focusedInput := Some END_DATE;
              minBookingDate := None;
              maxBookingDate := None;
              initialVisibleMonth := None;
              exactMinBookingDays := false;
              minBookingDays := 3;
              numberOfMonths := 2;
              isDateBlockedProps := fun _ => false;
              unavailableDates := [] |} in
  disabledDatesByUser p s = false /\ isDateBlocked p s = Ok true.
Proof. vm_compute. split; reflexivity. Qed.

(** ** The month window *)

(** C6 (as amended).  On a window of [numberOfMonths >= 1] consecutive
    months and for a non-zero step, [getNextActiveMonth] returns a window
    of the same length in which every entry is moved by
    [delta + (numberOfMonths - 1)] months when [delta > 0] and by
    [delta - (numberOfMonths - 1)] months when [delta < 0]: the window
    pages.  So [goToNextMonths] and [goToPreviousMonths] move the whole
    window by [numberOfMonths] months, forward and backward. *)
Theorem C6_navigation_shifts_by_whole_window p s delta :
  isMonthWindow (numberOfMonths p) (activeMonths s) = true ->
  1 <= numberOfMonths p ->
  delta <> 0 ->
  getNextActiveMonth (activeMonths s) (numberOfMonths p) delta
  = Ok (map (shiftMonth (if delta >? 0 then delta + (numberOfMonths p - 1)
                         else delta - (numberOfMonths p - 1)))
          (activeMonths s))
  /\ goToNextMonths p s
     = Ok [SetActiveMonths (map (shiftMonth (numberOfMonths p)) (activeMonths s));
           SetFocusedDate None]
  /\ goToPreviousMonths p s
     = Ok [SetActiveMonths (map (shiftMonth (- numberOfMonths p)) (activeMonths s));
           SetFocusedDate None].
Proof.
  intros Hw Hn Hd. split; [|split].
  - apply getNextActiveMonth_shift; assumption.
  - unfold goToNextMonths. rewrite getNextActiveMonth_shift by (assumption || lia).
    cbn [bind]. change (1 >? 0) with true. cbv iota.
    replace (1 + (numberOfMonths p - 1)) with (numberOfMonths p) by lia.
    reflexivity.
  - unfold goToPreviousMonths. rewrite getNextActiveMonth_shift by (assumption || lia).
    cbn [bind]. change (-1 >? 0) with false. cbv iota.
    replace (-1 - (numberOfMonths p - 1)) with (- numberOfMonths p) by lia.
    reflexivity.
Qed.

Lemma C6_witness :
  let now := newDateYMD 2024 0 1 in
  let p := defaultProps in
  let s := initialState now p in
  isMonthWindow (numberOfMonths p) (activeMonths s) = true
  /\ goToNextMonths p s
     = Ok [SetActiveMonths (map (shiftMonth 2) (activeMonths s)); SetFocusedDate None].
Proof.
  cbv zeta.
  assert (H : isMonthWindow (numberOfMonths defaultProps)
                (activeMonths (initialState (newDateYMD 2024 0 1) defaultProps)) = true)
    by (vm_compute; reflexivity).
  split; [exact H|].
  refine (proj1 (proj2 (C6_navigation_shifts_by_whole_window defaultProps _ 1 H _ _)));
    [cbn; lia | lia].
Defined.

(** C6 as stated fails: on the two-month window January, February 2024 a
    step of 1 returns March, April, every entry moved by two months and
    not by one. *)
Lemma C6_counterexample :
  let w := getInitialMonths 0 2 (Some (newDateYMD 2024 0 15)) in
  isMonthWindow 2 w = true
  /\ getNextActiveMonth w 2 1 = Ok (map (shiftMonth 2) w)
  /\ getNextActiveMonth w 2 1 <> Ok (map (shiftMonth 1) w).
Proof.
  vm_compute. split; [reflexivity|]. split; [reflexivity|]. discriminate.
Qed.

(** C7.  On a window of [numberOfMonths >= 1] consecutive months,
    [goToNextMonths] followed by [goToPreviousMonths] gives back the
    window it started from: [getNextActiveMonth] with step 1 and then
    with step -1 on its result is the identity. *)
Theorem C7_next_then_previous_restores_window p s :
  isMonthWindow (numberOfMonths p) (activeMonths s) = true ->
  1 <= numberOfMonths p ->
  (w1 <- getNextActiveMonth (activeMonths s) (numberOfMonths p) 1 ;;
   getNextActiveMonth w1 (numberOfMonths p) (-1)) = Ok (activeMonths s)
  /\ exists es1 es2,
       goToNextMonths p s = Ok es1
       /\ goToPreviousMonths p (runEffects s es1) = Ok es2
       /\ activeMonths (runEffects (runEffects s es1) es2) = activeMonths s.
Proof.
  intros Hw Hn.
  assert (E1 : getNextActiveMonth (activeMonths s) (numberOfMonths p) 1
               = Ok (map (shiftMonth (numberOfMonths p)) (activeMonths s))).
  { rewrite getNextActiveMonth_shift by (assumption || lia).
    change (1 >? 0) with true. cbv iota.
    replace (1 + (numberOfMonths p - 1)) with (numberOfMonths p) by lia.
    reflexivity. }
  assert (E2 : getNextActiveMonth (map (shiftMonth (numberOfMonths p)) (activeMonths s))
                 (numberOfMonths p) (-1)
               = Ok (activeMonths s)).
  { rewrite getNextActiveMonth_shift
      by (try apply isMonthWindow_shift; assumption || lia).
    change (-1 >? 0) with false. cbv iota.
    replace (-1 - (numberOfMonths p - 1)) with (- numberOfMonths p) by lia.
    f_equal. eapply shiftMonth_inverse; eassumption. }
  split.
  - rewrite E1. cbn [bind]. exact E2.
  - unfold goToNextMonths, goToPreviousMonths. rewrite E1. cbn [bind].
    eexists. eexists. split; [reflexivity|].
    cbn [runEffects fold_left runEffect activeMonths]. rewrite E2. cbn [bind].
    split; reflexivity.
Qed.

Lemma C7_witness :
  let now := newDateYMD 2024 0 1 in
  let p := defaultProps in
  let s := initialState now p in
  isMonthWindow (numberOfMonths p) (activeMonths s) = true
  /\ (w1 <- getNextActiveMonth (activeMonths s) (numberOfMonths p) 1 ;;
      getNextActiveMonth w1 (numberOfMonths p) (-1)) = Ok (activeMonths s).
Proof.
  cbv zeta.
  assert (H : isMonthWindow (numberOfMonths defaultProps)
                (activeMonths (initialState (newDateYMD 2024 0 1) defaultProps)) = true)
    by (vm_compute; reflexivity).
  split; [exact H|].
  refine (proj1 (C7_next_then_previous_restores_window defaultProps _ H _)).
  cbn. lia.
Defined.

(** C8 at its failing input.  With 13 visible months [goToNextYear 1]
    computes a step of [1 * 12 - 13 + 1 = 0]; [getNextActiveMonth]
    then steps forward but prepends, and the window comes back holding
    the same months in reverse order: it is no longer a window of
    consecutive months in increasing order. *)
Theorem C8_next_year_reverses_13_month_window :
  let now := newDateYMD 2024 0 1 in
  let p := {| startDate := Some (newDateYMD 2024 0 15);
              endDate := None;
              focusedInput := Some START_DATE;
              minBookingDate := None;
              maxBookingDate := None;
              initialVisibleMonth := None;
              exactMinBookingDays := false;
              minBookingDays := 1;
              numberOfMonths := 13;
              isDateBlockedProps := fun _ => false;
              unavailableDates := [] |} in
  let s := initialState now p in
  isMonthWindow 13 (activeMonths s) = true
  /\ exists es,
       goToNextYear p s 1 = Ok es
       /\ activeMonths (runEffects s es) = rev (activeMonths s)
       /\ isMonthWindow 13 (activeMonths (runEffects s es)) = false.
Proof.
  cbv zeta. split; [vm_compute; reflexivity|].
  eexists. split; [vm_compute; reflexivity|].
  split; vm_compute; reflexivity.
Qed.

(** ** Keyboard focus *)

(** C9 at its failing input.  The picker opens on the start date
    2024-02-11: that day is focused and the window is February, March.
    ArrowRight on the focused day focuses 2024-02-12, a day of the same
    month, and the window is re-seeded all the same.  After a selection
    of 2024-03-20 with the start input focused, which re-seeds the window
    to March, April and leaves the focus on 2024-02-11, the same move of
    the focus changes the window to February, March. *)
Theorem C9_focus_move_within_month_reseeds :
  let now := newDateYMD 2024 0 1 in
  let feb11 := newDateYMD 2024 1 11 in
  let feb12 := newDateYMD 2024 1 12 in
  let p := withFocusedInput
             (feed defaultProps
                {| data_focusedInput := None;
                   data_startDate := Some feb11;
                   data_endDate := None |})
             (Some START_DATE) in
  let s := initialState now p in
  addDays feb11 1 = feb12
  /\ monthIndex feb12 = monthIndex feb11
  /\ focusedDate s = Some feb11
  /\ activeMonths s = window (12 * 2024 + 1) 2
  /\ dayOnKeyDown now p s feb11 ArrowRight
     = [SetFocusedDate (Some feb12); SetActiveMonths (window (12 * 2024 + 1) 2)]
  /\ exists p1 s1,
       selectAndFeed now (p, s) (newDateYMD 2024 2 20) = Ok (p1, s1)
       /\ focusedDate s1 = Some feb11
       /\ activeMonths s1 = window (12 * 2024 + 2) 2
       /\ onDateFocus now p1 s1 feb12
          = [SetFocusedDate (Some feb12); SetActiveMonths (window (12 * 2024 + 1) 2)]
       /\ activeMonths (runEffects s1 (onDateFocus now p1 s1 feb12))
          <> activeMonths s1.
Proof.
  cbv zeta. split; [vm_compute; reflexivity|]. split; [vm_compute; reflexivity|].
  split; [reflexivity|]. split; [vm_compute; reflexivity|].
  split; [vm_compute; reflexivity|].
  eexists. eexists. split; [vm_compute; reflexivity|].
  split; [reflexivity|]. split; [vm_compute; reflexivity|].
  split; [vm_compute; reflexivity|].
  vm_compute. discriminate.
Qed.

(** ** A completed selection *)

(** C10.  With no input focused, [onDateSelect] never calls
    [onDatesChange], whatever the date, the constraints and the mode: the
    selection and the focused input stay as they are.  All the call does
    is re-seed the month window around the date, when no date is focused
    or the focused one is another day. *)
Theorem C10_unfocused_select_never_emits now p s date :
  focusedInput p = None ->
  exists es,
    onDateSelect now p s date = Ok es
    /\ emitted es = []
    /\ feedAll p (emitted es) = p
    /\ es = (if dateLeavesFocus s date
             then [SetActiveMonths
                     (getInitialMonths now (numberOfMonths p) (Some date))]
             else []).
Proof. apply onDateSelect_unfocused. Qed.

Lemma C10_witness :
  let now := newDateYMD 2024 0 1 in
  let p := feed defaultProps
             {| data_focusedInput := None;
                data_startDate := Some (newDateYMD 2024 0 10);
                data_endDate := Some (newDateYMD 2024 0 12) |} in
  exists es,
    onDateSelect now p (initialState now p) (newDateYMD 2024 0 20) = Ok es
    /\ emitted es = []
    /\ feedAll p (emitted es) = p
    /\ es = (if dateLeavesFocus (initialState now p) (newDateYMD 2024 0 20)
             then [SetActiveMonths
                     (getInitialMonths now (numberOfMonths p)
                        (Some (newDateYMD 2024 0 20)))]
             else []).
Proof.
  cbv zeta. apply C10_unfocused_select_never_emits. reflexivity.
Defined.

(** * Further properties of the code *)


Module CalendarFacts.
Import JSDate DateFns Utils MonthWindow Calendar.
Import JSDateFacts MonthWindowFacts DateFnsFacts.

Ltac twelve m :=
  let C := fresh "C" in
  assert (C : m = 0 \/ m = 1 \/ m = 2 \/ m = 3 \/ m = 4 \/ m = 5 \/ m = 6
              \/ m = 7 \/ m = 8 \/ m = 9 \/ m = 10 \/ m = 11) by lia;
  repeat (destruct C as [C|C]; [rewrite C in *|]); [..|rewrite C in *].

(** Evaluate the month tables at a literal month, leaving the leap flag
    alone. *)
Ltac tables :=
  repeat match goal with
    | |- context [Z.pos ?p + 1] =>
        let v := eval vm_compute in (Z.pos p + 1) in change (Z.pos p + 1) with v
    | |- context [0 + 1] => change (0 + 1) with 1
    | |- context [?a =? 11] =>
        let v := eval vm_compute in (a =? 11) in change (a =? 11) with v
    end;
  cbv beta iota delta [DaysBeforeMonth monthLength] in *.

Lemma leapFlag_range y : 0 <= leapFlag y <= 1.
Proof. unfold leapFlag. destruct (DaysInYear y =? 366); lia. Qed.

Lemma DaysInYear_leapFlag y : DaysInYear y = 365 + leapFlag y.
Proof.
  unfold leapFlag. destruct (DaysInYear_range y) as [E|E]; rewrite E; reflexivity.
Qed.

Lemma monthLength_range l m : 0 <= l <= 1 -> 28 <= monthLength l m <= 31.
Proof.
  intros Hl. unfold monthLength.
  destruct m as [|p|p]; try lia.
  do 4 (destruct p as [p|p|]; try lia).
Qed.

(** The days before a month and its length add up to the days before
    the next month, or to the length of the year. *)
Lemma DaysBeforeMonth_next l m :
  0 <= m <= 11 ->
  DaysBeforeMonth l m + monthLength l m
  = if m =? 11 then 365 + l else DaysBeforeMonth l (m + 1).
Proof. intros Hm. twelve m; tables; lia. Qed.

Section DayOfMonth.
Variables (y m dd tm : Z).
Hypothesis Hm : 0 <= m <= 11.
Hypothesis Hd : 1 <= dd <= monthLength (leapFlag y) m.
Hypothesis Htm : 0 <= tm < msPerDay.

Let t := MakeDate (MakeDay y m dd) tm.

Lemma DayWithinYear_bounds :
  0 <= DaysBeforeMonth (leapFlag y) m + (dd - 1) < DaysInYear y.
Proof.
  pose proof (DaysBeforeMonth_next (leapFlag y) m Hm) as N.
  pose proof (leapFlag_range y) as L. rewrite DaysInYear_leapFlag.
  clear t. twelve m; tables; lia.
Qed.

Lemma YearFromTime_day : YearFromTime t = y.
Proof.
  unfold YearFromTime, t. rewrite Day_MakeDate by assumption.
  replace dd with ((dd - 1) + 1) by lia.
  apply YearFromDay_MakeDay; [assumption|]. apply DayWithinYear_bounds.
Qed.

Lemma DayWithinYear_day :
  DayWithinYear t = DaysBeforeMonth (leapFlag y) m + (dd - 1).
Proof.
  unfold DayWithinYear. rewrite YearFromTime_day.
  unfold t. rewrite Day_MakeDate by assumption.
  rewrite MakeDay_normal by assumption. unfold leapFlag. lia.
Qed.

Lemma InLeapYear_day : InLeapYear t = leapFlag y.
Proof. unfold InLeapYear. rewrite YearFromTime_day. reflexivity. Qed.

Lemma MonthFromTime_day : MonthFromTime t = m.
Proof.
  unfold MonthFromTime. rewrite DayWithinYear_day, InLeapYear_day. cbv zeta.
  pose proof (leapFlag_range y) as L. clear t.
  twelve m; tables; month_cases; lia.
Qed.

Lemma DateFromTime_day : DateFromTime t = dd.
Proof.
  unfold DateFromTime. rewrite MonthFromTime_day, DayWithinYear_day, InLeapYear_day.
  lia.
Qed.

End DayOfMonth.

Lemma monthIndex_div t : monthIndex t / 12 = getFullYear t.
Proof.
  unfold monthIndex. pose proof (MonthFromTime_range t) as R.
  unfold getMonth. rewrite Z.mul_comm, Z.div_add_l by lia.
  rewrite Z.div_small by lia. lia.
Qed.

Lemma monthIndex_mod t : monthIndex t mod 12 = getMonth t.
Proof.
  unfold monthIndex. pose proof (MonthFromTime_range t) as R.
  unfold getMonth. rewrite Z.add_comm, Z.mul_comm, Z.mod_add by lia.
  apply Z.mod_small. lia.
Qed.

Lemma dateAt_eq i dd tm :
  dateAt i dd tm = firstOfMonth i + (dd - 1) * msPerDay + tm.
Proof.
  unfold dateAt, firstOfMonth, MakeDate, MakeDay. cbv zeta. unfold msPerDay. lia.
Qed.

(** Year, month and day of month of a time value given by its month
    number and a day of that month. *)
Lemma dateAt_fields i dd tm :
  1 <= dd <= daysOfMonth i -> 0 <= tm < msPerDay ->
  monthIndex (dateAt i dd tm) = i
  /\ getDate (dateAt i dd tm) = dd
  /\ TimeWithinDay (dateAt i dd tm) = tm.
Proof.
  intros Hd Htm. unfold dateAt. rewrite MakeDay_carry, Z.add_0_l.
  pose proof (Z.mod_pos_bound i 12 ltac:(lia)) as Hm.
  assert (Hm' : 0 <= i mod 12 <= 11) by lia.
  unfold monthIndex, getFullYear, getMonth, getDate.
  rewrite (YearFromTime_day _ _ _ _ Hm' Hd Htm),
    (MonthFromTime_day _ _ _ _ Hm' Hd Htm),
    (DateFromTime_day _ _ _ _ Hm' Hd Htm).
  rewrite TimeWithinDay_MakeDate by assumption.
  pose proof (Z.div_mod i 12 ltac:(lia)). repeat split; lia.
Qed.

(** Every time value is the day [getDate] of its month, and that day
    exists in the month. *)
Lemma date_decompose t :
  t = dateAt (monthIndex t) (getDate t) (TimeWithinDay t).
Proof.
  unfold dateAt, monthIndex. rewrite <- MakeDay_monthIndex, MakeDay_getters.
  apply Day_TimeWithinDay.
Qed.

Lemma getDate_range t : 1 <= getDate t <= daysOfMonth (monthIndex t).
Proof.
  unfold daysOfMonth. rewrite monthIndex_div, monthIndex_mod.
  split; [apply DateFromTime_range|].
  unfold getDate, DateFromTime, getMonth, getFullYear, leapFlag.
  pose proof (DayWithinYear_range t) as R.
  change (if DaysInYear (YearFromTime t) =? 366 then 1 else 0) with (InLeapYear t).
  destruct (InLeapYear_cases t) as [[El Ey]|[El Ey]]; rewrite El, Ey in *;
    unfold MonthFromTime; rewrite El; cbv zeta; month_cases;
    cbv beta iota delta [DaysBeforeMonth monthLength]; lia.
Qed.

Lemma MakeDay_next y m dt :
  0 <= m <= 11 -> MakeDay y (m + 1) dt = MakeDay y m (dt + monthLength (leapFlag y) m).
Proof.
  intros Hm. pose proof (DaysBeforeMonth_next (leapFlag y) m Hm) as N.
  rewrite (MakeDay_normal y m) by assumption. fold (leapFlag y).
  destruct (Z.eqb_spec m 11) as [E|E].
  - subst m. rewrite MakeDay_carry. change ((11 + 1) / 12) with 1.
    change ((11 + 1) mod 12) with 0. rewrite MakeDay_normal by lia.
    rewrite DayFromYear_succ, DaysInYear_leapFlag.
    cbv beta iota delta [DaysBeforeMonth] in *. lia.
  - rewrite MakeDay_normal by lia. fold (leapFlag y). lia.
Qed.

Lemma firstOfMonth_next i :
  firstOfMonth (i + 1) = firstOfMonth i + daysOfMonth i * msPerDay.
Proof.
  unfold firstOfMonth, daysOfMonth.
  pose proof (Z.mod_pos_bound i 12 ltac:(lia)) as Hm.
  pose proof (Z.div_mod i 12 ltac:(lia)) as E.
  replace (i + 1) with (12 * (i / 12) + (i mod 12 + 1)) by lia.
  rewrite <- MakeDay_monthIndex, MakeDay_next by lia.
  rewrite (MakeDay_carry 0 i), Z.add_0_l.
  rewrite !MakeDay_normal by lia. unfold MakeDate, msPerDay. lia.
Qed.


Lemma setHours0_MakeDate d : setHours0 (MakeDate d 0) = MakeDate d 0.
Proof. unfold setHours0. rewrite Day_MakeDate by apply msPerDay_pos. reflexivity. Qed.

Lemma setFullYear_epoch y m dt : setFullYear 0 y m dt = MakeDate (MakeDay y m dt) 0.
Proof. reflexivity. Qed.

Lemma firstOfMonth_fold i : MakeDate (MakeDay 0 i 1) 0 = firstOfMonth i.
Proof. reflexivity. Qed.

Lemma dateAt_fold i dd tm : MakeDate (MakeDay 0 i dd) tm = dateAt i dd tm.
Proof. reflexivity. Qed.

(** [getDaysInMonth] reads the length of the month off the calendar. *)
Lemma getDaysInMonth_eq t : getDaysInMonth t = daysOfMonth (monthIndex t).
Proof.
  unfold getDaysInMonth, toDate. cbv zeta.
  rewrite setFullYear_epoch, setHours0_MakeDate.
  pose proof (MonthFromTime_range t) as Hm.
  unfold getMonth at 1. rewrite MakeDay_next by assumption.
  rewrite Z.add_0_l.
  change (MonthFromTime t) with (getMonth t).
  rewrite MakeDay_monthIndex.
  replace (12 * getFullYear t + getMonth t) with (monthIndex t) by reflexivity.
  assert (E : monthLength (leapFlag (getFullYear t)) (getMonth t)
              = daysOfMonth (monthIndex t)).
  { unfold daysOfMonth. rewrite monthIndex_div, monthIndex_mod. reflexivity. }
  rewrite E, dateAt_fold.
  apply dateAt_fields; [|apply msPerDay_pos].
  unfold daysOfMonth. pose proof (monthLength_range (leapFlag (monthIndex t / 12))
    (monthIndex t mod 12) (leapFlag_range _)). lia.
Qed.

Lemma daysOfMonth_range i : 28 <= daysOfMonth i <= 31.
Proof. apply monthLength_range, leapFlag_range. Qed.

(** [addMonths] as a time value: the day of month is cut to the length
    of the month it lands in. *)
Lemma addMonths_eq t n :
  addMonths t n
  = dateAt (monthIndex t + n)
      (Z.min (daysOfMonth (monthIndex t + n)) (getDate t)) (TimeWithinDay t).
Proof.
  unfold addMonths, toDate. cbv zeta.
  rewrite setFullYear_epoch, setHours0_MakeDate, getDaysInMonth_eq.
  rewrite MakeDay_monthIndex.
  replace (12 * getFullYear t + (getMonth t + n)) with (monthIndex t + n)
    by (unfold monthIndex; lia).
  rewrite firstOfMonth_fold, monthIndex_firstOfMonth.
  unfold setMonth. change (YearFromTime t) with (getFullYear t).
  rewrite MakeDay_monthIndex.
  replace (12 * getFullYear t + (getMonth t + n)) with (monthIndex t + n)
    by (unfold monthIndex; lia).
  apply dateAt_fold.
Qed.

Lemma endOfMonth_eq t : endOfMonth t = firstOfMonth (monthIndex t + 1) - 1.
Proof.
  unfold endOfMonth, toDate, setHoursEnd, setFullYear. cbv zeta.
  rewrite Day_MakeDate by apply TimeWithinDay_range.
  rewrite MakeDay_monthIndex.
  replace (12 * getFullYear t + (getMonth t + 1)) with (monthIndex t + 1)
    by (unfold monthIndex; lia).
  unfold firstOfMonth, MakeDate, MakeDay. cbv zeta. unfold msPerDay. lia.
Qed.

(** *** Days of the week *)

Lemma getDay_range t : 0 <= getDay t <= 6.
Proof.
  unfold getDay, WeekDay. pose proof (Z.mod_pos_bound (Day t + 4) 7 ltac:(lia)). lia.
Qed.

Lemma getDay_shift t n : getDay (t + n * msPerDay) = (getDay t + n) mod 7.
Proof.
  unfold getDay, WeekDay. rewrite Day_shift.
  rewrite Zplus_mod_idemp_l. f_equal. lia.
Qed.

End CalendarFacts.

Module DateFnsFacts2.
Import JSDate DateFns Utils MonthWindow Calendar.
Import JSDateFacts MonthWindowFacts DateFnsFacts CalendarFacts.

Lemma TimeWithinDay_shift t n : TimeWithinDay (t + n * msPerDay) = TimeWithinDay t.
Proof. unfold TimeWithinDay. apply Z.mod_add. unfold msPerDay. lia. Qed.

Lemma isSameDay_Day a b : isSameDay a b = true <-> Day a = Day b.
Proof.
  unfold isSameDay, getTime. rewrite !startOfDay_eq, Z.eqb_eq.
  unfold msPerDay. lia.
Qed.

Lemma startOfMonth_le t : startOfMonth t <= t.
Proof.
  rewrite startOfMonth_eq. rewrite (date_decompose t) at 2.
  rewrite dateAt_eq. pose proof (getDate_range t). pose proof (TimeWithinDay_range t).
  unfold msPerDay in *. lia.
Qed.

Lemma le_endOfMonth t : t <= endOfMonth t.
Proof.
  rewrite endOfMonth_eq, firstOfMonth_next. rewrite (date_decompose t) at 1.
  rewrite dateAt_eq. pose proof (getDate_range t). pose proof (TimeWithinDay_range t).
  unfold msPerDay in *. lia.
Qed.

Lemma monthIndex_between i t :
  firstOfMonth i <= t < firstOfMonth (i + 1) -> monthIndex t = i.
Proof.
  intros H. rewrite firstOfMonth_next in H.
  pose proof (Day_TimeWithinDay t) as E. pose proof (TimeWithinDay_range t) as R.
  set (k := Day t - Day (firstOfMonth i)).
  assert (Ef : firstOfMonth i = Day (firstOfMonth i) * msPerDay).
  { unfold firstOfMonth. rewrite Day_MakeDate by apply msPerDay_pos.
    unfold MakeDate. lia. }
  assert (Hk : 0 <= k < daysOfMonth i).
  { unfold k, MakeDate, msPerDay in *. lia. }
  assert (Et : t = dateAt i (k + 1) (TimeWithinDay t)).
  { rewrite dateAt_eq. unfold k, MakeDate, msPerDay in *. lia. }
  rewrite Et. apply dateAt_fields; [lia | assumption].
Qed.

Lemma monthIndex_endOfMonth t : monthIndex (endOfMonth t) = monthIndex t.
Proof.
  apply monthIndex_between. rewrite endOfMonth_eq. split; [|lia].
  rewrite firstOfMonth_next. pose proof (daysOfMonth_range (monthIndex t)).
  unfold msPerDay. lia.
Qed.

Lemma getDate_endOfMonth t : getDate (endOfMonth t) = getDaysInMonth t.
Proof.
  rewrite getDaysInMonth_eq, endOfMonth_eq, firstOfMonth_next.
  replace (firstOfMonth (monthIndex t) + daysOfMonth (monthIndex t) * msPerDay - 1)
    with (dateAt (monthIndex t) (daysOfMonth (monthIndex t)) (msPerDay - 1))
    by (rewrite dateAt_eq; unfold msPerDay; lia).
  apply dateAt_fields.
  - pose proof (daysOfMonth_range (monthIndex t)). lia.
  - unfold msPerDay. lia.
Qed.

Lemma monthIndex_addMonths t n : monthIndex (addMonths t n) = monthIndex t + n.
Proof.
  rewrite addMonths_eq.
  pose proof (daysOfMonth_range (monthIndex t + n)).
  pose proof (getDate_range t).
  apply dateAt_fields; [lia | apply TimeWithinDay_range].
Qed.

(** In a zone with a fixed offset, [addDays] adds [n] times 24 hours. *)
Lemma addDaysIn_fixed tz c d n :
  (forall t u, tz t u = c) ->
  addDaysIn tz d n = TimeClip (d + n * msPerDay).
Proof.
  intros Hc. unfold addDaysIn, setDateIn, getDateIn, LocalTime, UTC, toDate.
  cbv zeta. rewrite !Hc, MakeDay_current. f_equal.
  pose proof (Day_TimeWithinDay (d + c)) as E. unfold MakeDate, msPerDay in *. lia.
Qed.

Lemma TimeClip_valid t : Z.abs t <= maxTime -> TimeClip t = Some t.
Proof.
  intros H. unfold TimeClip. destruct (Z.gtb_spec (Z.abs t) maxTime); [lia|reflexivity].
Qed.

(** The model in UTC is the zone [utcZone], up to the range check. *)
Lemma addDaysIn_utcZone d n : addDaysIn utcZone d n = TimeClip (addDays d n).
Proof.
  rewrite (addDaysIn_fixed utcZone 0) by reflexivity. rewrite addDays_eq. reflexivity.
Qed.

(** Across a daylight saving switch a day added is not 24 hours: in a
    zone that goes from UTC-5 to UTC-4 on 2024-03-10 at 07:00 UTC, one
    day after 2024-03-09 17:00 UTC (noon, local time) is 23 hours
    later. *)
Example addDaysIn_daylight_saving :
  let change := newDateYMD 2024 2 10 + 7 * 3600000 in
  let d := newDateYMD 2024 2 9 + 17 * 3600000 in
  addDaysIn (switchingZone change (-5 * 3600000) (-4 * 3600000)) d 1
  = Some (d + 23 * 3600000).
Proof. vm_compute. reflexivity. Qed.

(** Past the range of valid dates the result is an Invalid Date. *)
Example addDaysIn_out_of_range : addDaysIn utcZone maxTime 1 = None.
Proof. vm_compute. reflexivity. Qed.

End DateFnsFacts2.

Import JSDate DateFns Utils MonthWindow Calendar.
Import JSDateFacts MonthWindowFacts DateFnsFacts CalendarFacts DateFnsFacts2.

(** X1.  In a time zone with a fixed offset from UTC (no daylight
    saving switch), for a valid date and as long as the results are in
    the range of valid dates, [addDays] moves a date by whole days of 24
    hours: the result is the date plus [n] times 86400000 ms (what the
    model in UTC computes), adding 0 days changes nothing, two additions
    add up, and in local time the day number moves by [n], the time of
    day stays and the day of the week moves by [n] modulo 7. *)
Theorem X1_addDays_moves_whole_days tz c d a b :
  (forall t u, tz t u = c) ->
  Z.abs d <= maxTime ->
  Z.abs (d + a * msPerDay) <= maxTime ->
  Z.abs (d + (a + b) * msPerDay) <= maxTime ->
  addDaysIn tz d a = Some (d + a * msPerDay)
  /\ addDaysIn tz d a = Some (addDays d a)
  /\ addDaysIn tz d 0 = Some d
  /\ addDaysIn tz (addDays d a) b = addDaysIn tz d (a + b)
  /\ Day (LocalTime tz (addDays d a)) = Day (LocalTime tz d) + a
  /\ TimeWithinDay (LocalTime tz (addDays d a)) = TimeWithinDay (LocalTime tz d)
  /\ WeekDay (LocalTime tz (addDays d a)) = (WeekDay (LocalTime tz d) + a) mod 7.
Proof.
  intros Hc Hd Ha Hab.
  rewrite !(addDaysIn_fixed tz c) by assumption. rewrite !addDays_eq.
  unfold LocalTime. rewrite !Hc.
  replace (d + a * msPerDay + c) with (d + c + a * msPerDay) by lia.
  split; [apply TimeClip_valid; assumption|].
  split; [apply TimeClip_valid; assumption|].
  split; [replace (d + 0 * msPerDay) with d by lia; apply TimeClip_valid; assumption|].
  split; [f_equal; lia|].
  split; [apply Day_shift|].
  split; [apply TimeWithinDay_shift|].
  unfold WeekDay. rewrite Day_shift, Zplus_mod_idemp_l. f_equal. lia.
Qed.

Lemma X1_witness :
  let d := newDateYMD 2024 0 31 + 12 * 3600000 in
  let tz : TimeZone := fun _ _ => 3600000 in
  (forall t u, tz t u = 3600000)
  /\ Z.abs d <= maxTime
  /\ Z.abs (d + 1 * msPerDay) <= maxTime
  /\ Z.abs (d + (1 + 7) * msPerDay) <= maxTime
  /\ addDaysIn tz d 1 = Some (d + 1 * msPerDay).
Proof.
  intros d tz.
  assert (H0 : forall t u, tz t u = 3600000) by reflexivity.
  assert (H1 : Z.abs d <= maxTime) by (vm_compute; discriminate).
  assert (H2 : Z.abs (d + 1 * msPerDay) <= maxTime) by (vm_compute; discriminate).
  assert (H3 : Z.abs (d + (1 + 7) * msPerDay) <= maxTime) by (vm_compute; discriminate).
  split; [exact H0|]. split; [exact H1|]. split; [exact H2|]. split; [exact H3|].
  exact (proj1 (X1_addDays_moves_whole_days tz 3600000 d 1 7 H0 H1 H2 H3)).
Defined.




(** X4.  A month has [getDaysInMonth] days, between 28 and 31: that many
    days after the first of the month comes the first of the next month,
    and the month ends on the day of that number. *)
Theorem X4_getDaysInMonth_is_month_length t :
  28 <= getDaysInMonth t <= 31
  /\ addDays (startOfMonth t) (getDaysInMonth t) = addMonths (startOfMonth t) 1
  /\ getDate (endOfMonth t) = getDaysInMonth t.
Proof.
  split; [rewrite getDaysInMonth_eq; apply daysOfMonth_range|]. split.
  - rewrite startOfMonth_eq, addMonths_firstOfMonth, addDays_eq, getDaysInMonth_eq.
    symmetry. apply firstOfMonth_next.
  - apply getDate_endOfMonth.
Qed.

(** X5.  [startOfMonth] and [endOfMonth] bracket a date inside its
    month: the first is its midnight of the 1st, the second the last
    millisecond before the next month starts. *)
Theorem X5_month_brackets_date t :
  isWithinInterval t (startOfMonth t) (endOfMonth t) = Ok true
  /\ monthIndex (startOfMonth t) = monthIndex t
  /\ monthIndex (endOfMonth t) = monthIndex t
  /\ getDate (startOfMonth t) = 1
  /\ startOfDay (startOfMonth t) = startOfMonth t
  /\ endOfMonth t + 1 = addMonths (startOfMonth t) 1.
Proof.
  pose proof (startOfMonth_le t) as L1. pose proof (le_endOfMonth t) as L2.
  split.
  - unfold isWithinInterval, getTime, toDate. cbv zeta.
    destruct (Z.leb_spec (startOfMonth t) (endOfMonth t)); [|lia]. cbn [negb].
    destruct (Z.geb_spec t (startOfMonth t)); [|lia].
    destruct (Z.leb_spec t (endOfMonth t)); [|lia]. reflexivity.
  - rewrite startOfMonth_eq. split; [apply monthIndex_firstOfMonth|].
    split; [apply monthIndex_endOfMonth|].
    split; [apply getDate_firstOfMonth|]. split.
    + unfold startOfDay, toDate, firstOfMonth. apply setHours0_MakeDate.
    + rewrite endOfMonth_eq, addMonths_firstOfMonth. lia.
Qed.

Module WeekFacts.
Import JSDate DateFns Calendar JSDateFacts DateFnsFacts CalendarFacts DateFnsFacts2.

Lemma setDate_minus t c : setDate t (getDate t - c) = t + (- c) * msPerDay.
Proof.
  replace (getDate t - c) with (getDate t + - c) by lia. apply setDate_getDate.
Qed.

Lemma weekOffset s i :
  0 <= s <= 6 -> 0 <= i <= 6 ->
  (if s <? i then 7 else 0) + s - i = (s - i) mod 7.
Proof.
  intros Hs Hi. destruct (Z.ltb_spec s i).
  - replace (s - i) with ((7 + s - i) + (-1) * 7) by lia.
    rewrite Z.mod_add, Z.mod_small by lia. lia.
  - rewrite Z.mod_small by lia. lia.
Qed.

Lemma startOfWeek_ok t i :
  0 <= i <= 6 ->
  startOfWeek t i = Ok (addDays (startOfDay t) (- ((getDay t - i) mod 7))).
Proof.
  intros Hi. unfold startOfWeek, toDate. cbv zeta.
  destruct (Z.geb_spec i 0); [|lia]. destruct (Z.leb_spec i 6); [|lia].
  cbn [andb negb]. f_equal.
  rewrite (weekOffset _ _ (getDay_range t) Hi).
  rewrite setDate_minus, addDays_eq, (startOfDay_eq t).
  unfold setHours0, MakeDate. rewrite Day_shift. lia.
Qed.

Lemma endOfWeek_ok t i :
  0 <= i <= 6 ->
  endOfWeek t i = Ok (addDays (startOfDay t) (7 - (getDay t - i) mod 7) - 1).
Proof.
  intros Hi. unfold endOfWeek, toDate. cbv zeta.
  destruct (Z.geb_spec i 0); [|lia]. destruct (Z.leb_spec i 6); [|lia].
  cbn [andb negb]. f_equal.
  pose proof (weekOffset _ _ (getDay_range t) Hi) as W.
  rewrite setDate_getDate, addDays_eq, (startOfDay_eq t).
  unfold setHoursEnd, MakeDate. rewrite Day_shift.
  destruct (Z.ltb_spec (getDay t) i); unfold msPerDay; lia.
Qed.

Lemma week_throws t i :
  ~ 0 <= i <= 6 ->
  startOfWeek t i = Throw RangeError /\ endOfWeek t i = Throw RangeError.
Proof.
  intros Hi. unfold startOfWeek, endOfWeek. cbv zeta.
  destruct (Z.geb_spec i 0), (Z.leb_spec i 6); try lia; split; reflexivity.
Qed.

End WeekFacts.

Import WeekFacts.

(** X6.  [isSameDay] compares day numbers, whatever the times of day:
    a date and its [startOfDay] are the same day, and moving a date by
    [n] days gives the same day only for [n = 0]. *)
Theorem X6_isSameDay_compares_days a b n :
  isSameDay a b = (Day a =? Day b)
  /\ isSameDay (startOfDay a) a = true
  /\ isSameDay (addDays a n) a = (n =? 0).
Proof.
  assert (E : forall x y, isSameDay x y = (Day x =? Day y)).
  { intros x y. apply eq_true_iff_eq. rewrite isSameDay_Day, Z.eqb_eq. reflexivity. }
  split; [apply E|]. split.
  - rewrite E, startOfDay_eq, Day_midnight. apply Z.eqb_refl.
  - rewrite E, addDays_eq, Day_shift. apply eq_true_iff_eq.
    rewrite !Z.eqb_eq. lia.
Qed.

(** X7.  [eachDayOfInterval] throws a [RangeError] when the end is before
    the start, and otherwise lists the midnights of the days from the
    day of the start to the day of the end, one per day and in order. *)
Theorem X7_eachDayOfInterval_lists_midnights s e :
  eachDayOfInterval s e
  = if e <? s then Throw RangeError
    else Ok (map (fun k => addDays (startOfDay s) (Z.of_nat k))
               (seq 0 (Z.to_nat (Day e - Day s + 1)))).
Proof.
  destruct (Z.ltb_spec e s).
  - apply eachDayOfInterval_throw. assumption.
  - apply eachDayOfInterval_ok. assumption.
Qed.

(** X8.  With [weekStartsOn] from 0 to 6, [startOfWeek] is the midnight
    of the latest day of the week [weekStartsOn] that is not after the
    date, and [endOfWeek] the last millisecond of the seventh day from
    there; with any other [weekStartsOn] both throw a [RangeError]. *)
Theorem X8_week_bounds t i :
  if (0 <=? i) && (i <=? 6) then
    exists w,
      startOfWeek t i = Ok w
      /\ endOfWeek t i = Ok (addDays w 7 - 1)
      /\ startOfDay w = w
      /\ getDay w = i
      /\ w <= t < addDays w 7
  else
    startOfWeek t i = Throw RangeError /\ endOfWeek t i = Throw RangeError.
Proof.
  destruct (Z.leb_spec 0 i), (Z.leb_spec i 6); cbn [andb];
    try (apply week_throws; lia).
  assert (Hi : 0 <= i <= 6) by lia.
  pose proof (Z.mod_pos_bound (getDay t - i) 7 ltac:(lia)) as Hc.
  set (c := (getDay t - i) mod 7) in *.
  exists (addDays (startOfDay t) (- c)).
  split; [apply startOfWeek_ok; assumption|].
  split; [rewrite endOfWeek_ok by assumption; rewrite !addDays_eq; f_equal; lia|].
  pose proof (Day_TimeWithinDay t) as E. pose proof (TimeWithinDay_range t) as R.
  rewrite !addDays_eq, !startOfDay_eq.
  replace (Day t * msPerDay + - c * msPerDay) with ((Day t - c) * msPerDay) by lia.
  rewrite Day_midnight. split; [reflexivity|]. split.
  - unfold getDay, WeekDay. rewrite Day_midnight.
    unfold c, getDay, WeekDay. clear - Hi. Z.div_mod_to_equations. lia.
  - unfold MakeDate, msPerDay in *. lia.
Qed.

Import Hook Selection HookFacts NavigationFacts UtilsFacts.

(** X9.  [getInitialMonths] lists the month of the given date (of today
    when none is given) and the months after it, one entry per month and
    [numberOfMonths] of them; it lists one month when [numberOfMonths]
    is 0 or negative. *)
Theorem X9_getInitialMonths_consecutive now n t :
  getInitialMonths now n t
  = map (fun k =>
           getDateMonthAndYear
             (addMonths (match t with Some t => t | None => startOfDay now end)
                (Z.of_nat k)))
      (seq 0 (Z.to_nat (Z.max 1 n))).
Proof.
  rewrite getInitialMonths_window. unfold window. apply map_ext. intros k.
  rewrite getDateMonthAndYear_eq, monthIndex_addMonths. reflexivity.
Qed.

(** X10.  With [numberOfMonths] 0 or negative the hook still starts with
    one visible month, but navigation breaks: a negative number makes
    every navigation call throw a [RangeError], and with 0 the first
    call empties the window, after which navigation and every arrow
    key throw a [TypeError]. *)
Theorem X10_navigation_without_months now p :
  numberOfMonths p <= 0 ->
  let s0 := initialState now p in
  length (activeMonths s0) = 1%nat
  /\ (numberOfMonths p < 0 ->
      goToNextMonths p s0 = Throw RangeError
      /\ goToPreviousMonths p s0 = Throw RangeError)
  /\ (numberOfMonths p = 0 ->
      let gone := [SetActiveMonths []; SetFocusedDate None] in
      goToNextMonths p s0 = Ok gone
      /\ goToPreviousMonths p s0 = Ok gone
      /\ goToNextMonths p (runEffects s0 gone) = Throw TypeError
      /\ goToPreviousMonths p (runEffects s0 gone) = Throw TypeError
      /\ forall k, handleKeyDown now p (runEffects s0 gone) k
                   = if isArrow k then Throw TypeError else Ok []).
Proof.
  intros Hn s0.
  assert (W : exists i, activeMonths s0 = [monthAt i]).
  { unfold s0, initialState. cbn [activeMonths].
    destruct (startDate p); rewrite getInitialMonths_window;
      rewrite Z.max_l by lia; eexists; reflexivity. }
  destruct W as [i W]. split; [rewrite W; reflexivity|].
  unfold goToNextMonths, goToPreviousMonths, getNextActiveMonth. rewrite W.
  cbn [length Nat.sub nth_error Z.gtb Z.compare date monthAt].
  split.
  - intros Hneg. destruct (Z.ltb_spec (numberOfMonths p) 0); [|lia].
    split; reflexivity.
  - intros H0. rewrite H0. cbn [Z.ltb Z.compare Z.to_nat seq fold_left snd bind].
    repeat (split; [reflexivity|]). intros k. destruct k; reflexivity.
Qed.

Lemma X10_witness :
  let p0 := {| startDate := None; endDate := None; focusedInput := Some START_DATE;
               minBookingDate := None; maxBookingDate := None;
               initialVisibleMonth := None; exactMinBookingDays := false;
               minBookingDays := 1; numberOfMonths := 0;
               isDateBlockedProps := fun _ => false; unavailableDates := [] |} in
  numberOfMonths p0 <= 0
  /\ goToNextMonths p0
       (runEffects (initialState (newDateYMD 2024 0 15) p0)
          [SetActiveMonths []; SetFocusedDate None])
     = Throw TypeError.
Proof.
  intros p0.
  assert (H : numberOfMonths p0 <= 0) by (cbn; lia).
  split; [exact H|].
  pose proof (X10_navigation_without_months (newDateYMD 2024 0 15) p0 H) as T.
  cbv zeta in T. destruct T as [_ [_ T]]. destruct (T eq_refl) as [_ [_ [T3 _]]].
  exact T3.
Defined.

(** X11.  On a month window of [numberOfMonths] months, with
    [numberOfMonths] between 1 and [12 * numYears], [goToNextYear]
    moves every month of the window forward by exactly [numYears] years
    and [goToPreviousYear] back by as many, each clears the focused
    date, and each undoes the other. *)
Theorem X11_year_navigation p s k :
  isMonthWindow (numberOfMonths p) (activeMonths s) = true ->
  1 <= numberOfMonths p <= 12 * k ->
  let fwd := [SetActiveMonths (map (shiftMonth (12 * k)) (activeMonths s));
              SetFocusedDate None] in
  let bwd := [SetActiveMonths (map (shiftMonth (- (12 * k))) (activeMonths s));
              SetFocusedDate None] in
  let back := [SetActiveMonths (activeMonths s); SetFocusedDate None] in
  goToNextYear p s k = Ok fwd
  /\ goToPreviousYear p s k = Ok bwd
  /\ goToPreviousYear p (runEffects s fwd) k = Ok back
  /\ goToNextYear p (runEffects s bwd) k = Ok back.
Proof.
  intros Hw Hn fwd bwd back.
  assert (N : forall w, isMonthWindow (numberOfMonths p) w = true ->
              getNextActiveMonth w (numberOfMonths p) (k * 12 - numberOfMonths p + 1)
              = Ok (map (shiftMonth (12 * k)) w)).
  { intros w Hw'. rewrite getNextActiveMonth_shift by (try assumption; lia).
    destruct (Z.gtb_spec (k * 12 - numberOfMonths p + 1) 0); [|lia].
    replace (k * 12 - numberOfMonths p + 1 + (numberOfMonths p - 1)) with (12 * k) by lia.
    reflexivity. }
  assert (P : forall w, isMonthWindow (numberOfMonths p) w = true ->
              getNextActiveMonth w (numberOfMonths p) (- (k * 12 - numberOfMonths p + 1))
              = Ok (map (shiftMonth (- (12 * k))) w)).
  { intros w Hw'. rewrite getNextActiveMonth_shift by (try assumption; lia).
    destruct (Z.gtb_spec (- (k * 12 - numberOfMonths p + 1)) 0); [lia|].
    replace (- (k * 12 - numberOfMonths p + 1) - (numberOfMonths p - 1))
      with (- (12 * k)) by lia.
    reflexivity. }
  unfold goToNextYear, goToPreviousYear.
  rewrite (N _ Hw), (P _ Hw). cbn [bind].
  split; [reflexivity|]. split; [reflexivity|].
  unfold fwd, bwd, runEffects. cbn [fold_left runEffect activeMonths].
  rewrite P by (apply isMonthWindow_shift; [assumption | lia]).
  rewrite N by (apply isMonthWindow_shift; [assumption | lia]).
  cbn [bind]. unfold back. split.
  - rewrite (shiftMonth_inverse (12 * k) _ (numberOfMonths p)) by (try assumption; lia).
    reflexivity.
  - replace (12 * k) with (- - (12 * k)) at 1 by lia.
    rewrite (shiftMonth_inverse (- (12 * k)) _ (numberOfMonths p)) by (try assumption; lia).
    reflexivity.
Qed.

Lemma X11_witness :
  let s := initialState (newDateYMD 2024 0 15) defaultProps in
  isMonthWindow (numberOfMonths defaultProps) (activeMonths s) = true
  /\ 1 <= numberOfMonths defaultProps <= 12 * 1
  /\ goToNextYear defaultProps s 1
     = Ok [SetActiveMonths (map (shiftMonth (12 * 1)) (activeMonths s));
           SetFocusedDate None].
Proof.
  intros s.
  assert (H1 : isMonthWindow (numberOfMonths defaultProps) (activeMonths s) = true)
    by (vm_compute; reflexivity).
  assert (H2 : 1 <= numberOfMonths defaultProps <= 12 * 1) by (cbn; lia).
  split; [exact H1|]. split; [exact H2|].
  exact (proj1 (X11_year_navigation defaultProps s 1 H1 H2)).
Defined.

Module RangeFacts.
Import JSDate DateFns Utils Calendar.
Import JSDateFacts DateFnsFacts UtilsFacts CalendarFacts DateFnsFacts2.

Lemma someDayOf_midnights s e n :
  s <= e -> someDayOf s e n = Ok (existsb n (midnights s e)).
Proof. apply someDayOf_ok. Qed.

Lemma In_midnights s e x :
  In x (midnights s e)
  <-> exists k, 0 <= k <= Day e - Day s /\ x = addDays (startOfDay s) k.
Proof.
  unfold midnights. rewrite in_map_iff. split.
  - intros [k [<- Hk]]. apply in_seq in Hk. exists (Z.of_nat k). split; [lia|reflexivity].
  - intros [k [Hk ->]]. exists (Z.to_nat k). split.
    + rewrite Z2Nat.id by lia. reflexivity.
    + apply in_seq. lia.
Qed.

Lemma midnights_one t : midnights t (addDays t 0) = [startOfDay t].
Proof.
  unfold midnights. rewrite addDays_eq.
  replace (t + 0 * msPerDay) with t by lia.
  replace (Day t - Day t + 1) with 1 by lia.
  change (Z.to_nat 1) with 1%nat. cbn [seq map Z.of_nat]. rewrite addDays_eq.
  f_equal. lia.
Qed.

(** A day of the interval, at its midnight, is among the midnights. *)
Lemma startOfDay_In_midnights s e x :
  Day s <= Day x <= Day e -> In (startOfDay x) (midnights s e).
Proof.
  intros H. apply In_midnights. exists (Day x - Day s). split; [lia|].
  rewrite addDays_eq, !startOfDay_eq. lia.
Qed.

Lemma addDays_le t a : 1 <= a -> t <= addDays t (a - 1).
Proof. intros H. rewrite addDays_eq. unfold msPerDay. lia. Qed.

Lemma isBefore_false a b : isBefore a b = false <-> b <= a.
Proof. unfold isBefore, getTime, toDate. apply Z.ltb_ge. Qed.

Lemma isBefore_true a b : isBefore a b = true <-> a < b.
Proof. unfold isBefore, getTime, toDate. apply Z.ltb_lt. Qed.

Lemma isAfter_false a b : isAfter a b = false <-> a <= b.
Proof.
  unfold isAfter, getTime, toDate. rewrite Z.gtb_ltb. apply Z.ltb_ge.
Qed.

Lemma isAfter_true a b : isAfter a b = true <-> b < a.
Proof.
  unfold isAfter, getTime, toDate. rewrite Z.gtb_ltb. apply Z.ltb_lt.
Qed.

Lemma canSelectRange_plain e :
  csr_exactMinBookingDays e = false -> 1 <= csr_minBookingDays e ->
  canSelectRange e
  = Ok (match csr_endDate e with
        | None =>
            if csr_minBookingDays e =? 1
            then negb (csr_isDateBlocked e (csr_startDate e))
            else negb (existsb (csr_isDateBlocked e)
                         (midnights (csr_startDate e)
                            (addDays (csr_startDate e) (csr_minBookingDays e - 1))))
        | Some r =>
            negb (isBefore r (addDays (csr_startDate e) (csr_minBookingDays e - 1)))
            && negb (existsb (csr_isDateBlocked e) (midnights (csr_startDate e) r))
        end).
Proof.
  intros Ho Ha. unfold canSelectRange. cbv zeta. rewrite Ho.
  pose proof (addDays_le (csr_startDate e) _ Ha) as Hle.
  destruct (csr_endDate e) as [r|].
  - rewrite orb_true_r, !andb_false_r. cbn [isSome isNone negb orb andR andb].
    rewrite ?andb_false_r. cbn [orb orR].
    destruct (isBefore r _) eqn:Hb; [reflexivity|].
    apply isBefore_false in Hb.
    rewrite someDayOf_midnights by lia. reflexivity.
  - cbn [isSome isNone negb orb andb]. rewrite !andb_false_r, !orb_false_r.
    rewrite andb_true_r. cbn [orb].
    destruct (Z.eqb_spec (csr_minBookingDays e) 1) as [E|E].
    + rewrite E. cbn [negb orb Z.gtb Z.compare Pos.compare Pos.compare_cont andb].
      destruct (csr_isDateBlocked e (csr_startDate e)); reflexivity.
    + destruct (Z.gtb_spec (csr_minBookingDays e) 1); [|lia].
      cbn [negb orb andR andb].
      rewrite someDayOf_midnights by lia. reflexivity.
Qed.

Lemma canSelectRange_exact_eq e :
  csr_exactMinBookingDays e = true -> csr_endDate e = None ->
  1 <= csr_minBookingDays e ->
  canSelectRange e
  = Ok (((csr_minBookingDays e =? 1) && negb (csr_isDateBlocked e (csr_startDate e)))
        || (match csr_minBookingDate e with
            | None => true
            | Some i => negb (isBefore (csr_startDate e) (addDays i (-1)))
            end
            && match csr_maxBookingDate e with
               | None => true
               | Some d =>
                   negb (isAfter (addDays (csr_startDate e) (csr_minBookingDays e - 1)) d)
               end
            && negb (existsb (csr_isDateBlocked e)
                       (midnights (csr_startDate e)
                          (addDays (csr_startDate e) (csr_minBookingDays e - 1)))))).
Proof.
  intros Ho Hr Ha. unfold canSelectRange. cbv zeta. rewrite Ho, Hr.
  pose proof (addDays_le (csr_startDate e) _ Ha) as Hle.
  destruct (Z.gtb_spec (csr_minBookingDays e) 0); [|lia].
  cbn [isSome isNone negb orb andb]. rewrite !andb_false_r. cbn [orb andb].
  rewrite someDayOf_midnights by lia.
  set (s := match csr_minBookingDate e with None => true | Some _ => _ end).
  set (c := match csr_maxBookingDate e with None => true | Some _ => _ end).
  assert (B : (s && c || isNone (csr_minBookingDate e) && isNone (csr_maxBookingDate e))%bool
              = (s && c)%bool).
  { unfold s, c. destruct (csr_minBookingDate e), (csr_maxBookingDate e);
      cbn [isNone isSome negb andb orb]; rewrite ?orb_false_r, ?andb_true_r; reflexivity. }
  rewrite B.
  destruct (Z.eqb_spec (csr_minBookingDays e) 1) as [E|E];
    cbn [negb orb andb];
    destruct (csr_isDateBlocked e (csr_startDate e)); cbn [andR bind negb orb];
    destruct (s && c)%bool; cbn [bind negb andb orb]; try reflexivity;
    rewrite ?orb_false_r; try reflexivity.
  (* one day: the start date is tested as it is, then at its midnight *)
  all: rewrite E, midnights_one; cbn [existsb]; rewrite orb_false_r.
  all: destruct (csr_isDateBlocked e (startOfDay _)); reflexivity.
Qed.

End RangeFacts.

Import RangeFacts.

(** X12.  Outside exact mode, with [minBookingDays] at least 1,
    [canSelectRange] accepts a start date alone when it is not blocked
    (one day) or when none of the [minBookingDays] days from it is
    blocked, and accepts a start and an end date when the end is not
    before the start plus [minBookingDays - 1] days and no day from the
    start to the end is blocked.  Days are tested at their midnights,
    except the single start date, which is tested as it is. *)
Theorem X12_canSelectRange_outside_exact_mode e :
  csr_exactMinBookingDays e = false -> 1 <= csr_minBookingDays e ->
  canSelectRange e
  = Ok (match csr_endDate e with
        | None =>
            if csr_minBookingDays e =? 1
            then negb (csr_isDateBlocked e (csr_startDate e))
            else negb (existsb (csr_isDateBlocked e)
                         (midnights (csr_startDate e)
                            (addDays (csr_startDate e) (csr_minBookingDays e - 1))))
        | Some r =>
            negb (isBefore r (addDays (csr_startDate e) (csr_minBookingDays e - 1)))
            && negb (existsb (csr_isDateBlocked e) (midnights (csr_startDate e) r))
        end).
Proof. apply canSelectRange_plain. Qed.

Lemma X12_witness :
  let e := {| csr_startDate := newDateYMD 2024 0 10;
              csr_endDate := Some (newDateYMD 2024 0 12);
              csr_isDateBlocked := fun _ => false;
              csr_minBookingDays := 3;
              csr_exactMinBookingDays := false;
              csr_minBookingDate := None;
              csr_maxBookingDate := None |} in
  csr_exactMinBookingDays e = false /\ 1 <= csr_minBookingDays e
  /\ canSelectRange e = Ok true.
Proof.
  intros e.
  assert (H1 : csr_exactMinBookingDays e = false) by reflexivity.
  assert (H2 : 1 <= csr_minBookingDays e) by (cbn; lia).
  split; [exact H1|]. split; [exact H2|].
  rewrite (X12_canSelectRange_outside_exact_mode e H1 H2). vm_compute. reflexivity.
Defined.

(** X13.  In exact mode, with no end date and [minBookingDays] at least
    1, [canSelectRange] accepts a start date when the start is not more
    than one day before [minBookingDate], the start plus
    [minBookingDays - 1] days is not after [maxBookingDate] and none of
    the [minBookingDays] days is blocked at its midnight; with
    [minBookingDays = 1] it also accepts every start date that is not
    blocked, whatever the two booking dates. *)
Theorem X13_canSelectRange_in_exact_mode e :
  csr_exactMinBookingDays e = true -> csr_endDate e = None ->
  1 <= csr_minBookingDays e ->
  canSelectRange e
  = Ok (((csr_minBookingDays e =? 1) && negb (csr_isDateBlocked e (csr_startDate e)))
        || (match csr_minBookingDate e with
            | None => true
            | Some i => negb (isBefore (csr_startDate e) (addDays i (-1)))
            end
            && match csr_maxBookingDate e with
               | None => true
               | Some d =>
                   negb (isAfter (addDays (csr_startDate e) (csr_minBookingDays e - 1)) d)
               end
            && negb (existsb (csr_isDateBlocked e)
                       (midnights (csr_startDate e)
                          (addDays (csr_startDate e) (csr_minBookingDays e - 1)))))).
Proof. apply canSelectRange_exact_eq. Qed.

Lemma X13_witness :
  let e := {| csr_startDate := newDateYMD 2024 0 5;
              csr_endDate := None;
              csr_isDateBlocked := fun _ => false;
              csr_minBookingDays := 1;
              csr_exactMinBookingDays := true;
              csr_minBookingDate := Some (newDateYMD 2024 0 10);
              csr_maxBookingDate := None |} in
  csr_exactMinBookingDays e = true /\ csr_endDate e = None
  /\ 1 <= csr_minBookingDays e
  /\ canSelectRange e = Ok true.
Proof.
  intros e.
  assert (H1 : csr_exactMinBookingDays e = true) by reflexivity.
  assert (H2 : csr_endDate e = None) by reflexivity.
  assert (H3 : 1 <= csr_minBookingDays e) by (cbn; lia).
  split; [exact H1|]. split; [exact H2|]. split; [exact H3|].
  rewrite (X13_canSelectRange_in_exact_mode e H1 H2 H3). vm_compute. reflexivity.
Defined.

Module SelectFacts.
Import JSDate DateFns Utils Hook MonthWindow Selection Calendar.
Import JSDateFacts DateFnsFacts UtilsFacts HookFacts CalendarFacts DateFnsFacts2.
Import MonthWindowFacts NavigationFacts RangeFacts.

Lemma Ok_inj {A : Type} (a b : A) : Ok a = Ok b -> a = b.
Proof. intros H. injection H as H. exact H. Qed.

Lemma canSelectRange_plain_inv e :
  csr_exactMinBookingDays e = false -> canSelectRange e = Ok true ->
  match csr_endDate e with
  | None =>
      (csr_minBookingDays e = 1 /\ csr_isDateBlocked e (csr_startDate e) = false)
      \/ (1 < csr_minBookingDays e
          /\ existsb (csr_isDateBlocked e)
               (midnights (csr_startDate e)
                  (addDays (csr_startDate e) (csr_minBookingDays e - 1))) = false)
  | Some r =>
      addDays (csr_startDate e) (csr_minBookingDays e - 1) <= r
      /\ csr_startDate e <= r
      /\ existsb (csr_isDateBlocked e) (midnights (csr_startDate e) r) = false
  end.
Proof.
  intros Ho. unfold canSelectRange. cbv zeta. rewrite Ho.
  destruct (csr_endDate e) as [r|].
  - rewrite orb_true_r, !andb_false_r. cbn [isSome isNone negb orb andR andb].
    rewrite ?andb_false_r. cbn [orb orR].
    unfold orR. destruct (isBefore r _) eqn:Hb; [discriminate|].
    apply isBefore_false in Hb.
    destruct (someDayOf _ r _) as [[]|] eqn:E; try discriminate. intros _.
    pose proof (someDayOf_Ok_le _ _ _ _ E) as Hle.
    rewrite someDayOf_midnights in E by assumption. injection E as E. auto.
  - cbn [isSome isNone negb orb andb]. rewrite !andb_false_r, !orb_false_r.
    rewrite andb_true_r. cbn [orb].
    destruct (Z.eqb_spec (csr_minBookingDays e) 1) as [E|E].
    + rewrite E. cbn [negb orb Z.gtb Z.compare Pos.compare Pos.compare_cont andb].
      destruct (csr_isDateBlocked e (csr_startDate e)); [discriminate|].
      intros _. left. auto.
    + destruct (Z.gtb_spec (csr_minBookingDays e) 1) as [G|G];
        cbn [negb orb andR andb bind]; [|discriminate].
      rewrite someDayOf_midnights by (apply addDays_le; lia).
      destruct (existsb _ _); [discriminate|]. intros _. right. auto.
Qed.

Lemma startOfDay_idem x : startOfDay (startOfDay x) = startOfDay x.
Proof. rewrite (startOfDay_eq (startOfDay x)), startOfDay_eq, Day_midnight. reflexivity. Qed.

Lemma isInUnavailableDates_startOfDay l x :
  isInUnavailableDates l (startOfDay x) = isInUnavailableDates l x.
Proof.
  unfold isInUnavailableDates. induction l as [|e l IH]; [reflexivity|].
  cbn [existsb]. rewrite IH. f_equal.
  unfold isSameDay. rewrite startOfDay_idem. reflexivity.
Qed.

Section DayGranular.

Variable p : UseDatepickerProps.
Hypothesis granular :
  forall x, isDateBlockedProps p (startOfDay x) = isDateBlockedProps p x.

Lemma disabledDatesByUser_startOfDay x :
  disabledDatesByUser p (startOfDay x) = disabledDatesByUser p x.
Proof.
  unfold disabledDatesByUser. rewrite isInUnavailableDates_startOfDay, granular.
  reflexivity.
Qed.

Lemma midnights_unblocked a b x :
  existsb (disabledDatesByUser p) (midnights a b) = false ->
  a <= x <= b -> disabledDatesByUser p x = false.
Proof.
  intros H Hx. rewrite <- disabledDatesByUser_startOfDay.
  destruct (disabledDatesByUser p (startOfDay x)) eqn:D; [|reflexivity].
  assert (T : existsb (disabledDatesByUser p) (midnights a b) = true).
  { apply existsb_exists. exists (startOfDay x). split; [|assumption].
    apply startOfDay_In_midnights. split; apply Day_le; lia. }
  congruence.
Qed.

(** What a date, or a range, accepted outside exact mode is like. *)
Lemma canSelectPlain_inv t r :
  canSelectPlain p t r = Ok true ->
  disabledDatesByUser p t = false
  /\ match r with
     | Some r =>
         addDays t (minBookingDays p - 1) <= r /\ t <= r
         /\ forall x, t <= x <= r -> disabledDatesByUser p x = false
     | None => True
     end.
Proof.
  intros H. unfold canSelectPlain in H.
  apply canSelectRange_plain_inv in H; [|reflexivity].
  cbn [csr_endDate csr_startDate csr_minBookingDays csr_isDateBlocked] in H.
  destruct r as [r|].
  - destruct H as [H1 [H2 H3]]. split.
    + apply (midnights_unblocked t r); [assumption | lia].
    + split; [assumption|]. split; [assumption|].
      intros x Hx. apply (midnights_unblocked t r); assumption.
  - split; [|exact I]. destruct H as [[_ H]|[G H]]; [assumption|].
    apply (midnights_unblocked t (addDays t (minBookingDays p - 1))); [assumption|].
    pose proof (addDays_le t (minBookingDays p) ltac:(lia)). lia.
Qed.

Lemma onDateSelect_change_bookable date es d :
  onDateSelect_change p date = Ok es ->
  In d (emitted es) ->
  exists a,
    data_startDate d = Some a
    /\ (a = date \/ data_endDate d = Some date)
    /\ disabledDatesByUser p a = false
    /\ match data_endDate d with
       | Some b =>
           addDays a (minBookingDays p - 1) <= b /\ a <= b
           /\ forall x, a <= x <= b -> disabledDatesByUser p x = false
       | None => True
       end.
Proof.
  unfold onDateSelect_change. cbv zeta. intros H.
  apply chain_inv in H. destruct H as [[e H]|[[G [X H]]|[_ H]]]; [discriminate| |].
  { injection H as <-. intros [<-|[]]. cbn [data_startDate data_endDate].
    apply andb_true_iff in G. destruct G as [G Hex].
    apply andb_true_iff in G. destruct G as [_ G]. apply Z.gtb_lt in G.
    rewrite canSelectRange_exact_eq in X;
      [| exact Hex | reflexivity | cbn [csr_minBookingDays]; lia].
    cbn [csr_endDate csr_startDate csr_minBookingDays csr_isDateBlocked
         csr_minBookingDate csr_maxBookingDate] in X.
    apply Ok_inj in X. exists date. split; [reflexivity|]. split; [left; reflexivity|].
    pose proof (addDays_le date (minBookingDays p) ltac:(lia)) as L.
    apply orb_true_iff in X. destruct X as [X|X].
    - apply andb_true_iff in X. destruct X as [X1 X2].
      apply Z.eqb_eq in X1. apply negb_true_iff in X2.
      split; [assumption|]. split; [lia|]. split; [assumption|].
      rewrite X1, addDays_eq.
      intros x Hx. replace x with date by lia. assumption.
    - apply andb_true_iff in X. destruct X as [_ X]. apply negb_true_iff in X.
      split; [apply (midnights_unblocked date _ date X); lia|].
      split; [lia|]. split; [assumption|].
      intros x Hx. apply (midnights_unblocked _ _ x X). assumption. }
  apply chain_inv in H. destruct H as [[e H]|[[G [X H]]|[_ H]]]; [discriminate| |].
  { injection H as <-. intros [<-|[]]. cbn [data_startDate data_endDate].
    exists date. split; [reflexivity|]. split; [left; reflexivity|].
    apply (canSelectPlain_inv date None X). }
  apply chain_inv in H. destruct H as [[e H]|[[G [X H]]|[_ H]]]; [discriminate| |].
  { injection H as <-. intros [<-|[]]. cbn [data_startDate data_endDate].
    exists date. split; [reflexivity|]. split; [left; reflexivity|].
    apply (canSelectPlain_inv date _ X). }
  apply chain_inv in H. destruct H as [[e H]|[[G [X H]]|[_ H]]]; [discriminate| |].
  { injection H as <-. intros [<-|[]]. cbn [data_startDate data_endDate].
    exists date. split; [reflexivity|]. split; [left; reflexivity|].
    apply (canSelectPlain_inv date None X). }
  destruct (startDate p) as [s|]; [|injection H as <-; intros []].
  apply chain_inv in H. destruct H as [[e H]|[[G [X H]]|[_ H]]]; [discriminate| |].
  { injection H as <-. intros [<-|[]]. cbn [data_startDate data_endDate].
    exists s. split; [reflexivity|]. split; [right; reflexivity|].
    apply (canSelectPlain_inv s (Some date) X). }
  injection H as <-. intros [].
Qed.

(** A date the caller blocks is never selected. *)
Lemma onDateSelect_change_blocked date es :
  disabledDatesByUser p date = true ->
  onDateSelect_change p date = Ok es -> emitted es = [].
Proof.
  intros Hb H. destruct (emitted es) as [|d l] eqn:E; [reflexivity|]. exfalso.
  destruct (onDateSelect_change_bookable date es d H) as [a [Ha [Hd [Hn Hr]]]].
  { rewrite E. left. reflexivity. }
  destruct Hd as [->|Hd]; [congruence|].
  rewrite Hd in Hr. destruct Hr as [_ [Hle Hr]].
  rewrite (Hr date) in Hb by lia. discriminate.
Qed.

End DayGranular.

(** The chain of [onDateSelect] calls [onDatesChange] at most once. *)
Lemma onDateSelect_change_shape p date ch :
  onDateSelect_change p date = Ok ch ->
  ch = [] \/ exists d, ch = [OnDatesChange d].
Proof.
  unfold onDateSelect_change. cbv zeta. intros H.
  apply chain_inv in H. destruct H as [[e H]|[[G [X H]]|[_ H]]]; [discriminate| |].
  { injection H as <-. right. eexists. reflexivity. }
  apply chain_inv in H. destruct H as [[e H]|[[G [X H]]|[_ H]]]; [discriminate| |].
  { injection H as <-. right. eexists. reflexivity. }
  apply chain_inv in H. destruct H as [[e H]|[[G [X H]]|[_ H]]]; [discriminate| |].
  { injection H as <-. right. eexists. reflexivity. }
  apply chain_inv in H. destruct H as [[e H]|[[G [X H]]|[_ H]]]; [discriminate| |].
  { injection H as <-. right. eexists. reflexivity. }
  destruct (startDate p) as [s|]; [|injection H as <-; left; reflexivity].
  apply chain_inv in H. destruct H as [[e H]|[[G [X H]]|[_ H]]]; [discriminate| |].
  { injection H as <-. right. eexists. reflexivity. }
  injection H as <-. left. reflexivity.
Qed.

Lemma isWithinInterval_ok e a o :
  a <= o -> isWithinInterval e a o = Ok ((e >=? a) && (e <=? o)).
Proof.
  intros H. unfold isWithinInterval, getTime, toDate. cbv zeta.
  destruct (Z.leb_spec a o); [reflexivity | lia].
Qed.


End SelectFacts.

Import Hook Selection HookFacts NavigationFacts UtilsFacts SelectFacts.

(** X14.  When the caller's blocking predicate depends on the day only,
    every selection [onDateSelect] hands to [onDatesChange] is bookable:
    the selected date is its start or its end, its start date is not
    blocked by the caller, and when it has an end date, the end is not
    before the start, nor before the start plus [minBookingDays - 1]
    days, and no date from the start to the end is blocked by the
    caller. *)
Theorem X14_emitted_selection_is_bookable now p s date es d :
  (forall x, isDateBlockedProps p (startOfDay x) = isDateBlockedProps p x) ->
  onDateSelect now p s date = Ok es ->
  In d (emitted es) ->
  exists a,
    data_startDate d = Some a
    /\ (a = date \/ data_endDate d = Some date)
    /\ disabledDatesByUser p a = false
    /\ match data_endDate d with
       | Some b =>
           addDays a (minBookingDays p - 1) <= b /\ a <= b
           /\ forall x, a <= x <= b -> disabledDatesByUser p x = false
       | None => True
       end.
Proof.
  intros G H Hin. apply emitted_onDateSelect in H. destruct H as [ch [H E]].
  rewrite E in Hin. exact (onDateSelect_change_bookable p G date ch d H Hin).
Qed.

Lemma X14_witness :
  let p := withFocusedInput
             (feed defaultProps
                {| data_focusedInput := Some END_DATE;
                   data_startDate := Some (newDateYMD 2024 0 10);
                   data_endDate := None |})
             (Some END_DATE) in
  let s := initialState (newDateYMD 2024 0 1) p in
  let d := {| data_focusedInput := None;
              data_startDate := Some (newDateYMD 2024 0 10);
              data_endDate := Some (newDateYMD 2024 0 12) |} in
  exists es,
    onDateSelect (newDateYMD 2024 0 1) p s (newDateYMD 2024 0 12) = Ok es
    /\ In d (emitted es)
    /\ exists a,
         data_startDate d = Some a
         /\ (a = newDateYMD 2024 0 12 \/ data_endDate d = Some (newDateYMD 2024 0 12))
         /\ disabledDatesByUser p a = false
         /\ match data_endDate d with
            | Some b =>
                addDays a (minBookingDays p - 1) <= b /\ a <= b
                /\ forall x, a <= x <= b -> disabledDatesByUser p x = false
            | None => True
            end.
Proof.
  intros p s d.
  assert (G : forall x, isDateBlockedProps p (startOfDay x) = isDateBlockedProps p x)
    by reflexivity.
  assert (H : onDateSelect (newDateYMD 2024 0 1) p s (newDateYMD 2024 0 12)
              = Ok [OnDatesChange d]) by (vm_compute; reflexivity).
  assert (Hin : In d (emitted [OnDatesChange d])) by (left; reflexivity).
  exists [OnDatesChange d]. split; [exact H|]. split; [exact Hin|].
  exact (X14_emitted_selection_is_bookable _ p s _ _ d G H Hin).
Defined.

(** X15.  [onDateSelect] calls [onDatesChange] at most once and touches
    nothing but the visible months: the hovered and the focused date stay
    as they are, the visible months stay or become the months from the
    month of the date on, and while the end date is being picked the
    state of the hook is left untouched. *)
Theorem X15_onDateSelect_leaves_focus_and_hover now p s date es :
  onDateSelect now p s date = Ok es ->
  (length (emitted es) <= 1)%nat
  /\ hoveredDate (runEffects s es) = hoveredDate s
  /\ focusedDate (runEffects s es) = focusedDate s
  /\ (activeMonths (runEffects s es) = activeMonths s
      \/ activeMonths (runEffects s es)
         = getInitialMonths now (numberOfMonths p) (Some date))
  /\ (focusedInput p = Some END_DATE -> runEffects s es = s).
Proof.
  unfold onDateSelect. destruct (onDateSelect_change p date) as [ch|] eqn:C;
    [|discriminate].
  cbn [bind]. intros H. injection H as <-.
  apply onDateSelect_change_shape in C.
  destruct (negb (focus_eqb (focusedInput p) END_DATE) && dateLeavesFocus s date) eqn:T;
    destruct C as [->|[d ->]];
    cbn [app runEffects fold_left runEffect emitted length
         hoveredDate focusedDate activeMonths].
  1,2: split; [lia|]; split; [reflexivity|]; split; [reflexivity|];
    split; [right; reflexivity|]; intros F; rewrite F in T; discriminate.
  1,2: split; [lia|]; split; [reflexivity|]; split; [reflexivity|];
    split; [left; reflexivity|]; reflexivity.
Qed.

Lemma X15_witness :
  let now := newDateYMD 2024 0 1 in
  let p := withFocusedInput
             (feed defaultProps
                {| data_focusedInput := Some END_DATE;
                   data_startDate := Some (newDateYMD 2024 0 10);
                   data_endDate := None |})
             (Some END_DATE) in
  let s := initialState now p in
  let es := [OnDatesChange {| data_focusedInput := None;
                              data_startDate := Some (newDateYMD 2024 0 10);
                              data_endDate := Some (newDateYMD 2024 2 12) |}] in
  onDateSelect now p s (newDateYMD 2024 2 12) = Ok es
  /\ runEffects s es = s.
Proof.
  intros now p s es.
  assert (H : onDateSelect now p s (newDateYMD 2024 2 12) = Ok es)
    by (vm_compute; reflexivity).
  split; [exact H|].
  apply (X15_onDateSelect_leaves_focus_and_hover now p s _ es H). reflexivity.
Defined.

(** X16.  [onDateHover] never throws and only ever sets the hovered
    date: it makes no call to [onDatesChange], and what it does is
    nothing, clearing the hovered date, or storing the date itself as
    the hovered date, the last only for a date that [isDateBlocked]
    does not block or that is on the day of the start date. *)
Theorem X16_onDateHover_only_sets_hovered_date p s d :
  exists es,
    onDateHover p s d = Ok es
    /\ emitted es = []
    /\ (es = [] \/ es = [SetHoveredDate None]
        \/ exists date,
             d = Some date /\ es = [SetHoveredDate (Some date)]
             /\ (isDateBlocked p date = Ok false
                 \/ exists sd, startDate p = Some sd /\ isSameDay date sd = true)).
Proof.
  unfold onDateHover. destruct d as [date|].
  2: { eexists. split; [reflexivity|]. split; [reflexivity|]. right. left. reflexivity. }
  rewrite isDateBlocked_eq. cbn [bind]. cbv zeta.
  set (blocked := (beforeMinBookingDate p date || afterMaxBookingDate p date
                   || inMinStayWindow p date || disabledDatesByUser p date)%bool).
  assert (F : forall (c1 c2 : bool) (sd : option Date),
            (c1 = true -> blocked = false
                          \/ exists x, sd = Some x /\ isSameDay date x = true) ->
            exists es,
              (if (c1 && c2)%bool then Ok [SetHoveredDate (Some date)]
               else if isSome (hoveredDate s) then Ok [SetHoveredDate None]
                    else Ok [])
              = Ok es
              /\ emitted es = []
              /\ (es = [] \/ es = [SetHoveredDate None]
                  \/ exists date0,
                       Some date = Some date0 /\ es = [SetHoveredDate (Some date0)]
                       /\ (isDateBlocked p date0 = Ok false
                           \/ exists x, sd = Some x /\ isSameDay date0 x = true))).
  { intros c1 c2 sd Hc. destruct c1; cbn [andb].
    - destruct c2.
      + eexists. split; [reflexivity|]. split; [reflexivity|]. right. right.
        exists date. split; [reflexivity|]. split; [reflexivity|].
        destruct (Hc eq_refl) as [Hb | Hx]; [left | right; exact Hx].
        rewrite isDateBlocked_eq. fold blocked. rewrite Hb. reflexivity.
      + destruct (isSome (hoveredDate s)); eexists; (split; [reflexivity|]);
          (split; [reflexivity|]); auto.
    - destruct (isSome (hoveredDate s)); eexists; (split; [reflexivity|]);
        (split; [reflexivity|]); auto. }
  destruct (startDate p) as [sd|] eqn:Es.
  - assert (W : exists w,
               (if minBookingDays p >? 1
                then isWithinInterval date sd (addDays sd (minBookingDays p - 2))
                else Ok true) = Ok w).
    { destruct (Z.gtb_spec (minBookingDays p) 1); [|eauto].
      rewrite isWithinInterval_ok; [eauto|]. rewrite addDays_eq. unfold msPerDay. lia. }
    destruct W as [w W]. rewrite W. cbn [bind].
    apply F. intros C. apply orb_true_iff in C. destruct C as [C|C].
    + left. apply negb_true_iff in C. exact C.
    + right. exists sd. split; [reflexivity | exact C].
  - cbn [bind]. apply F. intros C. rewrite orb_false_r in C.
    left. apply negb_true_iff in C. exact C.
Qed.

(** X17.  With [minBookingDays = 1], a start date, no end date and a
    hovered date, [isDateHovered] marks a date exactly when the hovered
    date is not before the start date, the date lies between the two,
    and the caller blocks no day from the start date to the hovered one;
    without a hovered date, without a start date or with an end date it
    marks nothing. *)
Theorem X17_isDateHovered_previews_open_range p s t :
  minBookingDays p = 1 ->
  isDateHovered p s t
  = Ok (match hoveredDate s, startDate p, endDate p with
        | Some o, Some r, None =>
            negb (isBefore o r) && ((t >=? r) && (t <=? o))
            && negb (existsb (disabledDatesByUser p) (midnights r o))
        | _, _, _ => false
        end).
Proof.
  intros Hm. unfold isDateHovered, isDateHoveredFn.
  cbn [idh_date idh_startDate idh_endDate idh_isDateBlocked idh_hoveredDate
       idh_minBookingDays idh_exactMinBookingDays].
  rewrite Hm. change (1 >? 1) with false. change (1 - 1) with 0.
  destruct (hoveredDate s) as [o|]; [|reflexivity].
  cbn [andb andR bind].
  destruct (startDate p) as [r|], (endDate p) as [e|]; try reflexivity.
  rewrite isWithinInterval_ok by (rewrite addDays_eq; lia).
  cbn [bind]. rewrite andb_false_r. unfold hoveredInOpenRange.
  destruct (isBefore o r) eqn:B; cbn [orR bind negb andb]; [reflexivity|].
  apply isBefore_false in B.
  rewrite isWithinInterval_ok by assumption. cbn [bind].
  destruct ((t >=? r) && (t <=? o))%bool; cbn [negb orR bind andb]; [|reflexivity].
  rewrite someDayOf_midnights by assumption. reflexivity.
Qed.

Lemma X17_witness :
  let p := feed defaultProps
             {| data_focusedInput := Some END_DATE;
                data_startDate := Some (newDateYMD 2024 0 10);
                data_endDate := None |} in
  let s := {| activeMonths := []; hoveredDate := Some (newDateYMD 2024 0 14);
              focusedDate := None |} in
  minBookingDays p = 1
  /\ isDateHovered p s (newDateYMD 2024 0 12) = Ok true
  /\ isDateHovered p s (newDateYMD 2024 0 15) = Ok false.
Proof.
  intros p s.
  assert (H : minBookingDays p = 1) by reflexivity.
  split; [exact H|].
  split; rewrite (X17_isDateHovered_previews_open_range p s _ H);
    vm_compute; reflexivity.
Defined.

(** X18.  On a month window, the window-level key handler reacts only
    to an arrow key pressed while no date is focused: it then focuses
    the first day of the first visible month.  It never throws there,
    never calls [onDatesChange], and leaves the visible months and the
    hovered date as they are. *)
Theorem X18_first_arrow_key_focuses_first_visible_day now p s k :
  isMonthWindow (numberOfMonths p) (activeMonths s) = true ->
  1 <= numberOfMonths p ->
  exists es,
    handleKeyDown now p s k = Ok es
    /\ emitted es = []
    /\ activeMonths (runEffects s es) = activeMonths s
    /\ hoveredDate (runEffects s es) = hoveredDate s
    /\ focusedDate (runEffects s es)
       = match focusedDate s with
         | Some f => Some f
         | None => if isArrow k then option_map date (hd_error (activeMonths s))
                   else None
         end.
Proof.
  intros Hw Hn. unfold handleKeyDown.
  destruct (isArrow k) eqn:A, (focusedDate s) as [f|] eqn:Ef;
    cbn [isNone isSome negb andb].
  2: { destruct (isMonthWindow_window _ _ Hw Hn) as [i Hi].
       destruct (Z.to_nat (numberOfMonths p)) as [|m] eqn:Em; [lia|].
       rewrite Hi, window_S. cbn [nth_error date monthAt hd_error option_map].
       unfold onDateFocus, dateLeavesFocus. rewrite Ef.
       rewrite getInitialMonths_window, monthIndex_firstOfMonth.
       rewrite Z.max_r by lia. rewrite Em, <- window_S.
       eexists. split; [reflexivity|]. cbn [app emitted runEffects fold_left runEffect
         activeMonths hoveredDate focusedDate].
       rewrite window_S. cbn [hd_error option_map date monthAt].
       repeat split; reflexivity. }
  all: eexists; split; [reflexivity|];
    cbn [emitted runEffects fold_left]; rewrite ?Ef; repeat split; reflexivity.
Qed.

Lemma X18_witness :
  let now := newDateYMD 2024 0 15 in
  let s := initialState now defaultProps in
  isMonthWindow (numberOfMonths defaultProps) (activeMonths s) = true
  /\ 1 <= numberOfMonths defaultProps
  /\ exists es,
       handleKeyDown now defaultProps s ArrowDown = Ok es
       /\ focusedDate (runEffects s es) = Some (newDateYMD 2024 0 1).
Proof.
  intros now s.
  assert (H1 : isMonthWindow (numberOfMonths defaultProps) (activeMonths s) = true)
    by (vm_compute; reflexivity).
  assert (H2 : 1 <= numberOfMonths defaultProps) by (cbn; lia).
  split; [exact H1|]. split; [exact H2|].
  destruct (X18_first_arrow_key_focuses_first_visible_day now defaultProps s ArrowDown
              H1 H2) as [es [E [_ [_ [_ F]]]]].
  exists es. split; [exact E|]. rewrite F. vm_compute. reflexivity.
Defined.



Module UseMonthFacts.
Import JSDate DateFns Utils MonthWindow Calendar UseMonth.
Import JSDateFacts MonthWindowFacts DateFnsFacts CalendarFacts DateFnsFacts2 WeekFacts.

Lemma firstOfMonth_midnight j : firstOfMonth j = MakeDay 0 j 1 * msPerDay.
Proof. unfold firstOfMonth, MakeDate. lia. Qed.

Lemma newDateYM_firstOfMonth t r : exists j, newDateYM t r = firstOfMonth j.
Proof.
  unfold newDateYM, newDateYMD. cbv zeta. eexists.
  rewrite MakeDay_monthIndex. apply firstOfMonth_fold.
Qed.

(** The days of month number [j], as [eachDayOfInterval] lists them. *)
Lemma month_days j :
  eachDayOfInterval (firstOfMonth j) (firstOfMonth (j + 1) - 1)
  = Ok (map (fun k => addDays (firstOfMonth j) (Z.of_nat k))
          (seq 0 (Z.to_nat (daysOfMonth j)))).
Proof.
  pose proof (daysOfMonth_range j) as R.
  rewrite firstOfMonth_next, eachDayOfInterval_ok by (unfold msPerDay; lia).
  rewrite startOfDay_eq, !firstOfMonth_midnight, !Day_midnight.
  replace (MakeDay 0 j 1 * msPerDay + daysOfMonth j * msPerDay - 1)
    with (MakeDate (MakeDay 0 j 1 + daysOfMonth j - 1) (msPerDay - 1))
    by (unfold MakeDate; lia).
  rewrite Day_MakeDate by (unfold msPerDay; lia).
  replace (MakeDay 0 j 1 + daysOfMonth j - 1 - MakeDay 0 j 1 + 1)
    with (daysOfMonth j) by lia.
  reflexivity.
Qed.

Lemma blanks_count c a :
  0 <= c <= 6 -> 0 <= a <= 6 ->
  (if c >=? a then c - a else 6 - a + c + 1) = (c - a) mod 7.
Proof.
  intros Hc Ha. destruct (Z.geb_spec c a).
  - rewrite Z.mod_small by lia. reflexivity.
  - replace (c - a) with (6 - a + c + 1 + (-1) * 7) by lia.
    rewrite Z.mod_add, Z.mod_small by lia. reflexivity.
Qed.

End UseMonthFacts.

Import UseMonth UseMonthFacts.

(** X20.  With [firstDayOfWeek] from 0 to 6, [getDays] returns at most
    six blank cells followed by one cell for each day of the month, in
    order and at midnight, and the cells are aligned with the week: the
    cell at position [p] of the list falls on day
    [(firstDayOfWeek + p) mod 7] of the week. *)
Theorem X20_getDays_aligns_month_with_week {Label : Type} (t r a : Z)
    (i : Date -> Label) :
  0 <= a <= 6 ->
  let d := newDateYM t r in
  let k := Z.to_nat ((getDay (startOfMonth d) - a) mod 7) in
  getDays Label t r a i
  = Ok (repeat Blank k
        ++ map (fun n =>
                  DayCell (addDays (startOfMonth d) (Z.of_nat n))
                    (i (addDays (startOfMonth d) (Z.of_nat n))))
             (seq 0 (Z.to_nat (getDaysInMonth d))))
  /\ (k <= 6)%nat
  /\ forall n,
       getDay (addDays (startOfMonth d) (Z.of_nat n)) = (a + Z.of_nat (k + n)) mod 7.
Proof.
  intros Ha d k.
  destruct (newDateYM_firstOfMonth t r) as [j Hj].
  assert (Es : startOfMonth d = firstOfMonth j).
  { unfold d. rewrite Hj, startOfMonth_eq, monthIndex_firstOfMonth. reflexivity. }
  assert (Eu : endOfMonth d = firstOfMonth (j + 1) - 1).
  { unfold d. rewrite Hj, endOfMonth_eq, monthIndex_firstOfMonth. reflexivity. }
  assert (Em : getDaysInMonth d = daysOfMonth j).
  { unfold d. rewrite Hj, getDaysInMonth_eq, monthIndex_firstOfMonth. reflexivity. }
  pose proof (getDay_range (firstOfMonth j)) as Hc.
  pose proof (Z.mod_pos_bound (getDay (firstOfMonth j) - a) 7 ltac:(lia)) as Hk.
  unfold k. rewrite Es, Em. split; [|split].
  - unfold getDays. cbv zeta. fold d. rewrite Es, Eu.
    rewrite blanks_count by assumption. unfold blanks.
    destruct (Z.ltb_spec ((getDay (firstOfMonth j) - a) mod 7) 0); [lia|].
    cbn [bind]. rewrite month_days. cbn [bind]. rewrite map_map. reflexivity.
  - lia.
  - intros n. rewrite addDays_eq, getDay_shift.
    rewrite Nat2Z.inj_add, Z2Nat.id by lia.
    unfold getDay, WeekDay in *. Z.div_mod_to_equations. lia.
Qed.

Lemma X20_witness :
  0 <= 1 <= 6
  /\ getDays Z 2024 1 1 getDate
     = Ok (repeat Blank 3
           ++ map (fun n => DayCell (addDays (newDateYMD 2024 1 1) (Z.of_nat n))
                              (getDate (addDays (newDateYMD 2024 1 1) (Z.of_nat n))))
               (seq 0 29)).
Proof.
  assert (H : 0 <= 1 <= 6) by lia.
  split; [exact H|].
  rewrite (proj1 (X20_getDays_aligns_month_with_week 2024 1 1 getDate H)).
  vm_compute. reflexivity.
Defined.

(** X21.  [getWeekdayLabels] returns seven labels, those of seven
    consecutive midnights, and the first is on day [firstDayOfWeek mod 7]
    of the week: the days are counted from the Sunday that starts the
    current week. *)
Theorem X21_getWeekdayLabels_starts_on_first_day_of_week {Label : Type}
    (now n : Z) (o : Date -> Label) :
  exists w,
    startOfWeek now 0 = Ok w
    /\ getWeekdayLabels Label now n o
       = Ok (map (fun k => o (addDays w (n + Z.of_nat k))) (seq 0 7))
    /\ forall k, startOfDay (addDays w k) = addDays w k
                 /\ getDay (addDays w k) = k mod 7.
Proof.
  pose proof (Z.mod_pos_bound (getDay now - 0) 7 ltac:(lia)) as Hc.
  set (c := (getDay now - 0) mod 7) in *.
  exists (addDays (startOfDay now) (- c)).
  split; [apply startOfWeek_ok; lia|].
  assert (Ew : addDays (startOfDay now) (- c) = (Day now - c) * msPerDay).
  { rewrite addDays_eq, startOfDay_eq. lia. }
  rewrite Ew. split.
  - unfold getWeekdayLabels. rewrite startOfWeek_ok, endOfWeek_ok by lia.
    cbn [bind]. fold c. rewrite Ew.
    replace (addDays (startOfDay now) (7 - c) - 1)
      with ((Day now - c) * msPerDay + 7 * msPerDay - 1)
      by (rewrite addDays_eq, startOfDay_eq; lia).
    rewrite !(addDays_eq _ n).
    replace ((Day now - c) * msPerDay + n * msPerDay)
      with ((Day now - c + n) * msPerDay) by lia.
    replace ((Day now - c) * msPerDay + 7 * msPerDay - 1 + n * msPerDay)
      with (MakeDate (Day now - c + n + 6) (msPerDay - 1))
      by (unfold MakeDate; lia).
    rewrite eachDayOfInterval_ok by (unfold MakeDate, msPerDay; lia).
    rewrite Day_MakeDate by (unfold msPerDay; lia).
    rewrite startOfDay_eq, Day_midnight.
    replace (Day now - c + n + 6 - (Day now - c + n) + 1) with 7 by lia.
    cbn [bind]. rewrite map_map. f_equal. apply map_ext. intros k.
    f_equal. rewrite !addDays_eq. lia.
  - intros k. rewrite addDays_eq.
    replace ((Day now - c) * msPerDay + k * msPerDay)
      with ((Day now - c + k) * msPerDay) by lia.
    rewrite startOfDay_eq, Day_midnight. split; [reflexivity|].
    unfold getDay, WeekDay. rewrite Day_midnight.
    unfold c, getDay, WeekDay. Z.div_mod_to_equations. lia.
Qed.

Module SingleInputFacts.
Import JSDate DateFns Utils Hook Selection Calendar SingleInput.
Import JSDateFacts DateFnsFacts UtilsFacts HookFacts CalendarFacts DateFnsFacts2.
Import RangeFacts SelectFacts.

(** The single-date picker never shows a hover preview. *)
Lemma single_isDateHovered t s date :
  isDateHovered (hookProps t) s date = Ok false.
Proof.
  unfold isDateHovered, isDateHoveredFn, hookProps.
  cbn [idh_date idh_startDate idh_endDate idh_isDateBlocked idh_hoveredDate
       idh_minBookingDays idh_exactMinBookingDays
       startDate endDate minBookingDays exactMinBookingDays].
  destruct (hoveredDate s) as [o|]; [|reflexivity].
  change (1 >? 1) with false. cbn [andb andR bind].
  destruct (sp_date t); reflexivity.
Qed.

(** A date the caller does not block is committed at once. *)
Lemma single_onDateSelect_change t date :
  sp_showDatepicker t = true ->
  disabledDatesByUser (hookProps t) date = false ->
  onDateSelect_change (hookProps t) date
  = Ok [OnDatesChange {| data_focusedInput := None;
                         data_startDate := Some date;
                         data_endDate := Some (addDays date (1 - 1)) |}].
Proof.
  intros Hs Hd. unfold onDateSelect_change. cbv zeta.
  rewrite canSelectRange_single; [| reflexivity | reflexivity | exact Hd].
  unfold hookProps at 1 2 3 4.
  cbn [focusedInput minBookingDays exactMinBookingDays]. rewrite Hs.
  reflexivity.
Qed.

Lemma single_onDateSelect now t s date :
  sp_showDatepicker t = true ->
  disabledDatesByUser (hookProps t) date = false ->
  exists es,
    onDateSelect now (hookProps t) s date = Ok es
    /\ reported es = [{| showDatepicker := false; single_date := Some date |}].
Proof.
  intros Hs Hd.
  destruct (onDateSelect_emitted now (hookProps t) s date _
              (single_onDateSelect_change t date Hs Hd)) as [es [E1 E2]].
  exists es. split; [exact E1|]. unfold reported. rewrite E2. reflexivity.
Qed.

End SingleInputFacts.

Import SingleInput SingleInputFacts.

(** X22.  In the single-date picker, while it is open, a click on a day
    that [isDateBlocked] blocks reports nothing, and a click on any
    other day reports that day as the date and closes the picker; no day
    is ever part of a hover preview there. *)
Theorem X22_single_date_click now t s date :
  sp_showDatepicker t = true ->
  exists b,
    isDateBlocked (hookProps t) date = Ok b
    /\ isDateHovered (hookProps t) s date = Ok false
    /\ clickDay now t s date
       = Ok (if b then []
             else [{| showDatepicker := false; single_date := Some date |}]).
Proof.
  intros Hs. unfold clickDay, dayOnClick, dayDisabled. rewrite Hs.
  rewrite single_isDateHovered, isDateBlocked_eq. cbn [bind].
  eexists. split; [reflexivity|]. split; [reflexivity|].
  destruct (beforeMinBookingDate (hookProps t) date
            || afterMaxBookingDate (hookProps t) date
            || inMinStayWindow (hookProps t) date
            || disabledDatesByUser (hookProps t) date)%bool eqn:B;
    cbn [andR negb bind]; [reflexivity|].
  apply orb_false_iff in B. destruct B as [_ B].
  destruct (single_onDateSelect now t s date Hs B) as [es [E R]].
  rewrite E. cbn [bind]. rewrite R. reflexivity.
Qed.

Lemma X22_witness :
  let t := {| sp_date := None; sp_showDatepicker := true;
              sp_minBookingDate := Some (newDateYMD 2024 0 10);
              sp_maxBookingDate := None; sp_initialVisibleMonth := None;
              sp_numberOfMonths := 1; sp_isDateBlocked := fun _ => false;
              sp_unavailableDates := [] |} in
  let s := initialState (newDateYMD 2024 0 1) (hookProps t) in
  sp_showDatepicker t = true
  /\ clickDay (newDateYMD 2024 0 1) t s (newDateYMD 2024 0 5) = Ok []
  /\ clickDay (newDateYMD 2024 0 1) t s (newDateYMD 2024 0 12)
     = Ok [{| showDatepicker := false; single_date := Some (newDateYMD 2024 0 12) |}].
Proof.
  intros t s.
  assert (H : sp_showDatepicker t = true) by reflexivity.
  split; [exact H|].
  split.
  - destruct (X22_single_date_click (newDateYMD 2024 0 1) t s (newDateYMD 2024 0 5) H)
      as [b [B [_ C]]].
    rewrite C. assert (Eb : b = true).
    { assert (B' : isDateBlocked (hookProps t) (newDateYMD 2024 0 5) = Ok true)
        by (vm_compute; reflexivity).
      rewrite B' in B. injection B as B. symmetry. exact B. }
    rewrite Eb. reflexivity.
  - vm_compute. reflexivity.
Defined.

(** X23.  In the single-date picker, while it is open, a date typed
    into the input is reported as the date, and the picker closed,
    whenever the caller's own blocking (the predicate and the
    unavailable dates) lets it through: the minimum and maximum booking
    dates are not looked at on this path. *)
Theorem X23_single_date_input_ignores_booking_dates now t s date :
  sp_showDatepicker t = true ->
  disabledDatesByUser (hookProps t) date = false ->
  inputOnChange now t s date
  = Ok [{| showDatepicker := false; single_date := Some date |}].
Proof.
  intros Hs Hd. unfold inputOnChange. rewrite Hs.
  destruct (single_onDateSelect now t s date Hs Hd) as [es [E R]].
  rewrite E. cbn [bind]. rewrite R. reflexivity.
Qed.

Lemma X23_witness :
  let t := {| sp_date := None; sp_showDatepicker := true;
              sp_minBookingDate := Some (newDateYMD 2024 0 10);
              sp_maxBookingDate := None; sp_initialVisibleMonth := None;
              sp_numberOfMonths := 1; sp_isDateBlocked := fun _ => false;
              sp_unavailableDates := [] |} in
  let s := initialState (newDateYMD 2024 0 1) (hookProps t) in
  sp_showDatepicker t = true
  /\ disabledDatesByUser (hookProps t) (newDateYMD 2024 0 5) = false
  /\ isDateBlocked (hookProps t) (newDateYMD 2024 0 5) = Ok true
  /\ inputOnChange (newDateYMD 2024 0 1) t s (newDateYMD 2024 0 5)
     = Ok [{| showDatepicker := false; single_date := Some (newDateYMD 2024 0 5) |}].
Proof.
  intros t s.
  assert (H1 : sp_showDatepicker t = true) by reflexivity.
  assert (H2 : disabledDatesByUser (hookProps t) (newDateYMD 2024 0 5) = false)
    by reflexivity.
  split; [exact H1|]. split; [exact H2|].
  split; [vm_compute; reflexivity|].
  exact (X23_single_date_input_ignores_booking_dates _ t s _ H1 H2).
Defined.

(** X24.  When the caller's blocking predicate depends on the day only,
    [onDateSelect] on a date the caller blocks (by the predicate or as
    an unavailable date) never calls [onDatesChange], whatever the
    focused input and the mode. *)
Theorem X24_blocked_date_is_never_selected now p s date es :
  (forall x, isDateBlockedProps p (startOfDay x) = isDateBlockedProps p x) ->
  disabledDatesByUser p date = true ->
  onDateSelect now p s date = Ok es ->
  emitted es = [].
Proof.
  intros G Hb H. apply emitted_onDateSelect in H. destruct H as [ch [H E]].
  rewrite E. exact (onDateSelect_change_blocked p G date ch Hb H).
Qed.

Lemma X24_witness :
  let now := newDateYMD 2024 0 1 in
  let p := {| startDate := Some (newDateYMD 2024 0 10); endDate := None;
              focusedInput := Some END_DATE;
              minBookingDate := None; maxBookingDate := None;
              initialVisibleMonth := None; exactMinBookingDays := false;
              minBookingDays := 1; numberOfMonths := 2;
              isDateBlockedProps := fun _ => false;
              unavailableDates := [newDateYMD 2024 0 12] |} in
  let s := initialState now p in
  (forall x, isDateBlockedProps p (startOfDay x) = isDateBlockedProps p x)
  /\ disabledDatesByUser p (newDateYMD 2024 0 12) = true
  /\ onDateSelect now p s (newDateYMD 2024 0 12) = Ok []
  /\ emitted [] = [].
Proof.
  intros now p s.
  assert (G : forall x, isDateBlockedProps p (startOfDay x) = isDateBlockedProps p x)
    by reflexivity.
  assert (Hb : disabledDatesByUser p (newDateYMD 2024 0 12) = true)
    by (vm_compute; reflexivity).
  assert (H : onDateSelect now p s (newDateYMD 2024 0 12) = Ok [])
    by (vm_compute; reflexivity).
  split; [exact G|]. split; [exact Hb|]. split; [exact H|].
  exact (X24_blocked_date_is_never_selected now p s _ [] G Hb H).
Defined.

Module TotalFacts.
Import JSDate DateFns Utils Hook Selection Calendar.
Import JSDateFacts DateFnsFacts UtilsFacts HookFacts CalendarFacts DateFnsFacts2.
Import RangeFacts SelectFacts.

Lemma hoveredInOpenRange_total t r n a o :
  exists b, hoveredInOpenRange t r n a o = Ok b.
Proof.
  unfold hoveredInOpenRange. destruct r as [r|]; [|eauto]. destruct n; [eauto|].
  destruct (isBefore o r) eqn:B; cbn [orR bind]; [eauto|].
  apply isBefore_false in B. rewrite isWithinInterval_ok by assumption.
  cbn [bind]. destruct ((t >=? r) && (t <=? o))%bool; cbn [negb orR bind]; [|eauto].
  rewrite someDayOf_midnights by assumption. cbn [bind]. eauto.
Qed.

Lemma isDateHovered_total p s t :
  1 <= minBookingDays p -> exists b, isDateHovered p s t = Ok b.
Proof.
  intros Ha. unfold isDateHovered, isDateHoveredFn.
  cbn [idh_date idh_startDate idh_endDate idh_isDateBlocked idh_hoveredDate
       idh_minBookingDays idh_exactMinBookingDays].
  destruct (hoveredDate s) as [o|]; [|eauto].
  rewrite isWithinInterval_ok by (apply addDays_le; assumption).
  destruct ((minBookingDays p >? 1) && exactMinBookingDays p)%bool; cbn [andR bind].
  - destruct ((t >=? o) && _)%bool.
    + rewrite someDayOf_midnights by (apply addDays_le; assumption). cbn [bind]. eauto.
    + destruct (startDate p) as [r|], (endDate p) as [e|];
        try apply hoveredInOpenRange_total.
      rewrite isWithinInterval_ok by (apply addDays_le; assumption). cbn [bind].
      destruct (_ && _ && _)%bool; [|apply hoveredInOpenRange_total].
      rewrite someDayOf_midnights by (apply addDays_le; assumption). cbn [bind]. eauto.
  - destruct (startDate p) as [r|], (endDate p) as [e|];
      try apply hoveredInOpenRange_total.
    rewrite isWithinInterval_ok by (apply addDays_le; assumption). cbn [bind].
    destruct (_ && _ && _)%bool; [|apply hoveredInOpenRange_total].
    rewrite someDayOf_midnights by (apply addDays_le; assumption). cbn [bind]. eauto.
Qed.

End TotalFacts.

Import TotalFacts.

(** X25.  With [minBookingDays] at least 1 the selection handlers of
    the hook never throw: [onDateSelect], [isDateHovered] and the click
    handler of a day all return.  With [minBookingDays = 0] they can
    throw: there are props with which [onDateSelect] throws a
    [RangeError] (a new start date less than a day after the end
    date). *)
Theorem X25_selection_never_throws now p s date :
  1 <= minBookingDays p ->
  (exists es, onDateSelect now p s date = Ok es)
  /\ (exists b, isDateHovered p s date = Ok b)
  /\ (exists es, dayOnClick now p s date = Ok es)
  /\ (exists p' s' date',
        minBookingDays p' = 0
        /\ onDateSelect now p' s' date' = Throw RangeError).
Proof.
  intros Ha.
  pose proof (onDateSelect_total now p s date Ha) as S.
  pose proof (isDateHovered_total p s date Ha) as [h Hh].
  split; [exact S|]. split; [eauto|]. split.
  - unfold dayOnClick, dayDisabled. rewrite isDateBlocked_eq, Hh. cbn [bind].
    destruct (_ || _)%bool; cbn [andR bind]; [destruct (negb h)|]; eauto.
  - exists {| startDate := None; endDate := Some (newDateYMD 2024 0 10);
              focusedInput := Some START_DATE;
              minBookingDate := None; maxBookingDate := None;
              initialVisibleMonth := None; exactMinBookingDays := false;
              minBookingDays := 0; numberOfMonths := 2;
              isDateBlockedProps := fun _ => false; unavailableDates := [] |}.
    exists {| activeMonths := []; hoveredDate := None; focusedDate := None |}.
    exists (newDateYMD 2024 0 10 + 1).
    split; [reflexivity|]. unfold onDateSelect.
    replace (onDateSelect_change _ _) with (@Throw (list Effect) RangeError)
      by (vm_compute; reflexivity).
    reflexivity.
Qed.

Lemma X25_witness :
  let now := newDateYMD 2024 0 1 in
  let s := initialState now defaultProps in
  1 <= minBookingDays defaultProps
  /\ exists es, dayOnClick now defaultProps s (newDateYMD 2024 0 12) = Ok es.
Proof.
  intros now s.
  assert (H : 1 <= minBookingDays defaultProps) by (cbn; lia).
  split; [exact H|].
  exact (proj1 (proj2 (proj2
           (X25_selection_never_throws now defaultProps s (newDateYMD 2024 0 12) H)))).
Defined.
